(** * The allocation runner of client/allocrunner/alloc_runner.go

    A shallow embedding of the allocation runner: its data (allocations,
    task states, the event ring), the derived client status, the task-state
    callback with its sibling and leader cascades, snapshot composition, the
    persistence transaction against an abstract transactional store, state
    restoration and the update queue; then [SaveState], the part of [Run]
    that starts the task runners, one turn of its update loop, the
    destruction of the task runners and the start of [handleDestroy].

    Conventions of the embedding.
    - A Go [map[string]*T] is a [gmap string T]; a missing key and a nil
      pointer value are both [None], and a nil map is the empty map (the
      constructor allocates every map of the runner).
    - A Go pointer that the code tests against nil is an [option].
    - [range] over a map visits the entries in the order of [map_to_list];
      Go leaves that order unspecified, so the statements below speak about
      membership, never about that order.
    - The wall clock ([time.Now]) is an argument of every function reading
      it; the reads within one call see the same instant.
    - A nil-pointer dereference (a Go panic) is the result [None]. *)

From stdpp Require Import gmap strings list fin_maps.
From Stdlib Require Import ZArith.

Open Scope string_scope.
Open Scope list_scope.

(** ** Constants of package structs *)

(** Modelled from the spec: the string constants of package [structs], which
    the runner only names.  Task states and client statuses are spelled as
    the spec's data model spells them. *)
Definition TaskStatePending : string := "pending".
Definition TaskStateRunning : string := "running".
Definition TaskStateDead : string := "dead".

Definition AllocClientStatusPending : string := "pending".
Definition AllocClientStatusRunning : string := "running".
Definition AllocClientStatusComplete : string := "complete".
Definition AllocClientStatusFailed : string := "failed".

(** Modelled from the spec: the task event types the runner emits or reads. *)
Definition TaskKilled : string := "Killed".
Definition TaskRestarting : string := "Restarting".
Definition TaskSiblingFailed : string := "Sibling Task Failed".
Definition TaskLeaderDead : string := "Leader Task Dead".

(** ** Time *)

(** A [time.Time] is the number of nanoseconds since Go's zero instant, so
    that [IsZero] is comparison with 0.  [time.Unix 0 n] shifts a Unix
    timestamp by the distance between the two origins. *)
Definition Time := Z.
Definition IsZero (t : Time) : bool := (t =? 0)%Z.
Definition unixEpoch : Z := (62135596800 * 1000000000)%Z.
Definition timeUnix (nsec : Z) : Time := (unixEpoch + nsec)%Z.
Definition UnixNano (t : Time) : Z := (t - unixEpoch)%Z.

(** ** Data model *)

Record TaskEvent := mkTaskEvent {
  Type_ : string;
  EvTime : Z;
  FailsTask : bool;
  FailedSibling : string
}.

Definition NewTaskEvent (now : Time) (ty : string) : TaskEvent :=
  {| Type_ := ty; EvTime := UnixNano now; FailsTask := false; FailedSibling := "" |}.

Definition SetFailedSibling (e : TaskEvent) (sibling : string) : TaskEvent :=
  {| Type_ := Type_ e; EvTime := EvTime e; FailsTask := FailsTask e;
     FailedSibling := sibling |}.

Record TaskState := mkTaskState {
  State : string;
  Failed : bool;
  Restarts : Z;
  LastRestart : Time;
  StartedAt : Time;
  FinishedAt : Time;
  Events : list TaskEvent
}.

(** [&structs.TaskState{}] *)
Definition zeroTaskState : TaskState :=
  {| State := ""; Failed := false; Restarts := 0%Z; LastRestart := 0%Z;
     StartedAt := 0%Z; FinishedAt := 0%Z; Events := [] |}.

Record Task := mkTask {
  TaskName : string;
  Leader : bool
}.

Record TaskGroup := mkTaskGroup {
  GroupName : string;
  Tasks : list Task
}.

Record Job := mkJob {
  JobName : string;
  TaskGroups : list TaskGroup
}.

Record AllocDeploymentStatus := mkDeploymentStatus {
  Healthy : option bool;
  Timestamp : Time
}.

Record Allocation := mkAllocation {
  ID : string;
  EvalID : string;
  DeploymentID : string;
  AllocTaskGroup : string;
  AllocJob : option Job;
  AllocModifyIndex : Z;
  DesiredStatus : string;
  ClientStatus : string;
  ClientDescription : string;
  TaskStates : gmap string TaskState;
  DeploymentStatus : option AllocDeploymentStatus
}.

(** ** Field updates

    Go assigns to one field of a struct in place; each [set_f v x] is the
    record [x] with field [f] replaced by [v]. *)

Definition set_State (v : string) (s : TaskState) : TaskState :=
  mkTaskState v (Failed s) (Restarts s) (LastRestart s) (StartedAt s)
    (FinishedAt s) (Events s).

Definition set_Failed (v : bool) (s : TaskState) : TaskState :=
  mkTaskState (State s) v (Restarts s) (LastRestart s) (StartedAt s)
    (FinishedAt s) (Events s).

Definition set_Restarts (v : Z) (s : TaskState) : TaskState :=
  mkTaskState (State s) (Failed s) v (LastRestart s) (StartedAt s) (FinishedAt
    s) (Events s).

Definition set_LastRestart (v : Time) (s : TaskState) : TaskState :=
  mkTaskState (State s) (Failed s) (Restarts s) v (StartedAt s) (FinishedAt s)
    (Events s).

Definition set_StartedAt (v : Time) (s : TaskState) : TaskState :=
  mkTaskState (State s) (Failed s) (Restarts s) (LastRestart s) v (FinishedAt
    s) (Events s).

Definition set_FinishedAt (v : Time) (s : TaskState) : TaskState :=
  mkTaskState (State s) (Failed s) (Restarts s) (LastRestart s) (StartedAt s)
    v (Events s).

Definition set_Events (v : list TaskEvent) (s : TaskState) : TaskState :=
  mkTaskState (State s) (Failed s) (Restarts s) (LastRestart s) (StartedAt s)
    (FinishedAt s) v.

Definition set_ClientStatus (v : string) (a : Allocation) : Allocation :=
  mkAllocation (ID a) (EvalID a) (DeploymentID a) (AllocTaskGroup a) (AllocJob
    a) (AllocModifyIndex a) (DesiredStatus a) v (ClientDescription a)
    (TaskStates a) (DeploymentStatus a).

Definition set_ClientDescription (v : string) (a : Allocation) : Allocation :=
  mkAllocation (ID a) (EvalID a) (DeploymentID a) (AllocTaskGroup a) (AllocJob
    a) (AllocModifyIndex a) (DesiredStatus a) (ClientStatus a) v (TaskStates
    a) (DeploymentStatus a).

Definition set_TaskStates (v : gmap string TaskState) (a : Allocation) : Allocation :=
  mkAllocation (ID a) (EvalID a) (DeploymentID a) (AllocTaskGroup a) (AllocJob
    a) (AllocModifyIndex a) (DesiredStatus a) (ClientStatus a)
    (ClientDescription a) v (DeploymentStatus a).

Definition set_DeploymentStatus (v : option AllocDeploymentStatus) (a : Allocation) : Allocation :=
  mkAllocation (ID a) (EvalID a) (DeploymentID a) (AllocTaskGroup a) (AllocJob
    a) (AllocModifyIndex a) (DesiredStatus a) (ClientStatus a)
    (ClientDescription a) (TaskStates a) v.

(** ** Collaborators of the runner *)

(** The fields of [config.Config] the runner reads. *)
Record Config := mkConfig {
  DisableTaggedMetrics : bool;
  BackwardsCompatibleMetrics : bool;
  Version : string
}.

(** The allocation directory: its path and the task directories it knows. *)
Record AllocDir := mkAllocDir {
  AllocDirPath : string;
  TaskDirs : gset string
}.

Definition NewTaskDir (name : string) (d : AllocDir) : AllocDir :=
  {| AllocDirPath := AllocDirPath d; TaskDirs := {[name]} ∪ TaskDirs d |}.

(** Modelled from the spec: a task runner, of which the runner consumes the
    contract only.  It is built for one task of the group and answers
    [IsLeader] with that task's [Leader] flag; every call the runner makes on
    it is recorded as an [Effect]. *)
Record TaskRunner := mkTaskRunner {
  tr_task : Task;
  tr_alloc : option Allocation
}.

Definition IsLeader (tr : TaskRunner) : bool := Leader (tr_task tr).

(** What the runner does to the outside: calls on task runners, the upstream
    updater, the broadcaster, the logger and the metrics sink. *)
Inductive Effect :=
| EDestroy (task : string) (ev : TaskEvent)
| ERun (task : string)
| ERestart (task reason desc : string) (failure : bool)
| EMarkReceived (task : string)
| ETaskUpdate (task : string) (update : Allocation)
| ETaskRestore (task : string)
| EUpdater (snapshot : Allocation)
| EBroadcast (snapshot : Allocation)
| ELog (level : string) (args : list string)
| EMetricLabels (key : list string) (labels : list (string * string))
| EMetric (key : list string).

(** ** The runner *)

(** The mutable fields of [AllocRunner].  [dirtyCh] has capacity 1: it holds
    a token or not.  [updateCh] is the buffered channel of capacity 64, oldest
    element first.  [ctxCanceled] is [r.ctx.Err() == context.Canceled]. *)
Record AllocRunner := mkAllocRunner {
  config : Config;
  allocID : string;
  alloc : option Allocation;
  allocClientStatus : string;
  allocClientDescription : string;
  allocHealth : option bool;
  allocHealthTime : Time;
  broadcastClosed : bool;
  dirtyCh : bool;
  allocDir : option AllocDir;
  tasks : gmap string TaskRunner;
  taskStates : gmap string TaskState;
  restored : gset string;
  updateCh : list Allocation;
  ctxCanceled : bool;
  persistedEval : string;
  immutablePersisted : bool;
  allocDirPersisted : bool;
  baseLabels : list (string * string)
}.

Definition set_alloc (v : option Allocation) (r : AllocRunner) : AllocRunner :=
  mkAllocRunner (config r) (allocID r) v (allocClientStatus r)
    (allocClientDescription r) (allocHealth r) (allocHealthTime r)
    (broadcastClosed r) (dirtyCh r) (allocDir r) (tasks r) (taskStates r)
    (restored r) (updateCh r) (ctxCanceled r) (persistedEval r)
    (immutablePersisted r) (allocDirPersisted r) (baseLabels r).

Definition set_allocClientStatus (v : string) (r : AllocRunner) : AllocRunner :=
  mkAllocRunner (config r) (allocID r) (alloc r) v (allocClientDescription r)
    (allocHealth r) (allocHealthTime r) (broadcastClosed r) (dirtyCh r)
    (allocDir r) (tasks r) (taskStates r) (restored r) (updateCh r)
    (ctxCanceled r) (persistedEval r) (immutablePersisted r)
    (allocDirPersisted r) (baseLabels r).

Definition set_allocClientDescription (v : string) (r : AllocRunner) : AllocRunner :=
  mkAllocRunner (config r) (allocID r) (alloc r) (allocClientStatus r) v
    (allocHealth r) (allocHealthTime r) (broadcastClosed r) (dirtyCh r)
    (allocDir r) (tasks r) (taskStates r) (restored r) (updateCh r)
    (ctxCanceled r) (persistedEval r) (immutablePersisted r)
    (allocDirPersisted r) (baseLabels r).

Definition set_allocHealth (v : option bool) (r : AllocRunner) : AllocRunner :=
  mkAllocRunner (config r) (allocID r) (alloc r) (allocClientStatus r)
    (allocClientDescription r) v (allocHealthTime r) (broadcastClosed r)
    (dirtyCh r) (allocDir r) (tasks r) (taskStates r) (restored r) (updateCh
    r) (ctxCanceled r) (persistedEval r) (immutablePersisted r)
    (allocDirPersisted r) (baseLabels r).

Definition set_allocHealthTime (v : Time) (r : AllocRunner) : AllocRunner :=
  mkAllocRunner (config r) (allocID r) (alloc r) (allocClientStatus r)
    (allocClientDescription r) (allocHealth r) v (broadcastClosed r) (dirtyCh
    r) (allocDir r) (tasks r) (taskStates r) (restored r) (updateCh r)
    (ctxCanceled r) (persistedEval r) (immutablePersisted r)
    (allocDirPersisted r) (baseLabels r).

Definition set_broadcastClosed (v : bool) (r : AllocRunner) : AllocRunner :=
  mkAllocRunner (config r) (allocID r) (alloc r) (allocClientStatus r)
    (allocClientDescription r) (allocHealth r) (allocHealthTime r) v (dirtyCh
    r) (allocDir r) (tasks r) (taskStates r) (restored r) (updateCh r)
    (ctxCanceled r) (persistedEval r) (immutablePersisted r)
    (allocDirPersisted r) (baseLabels r).

Definition set_dirtyCh (v : bool) (r : AllocRunner) : AllocRunner :=
  mkAllocRunner (config r) (allocID r) (alloc r) (allocClientStatus r)
    (allocClientDescription r) (allocHealth r) (allocHealthTime r)
    (broadcastClosed r) v (allocDir r) (tasks r) (taskStates r) (restored r)
    (updateCh r) (ctxCanceled r) (persistedEval r) (immutablePersisted r)
    (allocDirPersisted r) (baseLabels r).

Definition set_allocDir (v : option AllocDir) (r : AllocRunner) : AllocRunner :=
  mkAllocRunner (config r) (allocID r) (alloc r) (allocClientStatus r)
    (allocClientDescription r) (allocHealth r) (allocHealthTime r)
    (broadcastClosed r) (dirtyCh r) v (tasks r) (taskStates r) (restored r)
    (updateCh r) (ctxCanceled r) (persistedEval r) (immutablePersisted r)
    (allocDirPersisted r) (baseLabels r).

Definition set_tasks (v : gmap string TaskRunner) (r : AllocRunner) : AllocRunner :=
  mkAllocRunner (config r) (allocID r) (alloc r) (allocClientStatus r)
    (allocClientDescription r) (allocHealth r) (allocHealthTime r)
    (broadcastClosed r) (dirtyCh r) (allocDir r) v (taskStates r) (restored r)
    (updateCh r) (ctxCanceled r) (persistedEval r) (immutablePersisted r)
    (allocDirPersisted r) (baseLabels r).

Definition set_taskStates (v : gmap string TaskState) (r : AllocRunner) : AllocRunner :=
  mkAllocRunner (config r) (allocID r) (alloc r) (allocClientStatus r)
    (allocClientDescription r) (allocHealth r) (allocHealthTime r)
    (broadcastClosed r) (dirtyCh r) (allocDir r) (tasks r) v (restored r)
    (updateCh r) (ctxCanceled r) (persistedEval r) (immutablePersisted r)
    (allocDirPersisted r) (baseLabels r).

Definition set_restored (v : gset string) (r : AllocRunner) : AllocRunner :=
  mkAllocRunner (config r) (allocID r) (alloc r) (allocClientStatus r)
    (allocClientDescription r) (allocHealth r) (allocHealthTime r)
    (broadcastClosed r) (dirtyCh r) (allocDir r) (tasks r) (taskStates r) v
    (updateCh r) (ctxCanceled r) (persistedEval r) (immutablePersisted r)
    (allocDirPersisted r) (baseLabels r).

Definition set_updateCh (v : list Allocation) (r : AllocRunner) : AllocRunner :=
  mkAllocRunner (config r) (allocID r) (alloc r) (allocClientStatus r)
    (allocClientDescription r) (allocHealth r) (allocHealthTime r)
    (broadcastClosed r) (dirtyCh r) (allocDir r) (tasks r) (taskStates r)
    (restored r) v (ctxCanceled r) (persistedEval r) (immutablePersisted r)
    (allocDirPersisted r) (baseLabels r).

Definition set_ctxCanceled (v : bool) (r : AllocRunner) : AllocRunner :=
  mkAllocRunner (config r) (allocID r) (alloc r) (allocClientStatus r)
    (allocClientDescription r) (allocHealth r) (allocHealthTime r)
    (broadcastClosed r) (dirtyCh r) (allocDir r) (tasks r) (taskStates r)
    (restored r) (updateCh r) v (persistedEval r) (immutablePersisted r)
    (allocDirPersisted r) (baseLabels r).

Definition set_persistedEval (v : string) (r : AllocRunner) : AllocRunner :=
  mkAllocRunner (config r) (allocID r) (alloc r) (allocClientStatus r)
    (allocClientDescription r) (allocHealth r) (allocHealthTime r)
    (broadcastClosed r) (dirtyCh r) (allocDir r) (tasks r) (taskStates r)
    (restored r) (updateCh r) (ctxCanceled r) v (immutablePersisted r)
    (allocDirPersisted r) (baseLabels r).

Definition set_immutablePersisted (v : bool) (r : AllocRunner) : AllocRunner :=
  mkAllocRunner (config r) (allocID r) (alloc r) (allocClientStatus r)
    (allocClientDescription r) (allocHealth r) (allocHealthTime r)
    (broadcastClosed r) (dirtyCh r) (allocDir r) (tasks r) (taskStates r)
    (restored r) (updateCh r) (ctxCanceled r) (persistedEval r) v
    (allocDirPersisted r) (baseLabels r).

Definition set_allocDirPersisted (v : bool) (r : AllocRunner) : AllocRunner :=
  mkAllocRunner (config r) (allocID r) (alloc r) (allocClientStatus r)
    (allocClientDescription r) (allocHealth r) (allocHealthTime r)
    (broadcastClosed r) (dirtyCh r) (allocDir r) (tasks r) (taskStates r)
    (restored r) (updateCh r) (ctxCanceled r) (persistedEval r)
    (immutablePersisted r) v (baseLabels r).

Definition set_baseLabels (v : list (string * string)) (r : AllocRunner) : AllocRunner :=
  mkAllocRunner (config r) (allocID r) (alloc r) (allocClientStatus r)
    (allocClientDescription r) (allocHealth r) (allocHealthTime r)
    (broadcastClosed r) (dirtyCh r) (allocDir r) (tasks r) (taskStates r)
    (restored r) (updateCh r) (ctxCanceled r) (persistedEval r)
    (immutablePersisted r) (allocDirPersisted r) v.

(** ** getClientStatus *)

Record statusFlags := mkFlags {
  f_pending : bool;
  f_running : bool;
  f_dead : bool;
  f_failed : bool
}.

Definition noFlags : statusFlags := mkFlags false false false false.

(** The body of the loop of [getClientStatus]: the switch on [state.State]. *)
Definition scanState (st : TaskState) (fl : statusFlags) : statusFlags :=
  if decide (State st = TaskStateRunning) then
    mkFlags (f_pending fl) true (f_dead fl) (f_failed fl)
  else if decide (State st = TaskStatePending) then
    mkFlags true (f_running fl) (f_dead fl) (f_failed fl)
  else if decide (State st = TaskStateDead) then
    if Failed st then mkFlags (f_pending fl) (f_running fl) (f_dead fl) true
    else mkFlags (f_pending fl) (f_running fl) true (f_failed fl)
  else fl.

Definition scanStates (taskStates : gmap string TaskState) : statusFlags :=
  map_fold (fun _ st fl => scanState st fl) noFlags taskStates.

Definition getClientStatus (taskStates : gmap string TaskState) : string :=
  let fl := scanStates taskStates in
  if f_failed fl then AllocClientStatusFailed
  else if f_running fl then AllocClientStatusRunning
  else if f_pending fl then AllocClientStatusPending
  else if f_dead fl then AllocClientStatusComplete
  else "".

(** The precedence table of the specification, read off its words: failed
    if some task is dead and failed, else running if some task runs, else
    pending if some task is pending, else complete if some task is dead,
    else the empty string. *)
Definition someTask (P : TaskState -> Prop) (taskStates : gmap string TaskState) : Prop :=
  map_Exists (fun _ st => P st) taskStates.

Definition precedenceTable (taskStates : gmap string TaskState) : string :=
  if decide (someTask (fun st => State st = "dead" /\ Failed st = true) taskStates)
  then "failed"
  else if decide (someTask (fun st => State st = "running") taskStates)
  then "running"
  else if decide (someTask (fun st => State st = "pending") taskStates)
  then "pending"
  else if decide (someTask (fun st => State st = "dead") taskStates)
  then "complete"
  else "".

(** ** appendTaskEvent *)

Definition capacity : nat := 10.

(** The event list is shifted by one when it holds [capacity] events, then
    the new event is appended. *)
Definition appendTaskEvent (state : TaskState) (event : TaskEvent) : TaskState :=
  let events :=
    if decide (length (Events state) = capacity) then drop 1 (Events state)
    else Events state in
  set_Events (events ++ [event]) state.

(** ** Metrics *)

(** The two emission paths of a counter ["client"; "allocs"; ...; name]: the
    tagged one unless disabled, and the legacy one, whose key reads
    [r.alloc.Job.Name] and so needs the allocation and its job. *)
Definition incrCounter (r : AllocRunner) (path : list string) (name : string)
  : option (list Effect) :=
  let tagged :=
    if DisableTaggedMetrics (config r) then []
    else [EMetricLabels ["client"; "allocs"; name] (baseLabels r)] in
  if BackwardsCompatibleMetrics (config r) then
    a ← alloc r;
    j ← AllocJob a;
    Some (tagged ++
          [EMetric (["client"; "allocs"; JobName j; AllocTaskGroup a] ++ path ++ [name])])
  else Some tagged.

(** ** setTaskState *)

Definition uint64_max : Z := (2 ^ 64)%Z.

(** The part of [setTaskState] run when an event is passed: the failure
    flag, the restart accounting and the event ring. *)
Definition recordEvent (r : AllocRunner) (taskName : string)
    (taskState : TaskState) (event : TaskEvent)
  : option (TaskState * list Effect) :=
  let s1 := if FailsTask event then set_Failed true taskState else taskState in
  if decide (Type_ event = TaskRestarting) then
    m ← incrCounter r [taskName] "restart";
    let s2 := set_Restarts ((Restarts s1 + 1) mod uint64_max)%Z s1 in
    let s3 := set_LastRestart (timeUnix (EvTime event)) s2 in
    Some (appendTaskEvent s3 event, m)
  else Some (appendTaskEvent s1 event, []).

(** The runners of all tasks but [taskName], as the loop over [r.tasks]
    collects them. *)
Definition otherTaskRunners (r : AllocRunner) (taskName : string)
  : list (string * TaskRunner) :=
  filter (fun p => p.1 ≠ taskName) (map_to_list (tasks r)).

(** Whether the loop over [r.tasks] finds a runner for [taskName] that is the
    leader. *)
Definition isLeaderTask (r : AllocRunner) (taskName : string) : bool :=
  match tasks r !! taskName with
  | Some tr => IsLeader tr
  | None => false
  end.

Definition destroyAll (others : list (string * TaskRunner)) (ev : TaskEvent)
  : list Effect :=
  map (fun p => EDestroy p.1 ev) others.

Definition debugOthers (others : list (string * TaskRunner)) (what taskName : string)
  : list Effect :=
  match others with
  | [] => []
  | _ => [ELog "DEBUG" (what :: taskName :: map fst others)]
  end.

(** [if ts.FinishedAt.IsZero() { ts.FinishedAt = now }] *)
Definition stampFinished (now : Time) (ts : TaskState) : TaskState :=
  if IsZero (FinishedAt ts) then set_FinishedAt now ts else ts.

(** The [TaskStateDead] case of the switch: the finish time, the metrics and
    the cascade onto the other task runners. *)
Definition enterDead (r : AllocRunner) (now : Time) (taskName : string)
    (taskState : TaskState) : option (TaskState * list Effect) :=
  let s1 := stampFinished now taskState in
  let others := otherTaskRunners r taskName in
  let leader := isLeaderTask r taskName in
  m ← incrCounter r [taskName] (if Failed s1 then "failed" else "complete");
  let cascade :=
    if Failed s1 then
      destroyAll others (SetFailedSibling (NewTaskEvent now TaskSiblingFailed) taskName)
      ++ debugOthers others "task failed, destroying other tasks" taskName
    else if leader then
      destroyAll others (NewTaskEvent now TaskLeaderDead)
      ++ debugOthers others "leader task is dead, destroying other tasks" taskName
    else [] in
  Some (s1, m ++ cascade).

(** The [TaskStateRunning] case of the switch. *)
Definition enterRunning (r : AllocRunner) (now : Time) (taskName : string)
    (taskState : TaskState) : option (TaskState * list Effect) :=
  if decide (State taskState = TaskStateRunning) then Some (taskState, [])
  else
    m ← incrCounter r [taskName] "running";
    Some (set_StartedAt now taskState, m).

(** The state that is stored: the one passed, or when it is omitted the
    last known one, or pending when there is none. *)
Definition effectiveState (state : string) (taskState : TaskState) : string :=
  if decide (state = "") then
    if decide (State taskState = "") then TaskStatePending else State taskState
  else state.

Definition setTaskState (r : AllocRunner) (now : Time) (taskName state : string)
    (event : option TaskEvent) (lazySync : bool)
  : option (AllocRunner * list Effect) :=
  let taskState := default zeroTaskState (taskStates r !! taskName) in
  '(s1, eff1) ← match event with
                | Some ev => recordEvent r taskName taskState ev
                | None => Some (taskState, [])
                end;
  if lazySync then
    Some (set_taskStates (<[taskName := s1]> (taskStates r)) r, eff1)
  else
    let state := effectiveState state s1 in
    '(s2, eff2) ←
      (if decide (state = TaskStateRunning) then enterRunning r now taskName s1
       else if decide (state = TaskStateDead) then enterDead r now taskName s1
       else Some (s1, []));
    let s3 := set_State state s2 in
    Some (set_dirtyCh true (set_taskStates (<[taskName := s3]> (taskStates r)) r),
          eff1 ++ eff2).

(** ** setStatus *)

Definition setStatus (status desc : string) (r : AllocRunner) : AllocRunner :=
  set_dirtyCh true (set_allocClientDescription desc (set_allocClientStatus status r)).

(** ** Snapshot composition *)

(** Modelled from the spec: [Job.LookupTaskGroup], the first task group of
    the job with the given name, if any. *)
Definition LookupTaskGroup (j : Job) (name : string) : option TaskGroup :=
  find (fun tg => bool_decide (GroupName tg = name)) (TaskGroups j).

(** Modelled from the spec: [Allocation.ClientTerminalStatus]; the glossary
    calls an allocation terminal when its client status is complete or
    failed. *)
Definition ClientTerminalStatus (a : Allocation) : bool :=
  bool_decide (ClientStatus a = AllocClientStatusComplete)
  || bool_decide (ClientStatus a = AllocClientStatusFailed).

(** Modelled from the spec: [AllocDeploymentStatus.IsUnhealthy], true when
    the tri-state flag is set to false; a nil status is not unhealthy. *)
Definition IsUnhealthy (ds : option AllocDeploymentStatus) : bool :=
  match ds with
  | Some d => match Healthy d with Some h => negb h | None => false end
  | None => false
  end.

Definition copyTaskStates (states : gmap string TaskState) : gmap string TaskState :=
  (fun st => st) <$> states.

(** One round of the loop of [finalizeTerminalAlloc]. *)
Definition finalizeTask (now : Time) (states : gmap string TaskState) (task : Task)
  : gmap string TaskState :=
  let ts := default zeroTaskState (states !! TaskName task) in
  <[TaskName task := stampFinished now ts]> states.

(** [finalizeTerminalAlloc] returns the snapshot it was given and the runner;
    looking up the group of a snapshot without job, or ranging over the
    tasks of a group that was not found, is a nil dereference. *)
Definition finalizeTerminalAlloc (r : AllocRunner) (now : Time) (a : Allocation)
  : option (Allocation * AllocRunner) :=
  if negb (ClientTerminalStatus a) then Some (a, r)
  else
    j ← AllocJob a;
    group ← LookupTaskGroup j (AllocTaskGroup a);
    let states := foldl (finalizeTask now) (taskStates r) (Tasks group) in
    Some (set_TaskStates (copyTaskStates states) a, set_taskStates states r).

(** The health overlay of [Alloc]. *)
Definition overlayHealth (r : AllocRunner) (a : Allocation) : Allocation :=
  match allocHealth r with
  | Some h =>
      set_DeploymentStatus
        (Some {| Healthy := Some h; Timestamp := allocHealthTime r |}) a
  | None => a
  end.

(** The guard of [Alloc] against a watcher that was never started. *)
Definition markUnhealthy (a : Allocation) : Allocation :=
  if bool_decide (ClientStatus a = AllocClientStatusFailed)
     && negb (bool_decide (DeploymentID a = ""))
     && negb (IsUnhealthy (DeploymentStatus a))
  then set_DeploymentStatus (Some {| Healthy := Some false; Timestamp := 0%Z |}) a
  else a.

(** [Alloc]: the composed snapshot, and the runner, whose task states the
    finalisation may have completed. *)
Definition Alloc (r : AllocRunner) (now : Time) : option (Allocation * AllocRunner) :=
  a ← alloc r;
  if negb (bool_decide (allocClientStatus r = ""))
     || negb (bool_decide (allocClientDescription r = "")) then
    let a1 := set_ClientDescription (allocClientDescription r)
                (set_ClientStatus (allocClientStatus r) a) in
    let a2 := set_TaskStates (copyTaskStates (taskStates r)) a1 in
    finalizeTerminalAlloc r now a2
  else
    let a1 := overlayHealth r a in
    let a2 := set_TaskStates (copyTaskStates (taskStates r)) a1 in
    let a3 := set_ClientStatus (getClientStatus (taskStates r)) a2 in
    finalizeTerminalAlloc r now (markUnhealthy a3).

(** ** NewAllocRunner *)

Definition updateChCapacity : nat := 64.

Definition NewAllocRunner (cfg : Config) (allocDirRoot : string) (a : Allocation)
  : AllocRunner :=
  {| config := cfg;
     allocID := ID a;
     alloc := Some a;
     allocClientStatus := "";
     allocClientDescription := "";
     allocHealth := None;
     allocHealthTime := 0%Z;
     broadcastClosed := false;
     dirtyCh := false;
     allocDir := Some {| AllocDirPath := (allocDirRoot ++ "/" ++ ID a)%string;
                         TaskDirs := ∅ |};
     tasks := ∅;
     taskStates := copyTaskStates (TaskStates a);
     restored := ∅;
     updateCh := [];
     ctxCanceled := false;
     persistedEval := "";
     immutablePersisted := false;
     allocDirPersisted := false;
     baseLabels := [] |}.

(** ** The state store *)

Definition allocRunnerStateAllocKey : string := "alloc".
Definition allocRunnerStateImmutableKey : string := "immutable".
Definition allocRunnerStateMutableKey : string := "mutable".
Definition allocRunnerStateAllocDirKey : string := "alloc-dir".

(** The four records of an allocation's bucket. *)
Inductive StateObject :=
| ObjAlloc (a : option Allocation)
| ObjImmutable (version : string)
| ObjMutable (status desc : string) (states : gmap string TaskState)
             (ds : option AllocDeploymentStatus)
| ObjAllocDir (d : AllocDir).

(** Modelled from the spec: the transactional key-value store, seen from one
    allocation: the content of the allocation's bucket, and a spy log of the
    keys written by committed transactions, oldest first.  The store is not
    part of the sources; the spec fixes its interface (transaction scopes, a
    bucket per allocation with four sub-keys, bytes preserved). *)
Record StateDB := mkStateDB {
  bucket : gmap string StateObject;
  committedPuts : list string
}.

(** Modelled from the spec: what may go wrong inside one write transaction:
    the bucket cannot be retrieved, the store refuses the put of a key, or
    the commit fails. *)
Record Faults := mkFaults {
  bucketFails : bool;
  putFails : string -> bool;
  commitFails : bool
}.

Definition noFaults : Faults :=
  {| bucketFails := false; putFails := fun _ => false; commitFails := false |}.

(** A transaction in progress: the puts it buffers and the callbacks
    registered with [tx.OnCommit], both oldest first. *)
Record Tx := mkTx {
  tx_puts : list (string * StateObject);
  tx_onCommit : list (AllocRunner -> AllocRunner)
}.

Definition emptyTx : Tx := {| tx_puts := []; tx_onCommit := [] |}.

(** The result of a transaction body: it ran through, or it returned an
    error with the transaction as it then stood. *)
Inductive TxResult :=
| TxOk (tx : Tx)
| TxErr (msg : string) (tx : Tx).

Definition txBind (m : TxResult) (k : Tx -> TxResult) : TxResult :=
  match m with
  | TxOk tx => k tx
  | TxErr msg tx => TxErr msg tx
  end.

Notation "tx <~ m ;; k" := (txBind m (fun tx => k))
  (at level 100, m at next level, right associativity).

Definition PutObject (f : Faults) (key : string) (obj : StateObject) (msg : string)
    (tx : Tx) : TxResult :=
  if putFails f key then TxErr msg tx
  else TxOk {| tx_puts := tx_puts tx ++ [(key, obj)]; tx_onCommit := tx_onCommit tx |}.

Definition OnCommit (cb : AllocRunner -> AllocRunner) (tx : Tx) : Tx :=
  {| tx_puts := tx_puts tx; tx_onCommit := tx_onCommit tx ++ [cb] |}.

(** ** saveAllocRunnerState *)

(** The function passed to [stateDB.Batch]. *)
Definition saveTx (r : AllocRunner) (snapshot : Allocation)
    (allocClientStatus allocClientDescription : string) (dir : option AllocDir)
    (f : Faults) : TxResult :=
  if bucketFails f then TxErr "failed to retrieve allocation bucket" emptyTx
  else
    tx1 <~ (if decide (EvalID snapshot ≠ persistedEval r) then
              tx <~ PutObject f allocRunnerStateAllocKey (ObjAlloc (Some snapshot))
                      "failed to write alloc_runner alloc state" emptyTx ;;
              TxOk (OnCommit (set_persistedEval (EvalID snapshot)) tx)
            else TxOk emptyTx) ;;
    tx2 <~ (if negb (immutablePersisted r) then
              tx <~ PutObject f allocRunnerStateImmutableKey
                      (ObjImmutable (Version (config r)))
                      "failed to write alloc_runner immutable state" tx1 ;;
              TxOk (OnCommit (set_immutablePersisted true) tx)
            else TxOk tx1) ;;
    tx3 <~ (match dir with
            | Some d =>
                if negb (allocDirPersisted r) then
                  tx <~ PutObject f allocRunnerStateAllocDirKey (ObjAllocDir d)
                          "failed to write alloc_runner allocDir state" tx2 ;;
                  TxOk (OnCommit (set_allocDirPersisted true) tx)
                else TxOk tx2
            | None => TxOk tx2
            end) ;;
    PutObject f allocRunnerStateMutableKey
      (ObjMutable allocClientStatus allocClientDescription
         (TaskStates snapshot) (DeploymentStatus snapshot))
      "failed to write alloc_runner mutable state" tx3.

(** What one call of [saveAllocRunnerState] reports: the error it returns,
    whether its transaction committed, and the puts the store accepted
    inside the transaction (they reach the bucket only on commit). *)
Record SaveOutcome := mkSaveOutcome {
  so_err : option string;
  so_committed : bool;
  so_puts : list (string * StateObject)
}.

Definition applyPuts (puts : list (string * StateObject))
    (b : gmap string StateObject) : gmap string StateObject :=
  foldl (fun b p => <[p.1 := p.2]> b) b puts.

Definition runCallbacks (cbs : list (AllocRunner -> AllocRunner)) (r : AllocRunner)
  : AllocRunner :=
  foldl (fun r cb => cb r) r cbs.

(** Modelled from the spec: a write transaction scope.  When the body
    returns an error or the commit fails, the buffered puts are discarded
    and no commit callback runs; otherwise the puts reach the bucket and the
    callbacks run in the order of their registration. *)
Definition Batch (f : Faults) (r : AllocRunner) (db : StateDB) (body : TxResult)
  : SaveOutcome * AllocRunner * StateDB :=
  match body with
  | TxErr msg tx =>
      ({| so_err := Some msg; so_committed := false; so_puts := tx_puts tx |}, r, db)
  | TxOk tx =>
      if commitFails f then
        ({| so_err := Some "commit failed"; so_committed := false;
            so_puts := tx_puts tx |}, r, db)
      else
        ({| so_err := None; so_committed := true; so_puts := tx_puts tx |},
         runCallbacks (tx_onCommit tx) r,
         {| bucket := applyPuts (tx_puts tx) (bucket db);
            committedPuts := committedPuts db ++ map fst (tx_puts tx) |})
  end.

Definition saveAllocRunnerState (r : AllocRunner) (db : StateDB) (f : Faults)
    (now : Time) : option (SaveOutcome * AllocRunner * StateDB) :=
  if ctxCanceled r then
    Some ({| so_err := None; so_committed := false; so_puts := [] |}, r, db)
  else
    '(snapshot, r1) ← Alloc r now;
    let allocClientStatus := allocClientStatus r1 in
    let allocClientDescription := allocClientDescription r1 in
    let dir := allocDir r1 in
    Some (Batch f r1 db
            (saveTx r1 snapshot allocClientStatus allocClientDescription dir f)).

(** ** DestroyState, Destroy, Update *)

Definition DestroyState (db : StateDB) : StateDB :=
  {| bucket := ∅; committedPuts := committedPuts db |}.

Definition Destroy (r : AllocRunner) : AllocRunner :=
  set_broadcastClosed true (set_ctxCanceled true r).

(** The non-blocking send of [Update]: the update is queued behind the ones
    already waiting when the channel has room, and dropped with an error log
    otherwise. *)
Definition Update (update : Allocation) (r : AllocRunner)
  : AllocRunner * list Effect :=
  if decide (length (updateCh r) < updateChCapacity) then
    (set_updateCh (updateCh r ++ [update]) r, [])
  else (r, [ELog "ERR" ["dropping update to alloc"; ID update]]).

(** The receiving end in [Run]: the oldest update leaves the channel and
    replaces the allocation; the health is cleared when the deployment
    changed.  Nothing happens on an empty channel. *)
Definition recvUpdate (r : AllocRunner) : option AllocRunner :=
  match updateCh r with
  | [] => Some r
  | update :: rest =>
      a ← alloc r;
      let r1 := set_updateCh rest r in
      let r2 :=
        if decide (DeploymentID a ≠ DeploymentID update) then
          set_allocHealthTime 0%Z (set_allocHealth None r1)
        else r1 in
      Some (set_alloc (Some update) r2)
  end.

(** ** syncStatus *)

(** Modelled from the spec: the broadcaster accepts or refuses each send;
    [sendOk i] tells whether attempt [i] succeeds. *)
Fixpoint sendAttempts (sendOk : nat -> bool) (snapshot : Allocation) (i n : nat)
  : list Effect * bool :=
  match n with
  | O => ([], false)
  | S n' =>
      if sendOk i then ([EBroadcast snapshot], true)
      else
        let '(eff, sent) := sendAttempts sendOk snapshot (S i) n' in
        (EBroadcast snapshot :: eff, sent)
  end.

Definition sendBroadcast (r : AllocRunner) (sendOk : nat -> bool)
    (snapshot : Allocation) : list Effect :=
  let '(eff, sent) := sendAttempts sendOk snapshot 0 3 in
  if sent then eff
  else eff ++ [ELog "WARN" ["failed to broadcast update to allocation"; allocID r]].

Definition syncStatus (r : AllocRunner) (db : StateDB) (sendOk : nat -> bool)
    (f : Faults) (now : Time)
  : option (SaveOutcome * AllocRunner * StateDB * list Effect) :=
  '(snapshot, r1) ← Alloc r now;
  let eff := EUpdater snapshot :: sendBroadcast r1 sendOk snapshot in
  '(out, r2, db') ← saveAllocRunnerState r1 db f now;
  Some (out, r2, db', eff).

(** ** RestoreState *)

(** The persisted records as [RestoreState] reads them inside its read
    transaction; reading a key that is missing or holds another kind of
    record is an error.

    Modelled from the spec: [state.GetAllocationBucket] in a read
    transaction fails when the allocation has no bucket.  The bucket is
    created by the first write transaction that commits, which always puts
    the mutable record, and is deleted by [DestroyState]: the allocation has
    a bucket exactly when [bucket] holds a record, and a [bucket] without
    any record is the missing bucket. *)
Record Restored := mkRestored {
  rs_alloc : option Allocation;
  rs_version : string;
  rs_status : string;
  rs_description : string;
  rs_taskStates : gmap string TaskState;
  rs_deployment : option AllocDeploymentStatus;
  rs_allocDir : AllocDir
}.

Definition readRecords (db : StateDB) : Restored + string :=
  match bucket db !! allocRunnerStateAllocKey with
  | Some (ObjAlloc a) =>
    match bucket db !! allocRunnerStateImmutableKey with
    | Some (ObjImmutable version) =>
      match bucket db !! allocRunnerStateMutableKey with
      | Some (ObjMutable status desc states ds) =>
        match bucket db !! allocRunnerStateAllocDirKey with
        | Some (ObjAllocDir d) => inl (mkRestored a version status desc states ds d)
        | _ => inr "failed to read alloc runner alloc_dir state"
        end
      | _ => inr "failed to read alloc runner mutable state"
      end
    | _ => inr "failed to read alloc runner immutable state"
    end
  | _ => inr "failed to read alloc runner alloc state"
  end.

Definition viewRecords (db : StateDB) : Restored + string :=
  if decide (bucket db = ∅) then inr "failed to get allocation bucket"
  else readRecords db.

Section Restore.

(** Modelled from the spec: [Allocation.TerminalStatus], the server-side
    notion of a terminal allocation, which the runner only calls. *)
Variable TerminalStatus : Allocation -> bool.

(** Modelled from the spec: [TaskRunner.RestoreState] of the runner built
    for a task, answering a restart reason and possibly an error. *)
Variable trRestoreState : string -> string * option string.

Variable now : Time.

(** What the loop does with a task whose state is not dead: build its
    runner, register it, and restore it. *)
Definition restoreRunner (r : AllocRunner) (task : Task)
  : option (AllocRunner * list Effect * list string) :=
  let name := TaskName task in
  '(snapshot, r1) ← Alloc r now;
  let tr := {| tr_task := task; tr_alloc := Some snapshot |} in
  let r2 := set_tasks (<[name := tr]> (tasks r1)) r1 in
  a ← alloc r2;
  match trRestoreState name with
  | (_, Some err) =>
      Some (r2, [ETaskRestore name;
                 ELog "ERR" ["failed to restore state for alloc"; allocID r2; name; err]],
            [err])
  | (restartReason, None) =>
      if negb (TerminalStatus a) then
        Some (r2,
              [ETaskRestore name; ERun name] ++
              (if decide (restartReason = "") then []
               else [ELog "INFO" ["restarting alloc"; allocID r2; name; restartReason];
                     ERestart name "upgrade" restartReason false]),
              [])
      else
        Some (r2, [ETaskRestore name; EDestroy name (NewTaskEvent now TaskKilled)], [])
  end.

(** One round of the loop over the tasks of the group. *)
Definition restoreTask (r : AllocRunner) (task : Task)
  : option (AllocRunner * list Effect * list string) :=
  let name := TaskName task in
  match taskStates r !! name with
  | None => Some (r, [], [])
  | Some state =>
      let r1 := set_restored ({[name]} ∪ restored r) r in
      d ← allocDir r1;
      let r2 :=
        if decide (name ∈ TaskDirs d) then r1
        else set_allocDir (Some (NewTaskDir name d)) r1 in
      if decide (State state = TaskStateDead) then Some (r2, [], [])
      else restoreRunner r2 task
  end.

Fixpoint restoreTasks (r : AllocRunner) (group : list Task)
  : option (AllocRunner * list Effect * list string) :=
  match group with
  | [] => Some (r, [], [])
  | task :: rest =>
      '(r1, eff1, errs1) ← restoreTask r task;
      '(r2, eff2, errs2) ← restoreTasks r1 rest;
      Some (r2, eff1 ++ eff2, errs1 ++ errs2)
  end.

(** [RestoreState] answers the error it returns (the collected errors of
    the task runners count as one), the runner and what it did. *)
Definition RestoreState (r : AllocRunner) (db : StateDB)
  : option (option (list string) * AllocRunner * list Effect) :=
  match viewRecords db with
  | inr msg => Some (Some ["failed to read allocation state"; msg], r, [])
  | inl rec =>
      a ← rs_alloc rec;
      let a1 := set_ClientStatus (getClientStatus (rs_taskStates rec)) a in
      let a2 := set_DeploymentStatus (rs_deployment rec) a1 in
      let r1 :=
        set_taskStates (rs_taskStates rec)
          (set_allocClientDescription (rs_description rec)
             (set_allocClientStatus (rs_status rec)
                (set_allocDir (Some (rs_allocDir rec))
                   (set_alloc (Some a2) r)))) in
      j ← AllocJob a2;
      match LookupTaskGroup j (AllocTaskGroup a2) with
      | None =>
          Some (Some ["restored allocation doesn't contain task group";
                      AllocTaskGroup a2], r1, [])
      | Some tg =>
          '(r2, eff, errs) ← restoreTasks r1 (Tasks tg);
          Some (match errs with [] => None | _ => Some errs end, r2, eff)
      end
  end.

End Restore.

(** ** The runner at work *)

(** The runner, its store and what it has done so far. *)
Record World := mkWorld {
  w_runner : AllocRunner;
  w_db : StateDB;
  w_trace : list Effect
}.

(** What can happen to a runner between its construction and the end of its
    life: the callback of a task runner, an explicit status, a snapshot, an
    update pushed by the upstream and its reception, a persistence attempt,
    a status sync, and destruction with the deletion of the bucket. *)
Inductive Op :=
| OpSetTaskState (now : Time) (taskName state : string)
                 (event : option TaskEvent) (lazySync : bool)
| OpSetStatus (status desc : string)
| OpAlloc (now : Time)
| OpUpdate (update : Allocation)
| OpRecvUpdate
| OpSave (f : Faults) (now : Time)
| OpSync (sendOk : nat -> bool) (f : Faults) (now : Time)
| OpDestroy
| OpDestroyState.

Definition step (op : Op) (w : World) : option World :=
  let r := w_runner w in
  match op with
  | OpSetTaskState now taskName state event lazySync =>
      '(r', eff) ← setTaskState r now taskName state event lazySync;
      Some (mkWorld r' (w_db w) (w_trace w ++ eff))
  | OpSetStatus status desc =>
      Some (mkWorld (setStatus status desc r) (w_db w) (w_trace w))
  | OpAlloc now =>
      '(_, r') ← Alloc r now;
      Some (mkWorld r' (w_db w) (w_trace w))
  | OpUpdate update =>
      let '(r', eff) := Update update r in
      Some (mkWorld r' (w_db w) (w_trace w ++ eff))
  | OpRecvUpdate =>
      r' ← recvUpdate r;
      Some (mkWorld r' (w_db w) (w_trace w))
  | OpSave f now =>
      '(_, r', db') ← saveAllocRunnerState r (w_db w) f now;
      Some (mkWorld r' db' (w_trace w))
  | OpSync sendOk f now =>
      '(_, r', db', eff) ← syncStatus r (w_db w) sendOk f now;
      Some (mkWorld r' db' (w_trace w ++ eff))
  | OpDestroy => Some (mkWorld (Destroy r) (w_db w) (w_trace w))
  | OpDestroyState => Some (mkWorld r (DestroyState (w_db w)) (w_trace w))
  end.

Fixpoint run (ops : list Op) (w : World) : option World :=
  match ops with
  | [] => Some w
  | op :: rest => w' ← step op w; run rest w'
  end.

Definition emptyDB : StateDB := {| bucket := ∅; committedPuts := [] |}.

(** Several updates pushed one after the other, and the [Destroy] calls
    found in a list of effects. *)
Definition pushUpdates (updates : list Allocation) (r : AllocRunner) : AllocRunner :=
  foldl (fun r update => (Update update r).1) r updates.

Definition destroyed (eff : list Effect) : list (string * TaskEvent) :=
  omap (fun e => match e with EDestroy n ev => Some (n, ev) | _ => None end) eff.

(** The outcome of a persistence attempt that did nothing. *)
Definition noSave : SaveOutcome :=
  {| so_err := None; so_committed := false; so_puts := [] |}.

(** ** The transaction body as a plan

    The body of the write transaction issues a fixed sequence of puts, each
    with the error message of its failure and possibly a commit callback,
    and stops at the first put the store refuses.  [savePlan] is that
    sequence and [execPuts] its execution; [saveTx] is shown below to be
    the execution of its plan. *)
Record PlannedPut := mkPlannedPut {
  pp_key : string;
  pp_obj : StateObject;
  pp_msg : string;
  pp_commit : option (AllocRunner -> AllocRunner)
}.

Definition savePlan (r : AllocRunner) (snapshot : Allocation)
    (allocClientStatus allocClientDescription : string) (dir : option AllocDir)
  : list PlannedPut :=
  (if decide (EvalID snapshot ≠ persistedEval r) then
     [mkPlannedPut allocRunnerStateAllocKey (ObjAlloc (Some snapshot))
        "failed to write alloc_runner alloc state"
        (Some (set_persistedEval (EvalID snapshot)))]
   else []) ++
  (if negb (immutablePersisted r) then
     [mkPlannedPut allocRunnerStateImmutableKey (ObjImmutable (Version (config r)))
        "failed to write alloc_runner immutable state"
        (Some (set_immutablePersisted true))]
   else []) ++
  (match dir with
   | Some d =>
       if negb (allocDirPersisted r) then
         [mkPlannedPut allocRunnerStateAllocDirKey (ObjAllocDir d)
            "failed to write alloc_runner allocDir state"
            (Some (set_allocDirPersisted true))]
       else []
   | None => []
   end) ++
  [mkPlannedPut allocRunnerStateMutableKey
     (ObjMutable allocClientStatus allocClientDescription
        (TaskStates snapshot) (DeploymentStatus snapshot))
     "failed to write alloc_runner mutable state" None].

Definition registerCommit (cb : option (AllocRunner -> AllocRunner)) (tx : Tx) : Tx :=
  match cb with
  | Some c => OnCommit c tx
  | None => tx
  end.

Fixpoint execPuts (f : Faults) (plan : list PlannedPut) (tx : Tx) : TxResult :=
  match plan with
  | [] => TxOk tx
  | p :: rest =>
      match PutObject f (pp_key p) (pp_obj p) (pp_msg p) tx with
      | TxOk tx' => execPuts f rest (registerCommit (pp_commit p) tx')
      | TxErr msg tx' => TxErr msg tx'
      end
  end.

Definition txOf (res : TxResult) : Tx :=
  match res with
  | TxOk tx => tx
  | TxErr _ tx => tx
  end.

Definition planPuts (plan : list PlannedPut) : list (string * StateObject) :=
  map (fun p => (pp_key p, pp_obj p)) plan.

Definition planCommits (plan : list PlannedPut) : list (AllocRunner -> AllocRunner) :=
  omap pp_commit plan.

(** How often a key occurs in a list of keys. *)
Definition countKey (key : string) (keys : list string) : nat :=
  length (filter (fun k => k = key) keys).

(** The one-shot flags agree with the spy log of the store: a flag is set
    exactly when one committed transaction wrote its record, and unset
    exactly when none did. *)
Definition flagsMatchLog (w : World) : Prop :=
  countKey "immutable" (committedPuts (w_db w))
    = (if immutablePersisted (w_runner w) then 1 else 0) /\
  countKey "alloc-dir" (committedPuts (w_db w))
    = (if allocDirPersisted (w_runner w) then 1 else 0).

(** A task recorded as dead, and the operations under which it stays so:
    every operation but a call of [setTaskState] for that very task that is
    not lazy and passes a state other than dead. *)
Definition isDead (t : string) (r : AllocRunner) : Prop :=
  exists st, taskStates r !! t = Some st /\ State st = TaskStateDead.

Definition keepsDead (t : string) (op : Op) : Prop :=
  match op with
  | OpSetTaskState _ taskName state _ lazySync =>
      taskName <> t \/ lazySync = true \/ state = "" \/ state = TaskStateDead
  | _ => True
  end.

(** ** A small allocation

    A job with one group of two tasks, the first of which is the leader. *)
Definition exampleJob : Job :=
  {| JobName := "web";
     TaskGroups := [ {| GroupName := "g1";
                        Tasks := [ {| TaskName := "t1"; Leader := true |};
                                   {| TaskName := "t2"; Leader := false |} ] |} ] |}.

Definition exampleAlloc : Allocation :=
  {| ID := "a1"; EvalID := "e1"; DeploymentID := ""; AllocTaskGroup := "g1";
     AllocJob := Some exampleJob; AllocModifyIndex := 1%Z; DesiredStatus := "run";
     ClientStatus := "pending"; ClientDescription := ""; TaskStates := ∅;
     DeploymentStatus := None |}.

Definition exampleConfig : Config :=
  {| DisableTaggedMetrics := false; BackwardsCompatibleMetrics := true;
     Version := "0.8.4" |}.

Definition exampleWorld : World :=
  mkWorld (NewAllocRunner exampleConfig "/var/nomad/alloc" exampleAlloc) emptyDB [].

(** The task runner an effect is about, if any. *)
Definition effectTask (e : Effect) : option string :=
  match e with
  | EDestroy n _ | ERun n | ERestart n _ _ _ | EMarkReceived n
  | ETaskUpdate n _ | ETaskRestore n => Some n
  | _ => None
  end.

(** What the restore loop keeps true of a dead task: it stays dead and
    has no runner. *)
Definition deadUnrun (name : string) (r : AllocRunner) : Prop :=
  isDead name r /\ tasks r !! name = None.

Definition untouched (name : string) (eff : list Effect) : Prop :=
  forall e, In e eff -> effectTask e <> Some name.

(** The runner of the small allocation once [Run] has started both task
    runners, and a task event that fails its task. *)
Definition exampleRunner : AllocRunner :=
  set_tasks
    (<["t1" := {| tr_task := {| TaskName := "t1"; Leader := true |};
                  tr_alloc := Some exampleAlloc |}]>
       (<["t2" := {| tr_task := {| TaskName := "t2"; Leader := false |};
                     tr_alloc := Some exampleAlloc |}]> ∅))
    (NewAllocRunner exampleConfig "/var/nomad/alloc" exampleAlloc).

Definition exampleFailure : TaskEvent :=
  {| Type_ := "Terminated"; EvTime := 90%Z; FailsTask := true; FailedSibling := "" |}.

Definition exampleEvents : list TaskEvent :=
  map (fun n => {| Type_ := "Started"; EvTime := Z.of_nat n; FailsTask := false;
                   FailedSibling := "" |}) (seq 0 12).

(** The world after "t1" died failing, "t2" started and the state was
    saved. *)
Definition exampleSaved : World :=
  default exampleWorld
    (run [OpSetTaskState 100%Z "t1" "dead" (Some exampleFailure) false;
          OpSetTaskState 150%Z "t2" "running" None false;
          OpSave noFaults 200%Z] exampleWorld).

(** When the legacy metrics path can read [r.alloc.Job.Name]. *)
Definition metricsReady (r : AllocRunner) : Prop :=
  BackwardsCompatibleMetrics (config r) = false \/
  exists a j, alloc r = Some a /\ AllocJob a = Some j.

(** ** The snapshot before its finalisation

    [Alloc] composes the snapshot in two ways, from the explicit status or
    from the task states, and hands it to [finalizeTerminalAlloc];
    [composed] is the allocation handed over. *)
Definition statusIsExplicit (r : AllocRunner) : bool :=
  negb (bool_decide (allocClientStatus r = ""))
  || negb (bool_decide (allocClientDescription r = "")).

Definition composed (r : AllocRunner) (a : Allocation) : Allocation :=
  if statusIsExplicit r then
    set_TaskStates (copyTaskStates (taskStates r))
      (set_ClientDescription (allocClientDescription r)
         (set_ClientStatus (allocClientStatus r) a))
  else
    markUnhealthy
      (set_ClientStatus (getClientStatus (taskStates r))
         (set_TaskStates (copyTaskStates (taskStates r)) (overlayHealth r a))).

(** ** The task state a call of setTaskState leaves

    The state [setTaskState] stores for the task it is called for, as a
    function of the state found: [recorded] is the part run for the event,
    [switched] the switch on the effective state.  The metrics and the
    calls on other task runners do not enter it. *)
Definition recorded (event : option TaskEvent) (ts : TaskState) : TaskState :=
  match event with
  | None => ts
  | Some ev =>
      let s1 := if FailsTask ev then set_Failed true ts else ts in
      let s2 :=
        if decide (Type_ ev = TaskRestarting) then
          set_LastRestart (timeUnix (EvTime ev))
            (set_Restarts ((Restarts s1 + 1) mod uint64_max)%Z s1)
        else s1 in
      appendTaskEvent s2 ev
  end.

Definition switched (now : Time) (state : string) (s1 : TaskState) : TaskState :=
  if decide (state = TaskStateRunning) then
    if decide (State s1 = TaskStateRunning) then s1 else set_StartedAt now s1
  else if decide (state = TaskStateDead) then stampFinished now s1
  else s1.

Definition nextTaskState (now : Time) (state : string) (event : option TaskEvent)
    (lazySync : bool) (old : TaskState) : TaskState :=
  let s1 := recorded event old in
  if lazySync then s1
  else
    let state := effectiveState state s1 in
    set_State state (switched now state s1).

(** What every operation of the runner keeps of a task state: a finish
    time once set, the failure flag once set, and the bound of the event
    list. *)
Definition taskKeeps (st st' : TaskState) : Prop :=
  (FinishedAt st <> 0%Z -> FinishedAt st' = FinishedAt st) /\
  (Failed st = true -> Failed st' = true) /\
  (length (Events st) <= capacity -> length (Events st') <= capacity).

Definition eventsBounded (r : AllocRunner) : Prop :=
  forall t st, taskStates r !! t = Some st -> length (Events st) <= capacity.

(** The restart counter of a task, zero when the task has no state yet,
    and the restarting events an operation sequence reports for it. *)
Definition restartsOf (t : string) (r : AllocRunner) : Z :=
  Restarts (default zeroTaskState (taskStates r !! t)).

Definition isRestart (t : string) (op : Op) : bool :=
  match op with
  | OpSetTaskState _ n _ (Some ev) _ =>
      bool_decide (n = t) && bool_decide (Type_ ev = TaskRestarting)
  | _ => false
  end.

Definition restartEvents (t : string) (ops : list Op) : Z :=
  Z.of_nat (length (filter (fun op => isRestart t op = true) ops)).

(** The [Destroy] calls of one call of [setTaskState], read off its
    arguments and the runner: none for a lazy call or a state other than
    dead, else one per other task runner when the task failed or leads. *)
Definition cascade (r : AllocRunner) (now : Time) (taskName state : string)
    (event : option TaskEvent) (lazySync : bool) : list (string * TaskEvent) :=
  let s1 := recorded event (default zeroTaskState (taskStates r !! taskName)) in
  if lazySync then []
  else if decide (effectiveState state s1 = TaskStateDead) then
    if Failed s1 then
      map (fun p : string * TaskRunner =>
             (p.1, SetFailedSibling (NewTaskEvent now TaskSiblingFailed) taskName))
        (otherTaskRunners r taskName)
    else if isLeaderTask r taskName then
      map (fun p : string * TaskRunner => (p.1, NewTaskEvent now TaskLeaderDead))
        (otherTaskRunners r taskName)
    else []
  else [].

(** ** SaveState *)

(** Modelled from the spec: [TaskRunner.SaveState] of the runner registered
    under a name answers an error or nil; [trSaveState] is that answer.
    [SaveState] returns its error (the collected errors of the task runners
    count as one), the names of the task runners it asked to save, the
    runner and the store. *)
Definition SaveState (trSaveState : string -> option string) (r : AllocRunner)
    (db : StateDB) (f : Faults) (now : Time)
  : option (option (list string) * list string * AllocRunner * StateDB) :=
  '(out, r', db') ← saveAllocRunnerState r db f now;
  match so_err out with
  | Some err => Some (Some [err], [], r', db')
  | None =>
      let runners := map fst (map_to_list (tasks r')) in
      let errs := omap trSaveState runners in
      Some (match errs with [] => None | _ => Some errs end, runners, r', db')
  end.

(** ** Receiving several updates

    [drain n r] receives [n] times, as [n] rounds of the loop of [Run] do,
    and lists the allocation of the runner after each reception. *)
Fixpoint drain (n : nat) (r : AllocRunner)
  : option (list (option Allocation) * AllocRunner) :=
  match n with
  | O => Some ([], r)
  | S n' =>
      r1 ← recvUpdate r;
      '(seen, r2) ← drain n' r1;
      Some (alloc r1 :: seen, r2)
  end.

(** The broadcasts among some effects, and whether the failure to
    broadcast was logged. *)
Definition broadcasts (eff : list Effect) : list Allocation :=
  omap (fun e => match e with EBroadcast s => Some s | _ => None end) eff.

Definition warned (eff : list Effect) : bool :=
  existsb (fun e => match e with
                    | ELog level _ => bool_decide (level = "WARN")
                    | _ => false
                    end) eff.

(** ** Run

    [Run] up to its update loop.  What it does beyond the effects of
    [Effect] is a [RunEvent]: the goroutines it starts, the calls on the
    allocation directory and on the watcher of the previous allocation, and
    the waits on task runners. *)
Inductive RunEvent :=
| RDo (e : Effect)
| RSpawn (what : string)
| RDirBuild
| RDirDestroy
| RPrevWait
| RPrevMigrate
| RDirUnmount
| RWaitTask (task : string).

(** How [Run] leaves its first part: it returned, it waits for its
    destruction in [handleDestroy], or it entered the update loop. *)
Inductive RunPhase := RunExited | RunAwaitsDestroy | RunSupervises.

(** Modelled from the spec: the errors of the collaborators of [Run]: the
    build of the allocation directory, the wait for the previous
    allocation, the migration of its data and the rebuild of the directory
    after a failed migration.  A context error is the cancellation or
    another error. *)
Inductive CtxErr := ErrCanceled | ErrOther (msg : string).

Record RunEnv := mkRunEnv {
  env_build : option string;
  env_wait : option CtxErr;
  env_migrate : option CtxErr;
  env_rebuild : option string
}.

(** [setBaseLabels]; [nodeID] is the identifier of the node of the
    configuration, when configuration and node are not nil. *)
Definition setBaseLabels (nodeID : option string) (r : AllocRunner)
  : option AllocRunner :=
  a ← alloc r;
  let job := match AllocJob a with
             | Some j => [("job", JobName j)]
             | None => []
             end in
  let group := if decide (AllocTaskGroup a = "") then []
               else [("task_group", AllocTaskGroup a)] in
  let node := match nodeID with
              | Some n => [("node_id", n)]
              | None => []
              end in
  Some (set_baseLabels (job ++ group ++ node) r).

(** The loop of [Run] that starts the task runners: a task marked as
    restored is skipped, every other task gets its directory and a task
    runner built on a fresh snapshot, which is registered, marked as
    received and started. *)
Fixpoint startTasks (now : Time) (r : AllocRunner) (group : list Task)
  : option (AllocRunner * list Effect) :=
  match group with
  | [] => Some (r, [])
  | task :: rest =>
      let name := TaskName task in
      if decide (name ∈ restored r) then startTasks now r rest
      else
        d ← allocDir r;
        let r1 := set_allocDir (Some (NewTaskDir name d)) r in
        '(snapshot, r2) ← Alloc r1 now;
        let tr := {| tr_task := task; tr_alloc := Some snapshot |} in
        let r3 := set_tasks (<[name := tr]> (tasks r2)) r2 in
        '(r4, eff) ← startTasks now r3 rest;
        Some (r4, EMarkReceived name :: ERun name :: eff)
  end.

Section Run.

(** Modelled from the spec: [Allocation.TerminalStatus] and
    [Allocation.Terminated], which [Run] only calls. *)
Variable TerminalStatus : Allocation -> bool.
Variable Terminated : Allocation -> bool.

Variable env : RunEnv.
Variable nodeID : option string.
Variable now : Time.

(** [Run] from the check of the allocation's status on: a terminal
    allocation starts nothing and waits for its destruction, any other has
    its task runners started. *)
Definition runTasks (snapshot : Allocation) (tg : TaskGroup) (r : AllocRunner)
    (before : list RunEvent)
  : option (RunPhase * AllocRunner * list RunEvent) :=
  if TerminalStatus snapshot then
    let r1 :=
      if negb (Terminated snapshot) then
        setStatus AllocClientStatusComplete
          "canceled running tasks for allocation in terminal state" r
      else r in
    Some (RunAwaitsDestroy, r1,
          before ++ [RDo (ELog "DEBUG" ["alloc in terminal status, waiting for destroy";
                                        allocID r])])
  else
    m ← incrCounter r [] "start";
    '(r1, eff) ← startTasks now r (Tasks tg);
    Some (RunSupervises, r1,
          before ++ map RDo m ++ [RSpawn "watchHealth"]
          ++ [RDo (ELog "DEBUG" ["starting task runners for alloc"; allocID r])]
          ++ map RDo eff).

Definition runStart (r : AllocRunner)
  : option (RunPhase * AllocRunner * list RunEvent) :=
  r0 ← setBaseLabels nodeID r;
  let ev0 := [RSpawn "dirtySyncState"] in
  '(snapshot, r1) ← Alloc r0 now;
  j ← AllocJob snapshot;
  match LookupTaskGroup j (AllocTaskGroup snapshot) with
  | None =>
      Some (RunExited,
            setStatus AllocClientStatusFailed
              ("missing task group '" ++ AllocTaskGroup snapshot ++ "'")%string r1,
            ev0 ++ [RDo (ELog "ERR" ["alloc for missing task group";
                                     allocID r1; AllocTaskGroup snapshot])])
  | Some tg =>
      _ ← allocDir r1;
      match env_build env with
      | Some err =>
          Some (RunExited,
                setStatus AllocClientStatusFailed
                  ("failed to build task dirs for '" ++ AllocTaskGroup snapshot ++ "'")%string
                  r1,
                ev0 ++ [RDirBuild;
                        RDo (ELog "ERR" ["failed to build task directories";
                                         allocID r1; err])])
      | None =>
          match env_wait env with
          | Some ErrCanceled => Some (RunExited, r1, ev0 ++ [RDirBuild; RPrevWait])
          | Some (ErrOther msg) =>
              Some (RunExited,
                    setStatus AllocClientStatusFailed
                      ("error while waiting for previous alloc to terminate: " ++ msg)%string
                      r1,
                    ev0 ++ [RDirBuild; RPrevWait])
          | None =>
              match env_migrate env with
              | Some ErrCanceled =>
                  Some (RunExited, r1, ev0 ++ [RDirBuild; RPrevWait; RPrevMigrate])
              | Some (ErrOther msg) =>
                  let ev1 :=
                    ev0 ++ [RDirBuild; RPrevWait; RPrevMigrate;
                            RDo (ELog "WARN" ["error while migrating data from previous alloc";
                                              allocID r1; msg]);
                            RDirDestroy; RDirBuild] in
                  match env_rebuild env with
                  | Some err =>
                      Some (RunExited,
                            setStatus AllocClientStatusFailed
                              ("failed to rebuild task dirs for '"
                               ++ AllocTaskGroup snapshot ++ "'")%string r1,
                            ev1 ++ [RDo (ELog "ERR"
                                           ["failed to clean task directories after failed migration";
                                            allocID r1; err])])
                  | None => runTasks snapshot tg r1 ev1
                  end
              | None =>
                  runTasks snapshot tg r1 (ev0 ++ [RDirBuild; RPrevWait; RPrevMigrate])
              end
          end
      end
  end.

(** One round of the update loop of [Run] on a channel that holds an
    update: the update replaces the allocation and the health watcher is
    restarted; a terminal update ends the loop, any other is handed to
    every task runner and the status is synced.  The result says whether
    the loop goes on. *)
Definition handleUpdate (sendOk : nat -> bool) (f : Faults) (r : AllocRunner)
    (db : StateDB) : option (bool * AllocRunner * StateDB * list RunEvent) :=
  match updateCh r with
  | [] => Some (true, r, db, [])
  | update :: _ =>
      r1 ← recvUpdate r;
      let ev0 := [RSpawn "watchHealth"] in
      if TerminalStatus update then Some (false, r1, db, ev0)
      else
        let updates :=
          map (fun p : string * TaskRunner => RDo (ETaskUpdate p.1 update))
            (map_to_list (tasks r1)) in
        '(out, r2, db', eff) ← syncStatus r1 db sendOk f now;
        let warn :=
          match so_err out with
          | Some err =>
              [RDo (ELog "WARN" ["failed to sync alloc status upon receiving alloc update";
                                 allocID r2; err])]
          | None => []
          end in
        Some (true, r2, db', ev0 ++ updates ++ map RDo eff ++ warn)
  end.

End Run.

(** ** destroyTaskRunners *)

(** The name of the first leader task of a group, empty when it has none. *)
Definition leaderOf (group : list Task) : string :=
  match find (fun task => Leader task) group with
  | Some task => TaskName task
  | None => ""
  end.

(** The leader's runner, if the group has a leader with a runner, is
    destroyed and waited for first; then every runner registered under
    another name than the leader's is destroyed, and every runner is waited
    for. *)
Definition destroyTaskRunners (r : AllocRunner) (destroyEvent : TaskEvent)
  : option (list RunEvent) :=
  a ← alloc r;
  j ← AllocJob a;
  tg ← LookupTaskGroup j (AllocTaskGroup a);
  let leader := leaderOf (Tasks tg) in
  let first :=
    if decide (leader = "") then []
    else
      match tasks r !! leader with
      | None =>
          [RDo (ELog "DEBUG" ["leader task already stopped"; allocID r; leader;
                              AllocTaskGroup a])]
      | Some _ =>
          [RDo (ELog "DEBUG" ["destroying leader task first"; allocID r; leader;
                              AllocTaskGroup a]);
           RDo (EDestroy leader destroyEvent);
           RWaitTask leader]
      end in
  let others :=
    map (fun p : string * TaskRunner => RDo (EDestroy p.1 destroyEvent))
      (filter (fun p : string * TaskRunner => p.1 <> leader) (map_to_list (tasks r))) in
  let waits :=
    map (fun p : string * TaskRunner => RWaitTask p.1) (map_to_list (tasks r)) in
  Some (first ++ others ++ waits).

(** The task runners destroyed and started in a list of run events. *)
Definition runDestroyed (evs : list RunEvent) : list string :=
  omap (fun e => match e with RDo (EDestroy n _) => Some n | _ => None end) evs.

Definition runStarted (evs : list RunEvent) : list string :=
  omap (fun e => match e with RDo (ERun n) => Some n | _ => None end) evs.


(** The task runners waited for in a list of run events, and the updates
    forwarded to task runners. *)
Definition runWaited (evs : list RunEvent) : list string :=
  omap (fun e => match e with RWaitTask n => Some n | _ => None end) evs.

Definition runUpdated (evs : list RunEvent) : list (string * Allocation) :=
  omap (fun e => match e with RDo (ETaskUpdate n u) => Some (n, u) | _ => None end) evs.

(** ** handleDestroy

    [handleDestroy] up to its wait for the destruction: the final
    snapshot is composed, the destroy counter incremented, the snapshot
    broadcast, the state persisted (a failure is only logged), the
    directories unmounted and the snapshot handed to the updater.
    [unmountErr] is the error of [allocDir.UnmountAll], if any.  The result
    carries the snapshot handed to the updater. *)
Definition handleDestroySync (sendOk : nat -> bool) (f : Faults)
    (unmountErr : option string) (now : Time) (r : AllocRunner) (db : StateDB)
  : option (Allocation * AllocRunner * StateDB * list RunEvent) :=
  '(snapshot, r1) ← Alloc r now;
  m ← incrCounter r1 [] "destroy";
  let sent := sendBroadcast r1 sendOk snapshot in
  '(out, r2, db') ← saveAllocRunnerState r1 db f now;
  let warn :=
    match so_err out with
    | Some err =>
        [RDo (ELog "WARN" ["unable to persist state but should be GC'd soon anyway";
                           allocID r2; err])]
    | None => []
    end in
  _ ← allocDir r2;
  let unmount :=
    RDirUnmount ::
    match unmountErr with
    | Some err => [RDo (ELog "ERR" ["unable unmount task directories"; allocID r2; err])]
    | None => []
    end in
  Some (snapshot, r2, db',
        map RDo m ++ map RDo sent ++ warn ++ unmount ++ [RDo (EUpdater snapshot)]).

(** The effects among some run events, the snapshots handed to the
    updater among some effects, and a store that does not fail. *)
Definition runEffects (evs : list RunEvent) : list Effect :=
  omap (fun e => match e with RDo e => Some e | _ => None end) evs.

Definition handed (eff : list Effect) : list Allocation :=
  omap (fun e => match e with EUpdater s => Some s | _ => None end) eff.

Definition faultless (f : Faults) : Prop :=
  bucketFails f = false /\ (forall key, putFails f key = false) /\
  commitFails f = false.

(** ** More small inputs *)

(** An allocation of a task group its job does not have, one without
    evaluation, and an update of "a1" inside a deployment. *)
Definition exampleNoGroup : Allocation :=
  {| ID := "a2"; EvalID := "e2"; DeploymentID := ""; AllocTaskGroup := "g9";
     AllocJob := Some exampleJob; AllocModifyIndex := 1%Z; DesiredStatus := "run";
     ClientStatus := "pending"; ClientDescription := ""; TaskStates := ∅;
     DeploymentStatus := None |}.

Definition exampleNoEval : Allocation :=
  {| ID := "a3"; EvalID := ""; DeploymentID := ""; AllocTaskGroup := "g1";
     AllocJob := Some exampleJob; AllocModifyIndex := 1%Z; DesiredStatus := "run";
     ClientStatus := "pending"; ClientDescription := ""; TaskStates := ∅;
     DeploymentStatus := None |}.

Definition exampleUpdate : Allocation :=
  {| ID := "a1"; EvalID := "e1"; DeploymentID := "d2"; AllocTaskGroup := "g1";
     AllocJob := Some exampleJob; AllocModifyIndex := 2%Z; DesiredStatus := "run";
     ClientStatus := "pending"; ClientDescription := ""; TaskStates := ∅;
     DeploymentStatus := Some {| Healthy := Some false; Timestamp := 5%Z |} |}.

Definition exampleRestart : TaskEvent :=
  {| Type_ := TaskRestarting; EvTime := 120%Z; FailsTask := false; FailedSibling := "" |}.

(** The collaborators of [Run] when nothing fails, and when the directory
    cannot be built. *)
Definition exampleEnv : RunEnv :=
  {| env_build := None; env_wait := None; env_migrate := None; env_rebuild := None |}.

Definition exampleNoDisk : RunEnv :=
  {| env_build := Some "no space left on device"; env_wait := None;
     env_migrate := None; env_rebuild := None |}.

(** The wait for the previous allocation is cancelled. *)
Definition exampleCancelled : RunEnv :=
  {| env_build := None; env_wait := Some ErrCanceled;
     env_migrate := None; env_rebuild := None |}.

(** An allocation the server wants stopped, and the terminal status of
    an allocation by its desired status. *)
Definition exampleStopped : Allocation :=
  {| ID := "a4"; EvalID := "e4"; DeploymentID := ""; AllocTaskGroup := "g1";
     AllocJob := Some exampleJob; AllocModifyIndex := 3%Z; DesiredStatus := "stop";
     ClientStatus := "running"; ClientDescription := ""; TaskStates := ∅;
     DeploymentStatus := None |}.

Definition exampleTerminal (a : Allocation) : bool :=
  bool_decide (DesiredStatus a = "stop") || ClientTerminalStatus a.
(** * Theorems *)

(** What each flag of the scan means. *)
Lemma scanStates_spec (taskStates : gmap string TaskState) :
  let fl := scanStates taskStates in
  (f_failed fl = true <->
     someTask (fun st => State st = "dead" /\ Failed st = true) taskStates) /\
  (f_running fl = true <-> someTask (fun st => State st = "running") taskStates) /\
  (f_pending fl = true <-> someTask (fun st => State st = "pending") taskStates) /\
  (f_dead fl = true <->
     someTask (fun st => State st = "dead" /\ Failed st = false) taskStates).
Proof.
  unfold scanStates, someTask.
  apply (map_fold_weak_ind (fun fl m =>
    (f_failed fl = true <-> map_Exists (fun _ st => State st = "dead" /\ Failed st = true) m) /\
    (f_running fl = true <-> map_Exists (fun _ st => State st = "running") m) /\
    (f_pending fl = true <-> map_Exists (fun _ st => State st = "pending") m) /\
    (f_dead fl = true <-> map_Exists (fun _ st => State st = "dead" /\ Failed st = false) m))).
  - repeat split; intros H; try discriminate;
      exfalso; revert H; apply map_Exists_empty.
  - intros i st m fl Hi (Hf & Hr & Hp & Hd).
    rewrite !map_Exists_insert by exact Hi.
    unfold scanState, TaskStateRunning, TaskStatePending, TaskStateDead.
    repeat case_decide; try destruct (Failed st) eqn:HF; simpl;
      rewrite <- ?Hf, <- ?Hr, <- ?Hp, <- ?Hd;
      repeat split; intros; try tauto; try (right; tauto);
      intuition congruence.
Qed.

(** C1. For every task-state map, [getClientStatus] returns the value of
    the precedence table: "failed" if some task is dead with [Failed] set,
    otherwise "running" if some task is running, otherwise "pending" if some
    task is pending, otherwise "complete" if some task is dead, otherwise the
    empty string; on the empty map it returns the empty string. *)
Theorem getClientStatus_precedence :
  (forall taskStates : gmap string TaskState,
     getClientStatus taskStates = precedenceTable taskStates) /\
  getClientStatus ∅ = "".
Proof.
  split; [|reflexivity].
  intros ts. unfold getClientStatus, precedenceTable.
  destruct (scanStates_spec ts) as (Hf & Hr & Hp & Hd).
  assert (Hdead : f_failed (scanStates ts) = false ->
    (f_dead (scanStates ts) = true <-> someTask (fun st => State st = "dead") ts)).
  { intros Hnf. rewrite Hd. split.
    - intros (i & st & Hi & Hs & _). exists i, st. auto.
    - intros (i & st & Hi & Hs). exists i, st. repeat split; auto.
      destruct (Failed st) eqn:HF; auto.
      assert (f_failed (scanStates ts) = true) by (apply Hf; exists i, st; auto).
      congruence. }
  destruct (f_failed (scanStates ts)) eqn:Ef.
  { rewrite decide_True by (apply Hf; reflexivity). reflexivity. }
  rewrite decide_False by (intros H; apply Hf in H; discriminate).
  destruct (f_running (scanStates ts)) eqn:Er.
  { rewrite decide_True by (apply Hr; reflexivity). reflexivity. }
  rewrite decide_False by (intros H; apply Hr in H; discriminate).
  destruct (f_pending (scanStates ts)) eqn:Ep.
  { rewrite decide_True by (apply Hp; reflexivity). reflexivity. }
  rewrite decide_False by (intros H; apply Hp in H; discriminate).
  specialize (Hdead eq_refl).
  destruct (f_dead (scanStates ts)) eqn:Ed.
  { rewrite decide_True by (apply Hdead; reflexivity). reflexivity. }
  rewrite decide_False by (intros H; apply Hdead in H; discriminate).
  reflexivity.
Qed.

(** ** The event ring *)

Lemma appendTaskEvent_Events (st : TaskState) (e : TaskEvent) :
  Events (appendTaskEvent st e) =
  (if decide (length (Events st) = capacity) then drop 1 (Events st) else Events st)
  ++ [e].
Proof. reflexivity. Qed.

Lemma ring_step (l : list TaskEvent) (e : TaskEvent) :
  (if decide (length (drop (length l - capacity) l) = capacity)
   then drop 1 (drop (length l - capacity) l)
   else drop (length l - capacity) l) ++ [e]
  = drop (length (l ++ [e]) - capacity) (l ++ [e]).
Proof.
  rewrite length_app, length_drop. simpl. unfold capacity.
  case_decide as Hlen.
  - rewrite drop_drop.
    replace (length l - 10 + 1) with (length l + 1 - 10) by lia.
    rewrite drop_app_le by lia. reflexivity.
  - replace (length l - 10) with 0 by lia.
    replace (length l + 1 - 10) with 0 by lia. reflexivity.
Qed.

Lemma appendTaskEvent_ring (st : TaskState) (es : list TaskEvent) :
  Events (foldl appendTaskEvent (set_Events [] st) es)
  = drop (length es - capacity) es.
Proof.
  induction es as [|e es IH] using rev_ind; [reflexivity|].
  rewrite foldl_snoc, appendTaskEvent_Events, IH. apply ring_step.
Qed.

(** C4. Starting from a task state with no events, after any sequence of
    [appendTaskEvent] calls the event list is the sequence of appended
    events without its first [n - 10] elements when [n] events were
    appended: it holds at most 10 events, in the order of insertion, and
    what an overflow drops is the oldest event. *)
Theorem appendTaskEvent_bounded_ring :
  forall (st : TaskState) (es : list TaskEvent),
    let st' := foldl appendTaskEvent (set_Events [] st) es in
    length (Events st') <= 10 /\
    Events st' = drop (length es - 10) es /\
    (forall e : TaskEvent,
        length (Events st') = 10 ->
        Events (appendTaskEvent st' e) = drop 1 (Events st') ++ [e]) /\
    (forall e : TaskEvent,
        length (Events st') < 10 ->
        Events (appendTaskEvent st' e) = Events st' ++ [e]).
Proof.
  intros st es st'. subst st'.
  pose proof (appendTaskEvent_ring st es) as Hring. unfold capacity in Hring.
  repeat split.
  - rewrite Hring, length_drop. lia.
  - exact Hring.
  - intros e Hlen. rewrite appendTaskEvent_Events. unfold capacity.
    rewrite decide_True by exact Hlen. reflexivity.
  - intros e Hlen. rewrite appendTaskEvent_Events. unfold capacity.
    rewrite decide_False by lia. reflexivity.
Qed.

(** ** The update queue *)

Lemma Update_room (update : Allocation) (r : AllocRunner) :
  length (updateCh r) < updateChCapacity ->
  Update update r = (set_updateCh (updateCh r ++ [update]) r, []).
Proof. intros H. unfold Update. rewrite decide_True by exact H. reflexivity. Qed.

Lemma Update_full (update : Allocation) (r : AllocRunner) :
  updateChCapacity <= length (updateCh r) ->
  Update update r = (r, [ELog "ERR" ["dropping update to alloc"; ID update]]).
Proof. intros H. unfold Update. rewrite decide_False by lia. reflexivity. Qed.

Lemma set_updateCh_idem (l1 l2 : list Allocation) (r : AllocRunner) :
  set_updateCh l1 (set_updateCh l2 r) = set_updateCh l1 r.
Proof. reflexivity. Qed.

Lemma set_updateCh_same (r : AllocRunner) : set_updateCh (updateCh r) r = r.
Proof. destruct r; reflexivity. Qed.

Lemma pushUpdates_take (updates : list Allocation) (r : AllocRunner) :
  length (updateCh r) <= updateChCapacity ->
  pushUpdates updates r
  = set_updateCh (take updateChCapacity (updateCh r ++ updates)) r.
Proof.
  unfold pushUpdates. revert r.
  induction updates as [|u us IH]; intros r Hlen.
  - simpl. rewrite app_nil_r, take_ge by exact Hlen.
    symmetry. apply set_updateCh_same.
  - simpl. destruct (decide (length (updateCh r) < updateChCapacity)) as [Hlt|Hge].
    + rewrite Update_room by exact Hlt. simpl.
      rewrite IH by (simpl; rewrite length_app; simpl; lia).
      simpl. rewrite set_updateCh_idem, <- app_assoc. reflexivity.
    + rewrite Update_full by lia. simpl.
      rewrite IH by exact Hlen.
      rewrite !take_app_le by lia. reflexivity.
Qed.

(** C9. [Update] never blocks: it is a total function of the runner.  When
    the channel holds fewer than 64 updates, the update is queued behind the
    ones already waiting, nothing is logged and no other field of the runner
    changes; when it holds 64, the runner is returned as it was and the only
    effect is the error log.  Hence a burst of updates leaves in the channel
    its first arrivals, in arrival order, up to the capacity, and the
    receiving end takes the oldest one first. *)
Theorem Update_nonblocking_send :
  (forall (update : Allocation) (r : AllocRunner),
      length (updateCh r) < 64 ->
      Update update r = (set_updateCh (updateCh r ++ [update]) r, [])) /\
  (forall (update : Allocation) (r : AllocRunner),
      64 <= length (updateCh r) ->
      Update update r = (r, [ELog "ERR" ["dropping update to alloc"; ID update]])) /\
  (forall (updates : list Allocation) (r : AllocRunner),
      length (updateCh r) <= 64 ->
      pushUpdates updates r = set_updateCh (take 64 (updateCh r ++ updates)) r) /\
  (forall (update : Allocation) (rest : list Allocation) (r r' : AllocRunner),
      updateCh r = update :: rest ->
      recvUpdate r = Some r' ->
      alloc r' = Some update /\ updateCh r' = rest).
Proof.
  split; [exact Update_room|].
  split; [exact Update_full|].
  split; [exact pushUpdates_take|].
  intros update rest r r' Hch Hrecv. unfold recvUpdate in Hrecv.
  rewrite Hch in Hrecv. destruct (alloc r) as [a|]; [|discriminate].
  simpl in Hrecv. injection Hrecv as <-.
  case_decide; split; reflexivity.
Qed.

(** ** Persistence *)

(** [finalizeTerminalAlloc] and [Alloc] touch no field of the runner but the
    task states. *)
Lemma finalizeTerminalAlloc_runner (r r' : AllocRunner) (now : Time)
    (a a' : Allocation) :
  finalizeTerminalAlloc r now a = Some (a', r') ->
  r' = set_taskStates (taskStates r') r.
Proof.
  unfold finalizeTerminalAlloc. intros H.
  destruct (negb (ClientTerminalStatus a)).
  - injection H as <- <-. destruct r; reflexivity.
  - destruct (AllocJob a) as [j|]; [|discriminate]. simpl in H.
    destruct (LookupTaskGroup j (AllocTaskGroup a)) as [g|]; [|discriminate].
    simpl in H. injection H as <- <-. reflexivity.
Qed.

Lemma Alloc_runner (r r' : AllocRunner) (now : Time) (snapshot : Allocation) :
  Alloc r now = Some (snapshot, r') ->
  r' = set_taskStates (taskStates r') r.
Proof.
  unfold Alloc. intros H.
  destruct (alloc r) as [a|]; [|discriminate]. simpl in H.
  destruct (_ || _) in H; eapply finalizeTerminalAlloc_runner; exact H.
Qed.

Lemma finalizeTerminalAlloc_EvalID (r r' : AllocRunner) (now : Time)
    (a a' : Allocation) :
  finalizeTerminalAlloc r now a = Some (a', r') -> EvalID a' = EvalID a.
Proof.
  unfold finalizeTerminalAlloc. intros H.
  destruct (negb (ClientTerminalStatus a)).
  - injection H as <- <-. reflexivity.
  - destruct (AllocJob a) as [j|]; [|discriminate]. simpl in H.
    destruct (LookupTaskGroup j (AllocTaskGroup a)) as [g|]; [|discriminate].
    simpl in H. injection H as <- <-. reflexivity.
Qed.

(** The persistence attempt of a runner whose context is live is the
    transaction on the composed snapshot. *)
Lemma saveAllocRunnerState_live (r r1 : AllocRunner) (db : StateDB) (f : Faults)
    (now : Time) (snapshot : Allocation) :
  ctxCanceled r = false ->
  Alloc r now = Some (snapshot, r1) ->
  saveAllocRunnerState r db f now =
  Some (Batch f r1 db
          (saveTx r1 snapshot (allocClientStatus r1) (allocClientDescription r1)
             (allocDir r1) f)).
Proof.
  intros Hctx HA. unfold saveAllocRunnerState. rewrite Hctx, HA. reflexivity.
Qed.

Lemma saveAllocRunnerState_canceled (r : AllocRunner) (db : StateDB) (f : Faults)
    (now : Time) :
  ctxCanceled r = true ->
  saveAllocRunnerState r db f now = Some (noSave, r, db).
Proof. intros Hctx. unfold saveAllocRunnerState. rewrite Hctx. reflexivity. Qed.

(** [saveTx] executes its plan. *)
Lemma saveTx_plan (r : AllocRunner) (snapshot : Allocation) (st desc : string)
    (dir : option AllocDir) (f : Faults) :
  saveTx r snapshot st desc dir f =
  if bucketFails f then TxErr "failed to retrieve allocation bucket" emptyTx
  else execPuts f (savePlan r snapshot st desc dir) emptyTx.
Proof.
  unfold saveTx, savePlan.
  destruct (bucketFails f); [reflexivity|].
  case_decide; destruct (immutablePersisted r); destruct dir as [d|];
    try destruct (allocDirPersisted r); simpl;
    unfold PutObject, txBind, registerCommit, OnCommit, emptyTx; simpl;
    repeat (match goal with
            | |- context [putFails f ?k] => destruct (putFails f k)
            end; simpl; try reflexivity).
Qed.

Lemma execPuts_ok (f : Faults) (plan : list PlannedPut) (tx tx' : Tx) :
  execPuts f plan tx = TxOk tx' ->
  tx_puts tx' = tx_puts tx ++ planPuts plan /\
  tx_onCommit tx' = tx_onCommit tx ++ planCommits plan.
Proof.
  revert tx. induction plan as [|p rest IH]; intros tx H; simpl in H.
  - injection H as <-. unfold planPuts, planCommits. simpl.
    rewrite !app_nil_r. auto.
  - unfold PutObject in H. destruct (putFails f (pp_key p)); [discriminate|].
    apply IH in H as [Hp Hc]. rewrite Hp, Hc.
    unfold planPuts, planCommits, registerCommit, OnCommit.
    destruct (pp_commit p) as [c|] eqn:Hcb; simpl; rewrite ?Hcb;
      rewrite <- ?app_assoc; simpl; rewrite ?app_nil_r; auto.
Qed.

Lemma execPuts_puts (f : Faults) (plan : list PlannedPut) (tx : Tx) :
  exists done, done `prefix_of` plan /\
    tx_puts (txOf (execPuts f plan tx)) = tx_puts tx ++ planPuts done.
Proof.
  revert tx. induction plan as [|p rest IH]; intros tx; simpl.
  - exists []. split; [reflexivity|]. unfold planPuts. simpl.
    rewrite app_nil_r. reflexivity.
  - unfold PutObject. destruct (putFails f (pp_key p)); simpl.
    + exists []. split; [apply prefix_nil|]. unfold planPuts. simpl.
      rewrite app_nil_r. reflexivity.
    + destruct (IH (registerCommit (pp_commit p)
                      {| tx_puts := tx_puts tx ++ [(pp_key p, pp_obj p)];
                         tx_onCommit := tx_onCommit tx |})) as (done & Hpre & Hd).
      exists (p :: done). split; [apply prefix_cons; exact Hpre|].
      rewrite Hd. unfold planPuts, registerCommit, OnCommit.
      destruct (pp_commit p); simpl; rewrite <- app_assoc; reflexivity.
Qed.

Lemma execPuts_key_planned (f : Faults) (plan : list PlannedPut) (key : string) :
  In key (map fst (tx_puts (txOf (execPuts f plan emptyTx)))) ->
  In key (map pp_key plan).
Proof.
  destruct (execPuts_puts f plan emptyTx) as (done & [rest ->] & ->).
  simpl. unfold planPuts. rewrite map_map, map_app. simpl.
  intros H. apply in_or_app. left. exact H.
Qed.

Lemma execPuts_first (f : Faults) (p : PlannedPut) (rest : list PlannedPut) :
  putFails f (pp_key p) = false ->
  In (pp_key p) (map fst (tx_puts (txOf (execPuts f (p :: rest) emptyTx)))).
Proof.
  intros Hput. simpl. unfold PutObject. rewrite Hput.
  destruct (execPuts_puts f rest
              (registerCommit (pp_commit p)
                 {| tx_puts := tx_puts emptyTx ++ [(pp_key p, pp_obj p)];
                    tx_onCommit := tx_onCommit emptyTx |})) as (done & _ & ->).
  unfold registerCommit, OnCommit. destruct (pp_commit p); simpl; left; reflexivity.
Qed.

(** The transaction scope around a plan: on commit all of the plan is
    written and all its callbacks run; otherwise runner and store are as
    before. *)
Lemma Batch_plan (f : Faults) (r : AllocRunner) (db : StateDB)
    (plan : list PlannedPut) :
  let res := Batch f r db (execPuts f plan emptyTx) in
  (so_committed res.1.1 = true ->
   so_puts res.1.1 = planPuts plan /\
   res.1.2 = runCallbacks (planCommits plan) r /\
   res.2 = {| bucket := applyPuts (planPuts plan) (bucket db);
              committedPuts := committedPuts db ++ map pp_key plan |}) /\
  (so_committed res.1.1 = false -> res.1.2 = r /\ res.2 = db) /\
  so_puts res.1.1 = tx_puts (txOf (execPuts f plan emptyTx)).
Proof.
  simpl. unfold Batch.
  destruct (execPuts f plan emptyTx) as [tx|msg tx] eqn:Hexec.
  - apply execPuts_ok in Hexec as [Hp Hc]. simpl in Hp, Hc.
    destruct (commitFails f); simpl; repeat split; try discriminate; auto.
    + rewrite Hc. reflexivity.
    + rewrite Hp. unfold planPuts. rewrite map_map. reflexivity.
  - simpl. repeat split; try discriminate; auto.
Qed.

Lemma Batch_bucket_fails (r : AllocRunner) (db : StateDB) (f : Faults) (msg : string) :
  Batch f r db (TxErr msg emptyTx)
  = ({| so_err := Some msg; so_committed := false; so_puts := [] |}, r, db).
Proof. reflexivity. Qed.

Ltac plan_cases r snapshot dir :=
  unfold savePlan, planPuts, planCommits, runCallbacks, applyPuts,
    allocRunnerStateAllocKey, allocRunnerStateImmutableKey,
    allocRunnerStateAllocDirKey, allocRunnerStateMutableKey;
  destruct (decide (EvalID snapshot = persistedEval r));
  [rewrite (decide_False (P := EvalID snapshot <> persistedEval r)) by tauto
  |rewrite (decide_True (P := EvalID snapshot <> persistedEval r)) by assumption];
  destruct (immutablePersisted r) eqn:?; destruct dir as [?|];
  try destruct (allocDirPersisted r) eqn:?; simpl.

Ltac key_facts :=
  repeat match goal with
         | H : _ \/ _ |- _ => destruct H
         | H : _ /\ _ |- _ => destruct H
         | H : @eq bool _ _ |- _ => discriminate H
         | H : @eq string _ _ |- _ => discriminate H
         | H : False |- _ => destruct H
         | H : ?x <> ?x |- _ => destruct (H eq_refl)
         end.

(** Which keys a plan holds. *)
Lemma savePlan_keys (r : AllocRunner) (snapshot : Allocation) (st desc : string)
    (dir : option AllocDir) :
  let keys := map pp_key (savePlan r snapshot st desc dir) in
  (In "alloc" keys <-> EvalID snapshot <> persistedEval r) /\
  (In "immutable" keys <-> immutablePersisted r = false) /\
  (In "alloc-dir" keys <-> allocDirPersisted r = false /\ dir <> None) /\
  In "mutable" keys /\
  countKey "immutable" keys = (if immutablePersisted r then 0 else 1) /\
  countKey "alloc-dir" keys =
    (if allocDirPersisted r then 0 else match dir with Some _ => 1 | None => 0 end).
Proof.
  plan_cases r snapshot dir; unfold countKey;
    repeat split; intros; simpl in *; key_facts;
    try discriminate; try tauto; try congruence; auto;
    try (destruct (allocDirPersisted r); reflexivity).
Qed.

Lemma savePlan_head (r : AllocRunner) (snapshot : Allocation) (st desc : string)
    (dir : option AllocDir) :
  EvalID snapshot <> persistedEval r ->
  exists p rest, savePlan r snapshot st desc dir = p :: rest /\ pp_key p = "alloc".
Proof.
  intros Hne. unfold savePlan. rewrite decide_True by exact Hne.
  simpl. eauto.
Qed.

(** What the callbacks of a plan and its puts leave behind. *)
Lemma savePlan_commit (r : AllocRunner) (db : StateDB) (snapshot : Allocation)
    (st desc : string) (dir : option AllocDir) :
  let plan := savePlan r snapshot st desc dir in
  let r' := runCallbacks (planCommits plan) r in
  persistedEval r' = EvalID snapshot /\
  immutablePersisted r' = true /\
  (allocDirPersisted r' = true <-> allocDirPersisted r = true \/ dir <> None) /\
  r' = set_allocDirPersisted (allocDirPersisted r')
         (set_immutablePersisted true (set_persistedEval (EvalID snapshot) r)) /\
  applyPuts (planPuts plan) (bucket db) !! "alloc" =
    (if decide (EvalID snapshot <> persistedEval r)
     then Some (ObjAlloc (Some snapshot)) else bucket db !! "alloc").
Proof.
  plan_cases r snapshot dir;
    (repeat split; intros; simpl in *; key_facts;
     try discriminate; try tauto; try congruence; auto;
     try (destruct r; simpl in *; subst; reflexivity);
     try (rewrite ?decide_True, ?decide_False by tauto;
          simplify_map_eq; reflexivity)).
Qed.

(** C5. Within one [saveAllocRunnerState] transaction (the context is live
    and the snapshot composed), the [alloc] record is put only if the
    snapshot's [EvalID] differs from the last persisted one, and it is put
    whenever it differs and the store hands out the bucket and accepts the
    put; in a committed transaction the [alloc] key is rewritten with the
    snapshot if and only if the [EvalID] differs.  The persisted-eval marker
    is moved by the commit callback only: after a commit it is the
    snapshot's [EvalID], and after a transaction that did not commit it is
    what it was, as is the store. *)
Theorem saveAllocRunnerState_eval_gating :
  forall (r : AllocRunner) (db : StateDB) (f : Faults) (now : Time)
         (snapshot : Allocation) (r1 : AllocRunner),
    ctxCanceled r = false ->
    Alloc r now = Some (snapshot, r1) ->
    exists out r' db',
      saveAllocRunnerState r db f now = Some (out, r', db') /\
      (In "alloc" (map fst (so_puts out)) -> EvalID snapshot <> persistedEval r) /\
      (bucketFails f = false -> putFails f "alloc" = false ->
       EvalID snapshot <> persistedEval r -> In "alloc" (map fst (so_puts out))) /\
      (so_committed out = true ->
       (In "alloc" (map fst (so_puts out)) <-> EvalID snapshot <> persistedEval r) /\
       persistedEval r' = EvalID snapshot /\
       bucket db' !! "alloc" =
         (if decide (EvalID snapshot <> persistedEval r)
          then Some (ObjAlloc (Some snapshot)) else bucket db !! "alloc")) /\
      (so_committed out = false -> persistedEval r' = persistedEval r /\ db' = db).
Proof.
  intros r db f now snapshot r1 Hctx HA.
  rewrite (saveAllocRunnerState_live r r1 db f now snapshot Hctx HA).
  assert (Hpe : persistedEval r1 = persistedEval r)
    by (rewrite (Alloc_runner _ _ _ _ HA); reflexivity).
  rewrite <- Hpe. rewrite saveTx_plan.
  set (plan := savePlan r1 snapshot (allocClientStatus r1)
                 (allocClientDescription r1) (allocDir r1)).
  destruct (bucketFails f) eqn:Hb.
  { rewrite Batch_bucket_fails. do 3 eexists. split; [reflexivity|]. simpl.
    repeat split; try tauto; discriminate. }
  pose proof (Batch_plan f r1 db plan) as (Hcommit & Habort & Hputs).
  pose proof (savePlan_keys r1 snapshot (allocClientStatus r1)
                (allocClientDescription r1) (allocDir r1)) as (Hk & _).
  pose proof (savePlan_commit r1 db snapshot (allocClientStatus r1)
                (allocClientDescription r1) (allocDir r1)) as (Hpe' & _ & _ & _ & Hbk).
  fold plan in Hk, Hpe', Hbk.
  destruct (Batch f r1 db (execPuts f plan emptyTx)) as [[out r'] db'].
  simpl in Hcommit, Habort, Hputs.
  exists out, r', db'. split; [reflexivity|].
  repeat split.
  - rewrite Hputs. intros Hin. apply Hk.
    apply (execPuts_key_planned f plan "alloc" Hin).
  - intros _ Hput Hne. rewrite Hputs.
    destruct (savePlan_head r1 snapshot (allocClientStatus r1)
                (allocClientDescription r1) (allocDir r1) Hne) as (p & rest & Hplan & Hkey).
    fold plan in Hplan. rewrite Hplan, <- Hkey.
    apply execPuts_first. rewrite Hkey. exact Hput.
  - destruct (Hcommit H) as (Hp & _ & _). rewrite Hp. intros Hin.
    apply Hk. unfold planPuts in Hin. rewrite map_map in Hin. exact Hin.
  - destruct (Hcommit H) as (Hp & _ & _). rewrite Hp. intros Hne.
    unfold planPuts. rewrite map_map. apply Hk. exact Hne.
  - destruct (Hcommit H) as (_ & -> & _). exact Hpe'.
  - destruct (Hcommit H) as (_ & _ & ->). exact Hbk.
  - destruct (Habort H) as [-> _]. reflexivity.
  - destruct (Habort H) as [_ ->]. reflexivity.
Qed.

(** The two ways a persistence attempt can go. *)
Lemma saveAllocRunnerState_cases (r r' : AllocRunner) (db db' : StateDB)
    (f : Faults) (now : Time) (out : SaveOutcome) :
  saveAllocRunnerState r db f now = Some (out, r', db') ->
  (ctxCanceled r = true /\ out = noSave /\ r' = r /\ db' = db) \/
  (ctxCanceled r = false /\
   exists snapshot r1,
     Alloc r now = Some (snapshot, r1) /\
     let plan := savePlan r1 snapshot (allocClientStatus r1)
                   (allocClientDescription r1) (allocDir r1) in
     (forall key, In key (map fst (so_puts out)) -> In key (map pp_key plan)) /\
     ((so_committed out = false /\ r' = r1 /\ db' = db) \/
      (so_committed out = true /\
       so_puts out = planPuts plan /\
       r' = runCallbacks (planCommits plan) r1 /\
       db' = {| bucket := applyPuts (planPuts plan) (bucket db);
                committedPuts := committedPuts db ++ map pp_key plan |}))).
Proof.
  intros H. destruct (ctxCanceled r) eqn:Hctx.
  - rewrite saveAllocRunnerState_canceled in H by exact Hctx.
    injection H as <- <- <-. left. auto.
  - right. split; [reflexivity|].
    destruct (Alloc r now) as [[snapshot r1]|] eqn:HA.
    2:{ unfold saveAllocRunnerState in H. rewrite Hctx, HA in H. discriminate. }
    rewrite (saveAllocRunnerState_live r r1 db f now snapshot Hctx HA) in H.
    exists snapshot, r1. split; [reflexivity|].
    rewrite saveTx_plan in H. simpl.
    destruct (bucketFails f).
    { rewrite Batch_bucket_fails in H. injection H as <- <- <-. simpl.
      split; [tauto|]. left. auto. }
    pose proof (Batch_plan f r1 db
                  (savePlan r1 snapshot (allocClientStatus r1)
                     (allocClientDescription r1) (allocDir r1)))
      as (Hcommit & Habort & Hputs).
    injection H as H. rewrite H in Hcommit, Habort, Hputs. simpl in *.
    split.
    { intros key. rewrite Hputs. apply execPuts_key_planned. }
    destruct (so_committed out).
    + right. destruct (Hcommit eq_refl) as (? & ? & ?). auto.
    + left. destruct (Habort eq_refl). auto.
Qed.

Lemma countKey_app (key : string) (l1 l2 : list string) :
  countKey key (l1 ++ l2) = countKey key l1 + countKey key l2.
Proof. unfold countKey. rewrite filter_app, length_app. reflexivity. Qed.

(** A persistence attempt keeps flags and spy log in agreement. *)
Lemma saveAllocRunnerState_flags (r r' : AllocRunner) (db db' : StateDB)
    (f : Faults) (now : Time) (out : SaveOutcome) (tr tr' : list Effect) :
  saveAllocRunnerState r db f now = Some (out, r', db') ->
  flagsMatchLog (mkWorld r db tr) ->
  flagsMatchLog (mkWorld r' db' tr').
Proof.
  intros H [Hi Hd]. simpl in Hi, Hd.
  apply saveAllocRunnerState_cases in H
    as [(_ & _ & -> & ->)|(_ & snapshot & r1 & HA & _ & Hcases)].
  { split; assumption. }
  pose proof (Alloc_runner _ _ _ _ HA) as Hr1.
  assert (Hi1 : immutablePersisted r1 = immutablePersisted r)
    by (rewrite Hr1; reflexivity).
  assert (Hd1 : allocDirPersisted r1 = allocDirPersisted r)
    by (rewrite Hr1; reflexivity).
  destruct Hcases as [(_ & -> & ->)|(_ & _ & -> & ->)].
  { split; simpl; rewrite ?Hi1, ?Hd1; assumption. }
  pose proof (savePlan_keys r1 snapshot (allocClientStatus r1)
                (allocClientDescription r1) (allocDir r1))
    as (_ & _ & _ & _ & Hci & Hcd).
  pose proof (savePlan_commit r1 db snapshot (allocClientStatus r1)
                (allocClientDescription r1) (allocDir r1))
    as (_ & Hi' & Hd' & _).
  simpl in Hci, Hcd, Hi', Hd'.
  split; simpl; rewrite countKey_app.
  - rewrite Hi, Hci, Hi', Hi1. destruct (immutablePersisted r); reflexivity.
  - rewrite Hd, Hcd, Hd1.
    destruct (allocDirPersisted
                (runCallbacks
                   (planCommits
                      (savePlan r1 snapshot (allocClientStatus r1)
                         (allocClientDescription r1) (allocDir r1))) r1)) eqn:E.
    + destruct (allocDirPersisted r) eqn:E'; [reflexivity|].
      destruct (allocDir r1); [reflexivity|].
      destruct Hd' as [Hd' _]. destruct (Hd' eq_refl) as [?|?]; congruence.
    + destruct (allocDirPersisted r) eqn:E'.
      * destruct Hd' as [_ Hd'].
        assert (false = true) as Habs; [|discriminate Habs].
        apply Hd'. left. congruence.
      * destruct (allocDir r1) as [d|]; [|reflexivity].
        destruct Hd' as [_ Hd'].
        assert (false = true) as Habs; [|discriminate Habs].
        apply Hd'. right. discriminate.
Qed.

(** ** What the operations leave alone *)

(** Inversion of a monadic bind whose result is known. *)
Ltac bind_inv H :=
  match type of H with
  | (?m ≫= _) = Some _ =>
      let E := fresh "E" in
      destruct m as [?|] eqn:E; [simpl in H|discriminate H]
  end.

(** [setTaskState] changes the task states and the dirty channel only. *)
Lemma setTaskState_frame (r r' : AllocRunner) (now : Time) (taskName state : string)
    (event : option TaskEvent) (lazySync : bool) (eff : list Effect) :
  setTaskState r now taskName state event lazySync = Some (r', eff) ->
  r' = set_dirtyCh (dirtyCh r') (set_taskStates (taskStates r') r).
Proof.
  unfold setTaskState. intros H.
  bind_inv H. destruct p as [s1 eff1]. destruct lazySync.
  - injection H as <- <-. destruct r; reflexivity.
  - bind_inv H. destruct p as [s2 eff2]. injection H as <- <-. reflexivity.
Qed.

Lemma syncStatus_save (r r' : AllocRunner) (db db' : StateDB) (sendOk : nat -> bool)
    (f : Faults) (now : Time) (out : SaveOutcome) (eff : list Effect) :
  syncStatus r db sendOk f now = Some (out, r', db', eff) ->
  exists snapshot r1,
    Alloc r now = Some (snapshot, r1) /\
    saveAllocRunnerState r1 db f now = Some (out, r', db').
Proof.
  unfold syncStatus. intros H.
  bind_inv H. destruct p as [snapshot r1].
  bind_inv H. destruct p as [[out' r2] db2]. injection H as <- <- <- <-.
  eauto.
Qed.

(** Every operation keeps the one-shot flags and the spy log in agreement. *)
Lemma step_flags (op : Op) (w w' : World) :
  step op w = Some w' -> flagsMatchLog w -> flagsMatchLog w'.
Proof.
  destruct w as [r db tr]. unfold step. simpl.
  destruct op; intros H Hinv.
  - bind_inv H. destruct p as [r' eff]. injection H as <-.
    apply setTaskState_frame in E. rewrite E. exact Hinv.
  - injection H as <-. exact Hinv.
  - bind_inv H. destruct p as [snapshot r']. injection H as <-.
    apply Alloc_runner in E. rewrite E. exact Hinv.
  - unfold Update in H. case_decide; injection H as <-; exact Hinv.
  - bind_inv H. injection H as <-. unfold recvUpdate in E.
    destruct (updateCh r); [injection E as <-; exact Hinv|].
    bind_inv E. injection E as <-. case_decide; exact Hinv.
  - bind_inv H. destruct p as [[out r'] db']. injection H as <-.
    eapply saveAllocRunnerState_flags; [exact E|exact Hinv].
  - bind_inv H. destruct p as [[[out r'] db'] eff]. injection H as <-.
    apply syncStatus_save in E as (snapshot & r1 & HA & Hsave).
    eapply (saveAllocRunnerState_flags _ _ _ _ _ _ _ tr); [exact Hsave|].
    apply Alloc_runner in HA. rewrite HA. exact Hinv.
  - injection H as <-. exact Hinv.
  - injection H as <-. exact Hinv.
Qed.

Lemma run_flags (ops : list Op) (w w' : World) :
  run ops w = Some w' -> flagsMatchLog w -> flagsMatchLog w'.
Proof.
  revert w. induction ops as [|op ops IH]; intros w H Hinv; simpl in H.
  - injection H as <-. exact Hinv.
  - bind_inv H. eapply IH; [exact H|]. eapply step_flags; eassumption.
Qed.

(** C6. Over the lifetime of one runner, which starts with both one-shot
    flags unset as [NewAllocRunner] leaves them, whatever the runner does
    and whichever transactions abort, the committed transactions write the
    [immutable] record at most once and the [alloc-dir] record at most once,
    and each one-shot flag is set exactly when its record has been
    committed.  In one persistence attempt the
    [immutable] record is put only while its flag is unset, the [alloc-dir]
    record only while its flag is unset and the directory is not nil, and an
    attempt whose transaction does not commit leaves both flags, the
    persisted-eval marker and the store as they were. *)
Theorem once_only_records :
  (forall (r : AllocRunner) (db : StateDB) (tr : list Effect) (ops : list Op)
          (w : World),
      immutablePersisted r = false ->
      allocDirPersisted r = false ->
      committedPuts db = [] ->
      run ops (mkWorld r db tr) = Some w ->
      countKey "immutable" (committedPuts (w_db w)) <= 1 /\
      countKey "alloc-dir" (committedPuts (w_db w)) <= 1 /\
      (immutablePersisted (w_runner w) = true <->
       countKey "immutable" (committedPuts (w_db w)) = 1) /\
      (allocDirPersisted (w_runner w) = true <->
       countKey "alloc-dir" (committedPuts (w_db w)) = 1)) /\
  (forall (r r' : AllocRunner) (db db' : StateDB) (f : Faults) (now : Time)
          (out : SaveOutcome),
      saveAllocRunnerState r db f now = Some (out, r', db') ->
      (In "immutable" (map fst (so_puts out)) -> immutablePersisted r = false) /\
      (In "alloc-dir" (map fst (so_puts out)) ->
       allocDirPersisted r = false /\ allocDir r <> None) /\
      (so_committed out = false ->
       immutablePersisted r' = immutablePersisted r /\
       allocDirPersisted r' = allocDirPersisted r /\
       persistedEval r' = persistedEval r /\
       db' = db)).
Proof.
  split.
  - intros r db tr ops w Hi0 Hd0 Hlog Hrun.
    assert (Hinv : flagsMatchLog w).
    { eapply run_flags; [exact Hrun|].
      split; simpl; rewrite Hlog, ?Hi0, ?Hd0; reflexivity. }
    destruct Hinv as [Hi Hd]. rewrite Hi, Hd.
    destruct (immutablePersisted (w_runner w)), (allocDirPersisted (w_runner w));
      repeat split; intros; try lia; try reflexivity; try discriminate.
  - intros r r' db db' f now out H.
    apply saveAllocRunnerState_cases in H
      as [(_ & -> & -> & ->)|(_ & snapshot & r1 & HA & Hkeys & Hcases)].
    { simpl. repeat split; intros; tauto. }
    pose proof (Alloc_runner _ _ _ _ HA) as Hr1.
    pose proof (savePlan_keys r1 snapshot (allocClientStatus r1)
                  (allocClientDescription r1) (allocDir r1))
      as (_ & Hki & Hkd & _).
    simpl in Hkeys, Hki, Hkd.
    assert (Hfi : immutablePersisted r1 = immutablePersisted r)
      by (rewrite Hr1; reflexivity).
    assert (Hfd : allocDirPersisted r1 = allocDirPersisted r)
      by (rewrite Hr1; reflexivity).
    assert (Hfe : persistedEval r1 = persistedEval r)
      by (rewrite Hr1; reflexivity).
    assert (Hdir : allocDir r1 = allocDir r)
      by (rewrite Hr1; reflexivity).
    repeat split.
    + intros Hin. rewrite <- Hfi. apply Hki, Hkeys, Hin.
    + rewrite <- Hfd. apply Hkd, Hkeys, H.
    + rewrite <- Hdir. apply Hkd, Hkeys, H.
    + destruct Hcases as [(_ & -> & _)|(Hc & _)]; congruence.
    + destruct Hcases as [(_ & -> & _)|(Hc & _)]; congruence.
    + destruct Hcases as [(_ & -> & _)|(Hc & _)]; congruence.
    + destruct Hcases as [(_ & _ & ->)|(Hc & _)]; congruence.
Qed.

(** ** Persistence after destruction *)

(** Once the context is cancelled it stays cancelled, and no operation
    writes to the store; only [DestroyState] empties the bucket. *)
Lemma step_canceled (op : Op) (w w' : World) :
  step op w = Some w' ->
  ctxCanceled (w_runner w) = true ->
  ctxCanceled (w_runner w') = true /\
  committedPuts (w_db w') = committedPuts (w_db w) /\
  (bucket (w_db w') = bucket (w_db w) \/
   op = OpDestroyState /\ bucket (w_db w') = ∅).
Proof.
  destruct w as [r db tr]. unfold step. simpl.
  destruct op; intros H Hctx.
  - bind_inv H. destruct p as [r' eff]. injection H as <-. simpl.
    apply setTaskState_frame in E. rewrite E. auto.
  - injection H as <-. auto.
  - bind_inv H. destruct p as [snapshot r']. injection H as <-. simpl.
    apply Alloc_runner in E. rewrite E. auto.
  - unfold Update in H. case_decide; injection H as <-; auto.
  - bind_inv H. injection H as <-. unfold recvUpdate in E.
    destruct (updateCh r); [injection E as <-; auto|].
    bind_inv E. injection E as <-. case_decide; auto.
  - bind_inv H. destruct p as [[out r'] db']. injection H as <-. simpl.
    rewrite saveAllocRunnerState_canceled in E by exact Hctx.
    injection E as <- <- <-. auto.
  - bind_inv H. destruct p as [[[out r'] db'] eff]. injection H as <-. simpl.
    apply syncStatus_save in E as (snapshot & r1 & HA & Hsave).
    apply Alloc_runner in HA.
    rewrite saveAllocRunnerState_canceled in Hsave by (rewrite HA; exact Hctx).
    injection Hsave as <- <- <-. rewrite HA. auto.
  - injection H as <-. auto.
  - injection H as <-. simpl. auto.
Qed.

Lemma run_canceled (ops : list Op) (w w' : World) :
  run ops w = Some w' ->
  ctxCanceled (w_runner w) = true ->
  ctxCanceled (w_runner w') = true /\
  committedPuts (w_db w') = committedPuts (w_db w) /\
  (bucket (w_db w') = bucket (w_db w) \/
   In OpDestroyState ops /\ bucket (w_db w') = ∅).
Proof.
  revert w. induction ops as [|op ops IH]; intros w H Hctx; simpl in H.
  - injection H as <-. auto.
  - bind_inv H. rename w0 into w1.
    destruct (step_canceled op w w1 E Hctx) as (Hctx1 & Hlog1 & Hb1).
    destruct (IH w1 H Hctx1) as (Hctx' & Hlog' & Hb').
    split; [exact Hctx'|]. split; [congruence|].
    destruct Hb' as [Hb'|[Hin Hb']].
    + destruct Hb1 as [Hb1|[-> Hb1]].
      * left. congruence.
      * right. split; [left; reflexivity|congruence].
    + right. split; [right; exact Hin|exact Hb'].
Qed.

(** C10. Once the context of the runner is cancelled, as [Destroy] does,
    every later call of [saveAllocRunnerState] returns nil without a
    transaction: no put, no commit, runner and store as they were.  The
    context stays cancelled whatever the runner does afterwards, and no
    later operation writes a record; the bucket changes only when
    [DestroyState] deletes it. *)
Theorem saveAllocRunnerState_after_Destroy :
  (forall (r : AllocRunner) (db : StateDB) (f : Faults) (now : Time),
      saveAllocRunnerState (Destroy r) db f now = Some (noSave, Destroy r, db)) /\
  (forall (ops : list Op) (w w' : World),
      ctxCanceled (w_runner w) = true ->
      run ops w = Some w' ->
      ctxCanceled (w_runner w') = true /\
      committedPuts (w_db w') = committedPuts (w_db w) /\
      (bucket (w_db w') = bucket (w_db w) \/
       In OpDestroyState ops /\ bucket (w_db w') = ∅) /\
      (forall (f : Faults) (now : Time),
          saveAllocRunnerState (w_runner w') (w_db w') f now
          = Some (noSave, w_runner w', w_db w'))).
Proof.
  split.
  - intros r db f now. apply saveAllocRunnerState_canceled. reflexivity.
  - intros ops w w' Hctx Hrun.
    destruct (run_canceled ops w w' Hrun Hctx) as (Hctx' & Hlog & Hb).
    repeat split; try assumption.
    intros f now. apply saveAllocRunnerState_canceled. exact Hctx'.
Qed.

(** ** Finalising a terminal snapshot *)

Lemma copyTaskStates_id (states : gmap string TaskState) :
  copyTaskStates states = states.
Proof. unfold copyTaskStates. apply map_fmap_id. Qed.

Lemma stampFinished_idem (now : Time) (ts : TaskState) :
  stampFinished now (stampFinished now ts) = stampFinished now ts.
Proof.
  unfold stampFinished.
  destruct (IsZero (FinishedAt ts)) eqn:E; simpl; [|rewrite E; reflexivity].
  destruct (IsZero now); reflexivity.
Qed.

Lemma stampFinished_nonzero (now : Time) (ts : TaskState) :
  now <> 0%Z -> FinishedAt (stampFinished now ts) <> 0%Z.
Proof.
  intros Hnow. unfold stampFinished, IsZero.
  destruct (Z.eqb_spec (FinishedAt ts) 0); simpl; assumption.
Qed.

Lemma stampFinished_State (now : Time) (ts : TaskState) :
  State (stampFinished now ts) = State ts /\
  Failed (stampFinished now ts) = Failed ts.
Proof. unfold stampFinished. destruct (IsZero (FinishedAt ts)); auto. Qed.

(** The task states after the loop of [finalizeTerminalAlloc]. *)
Lemma finalizeTasks_lookup (now : Time) (group : list Task)
    (states : gmap string TaskState) (name : string) :
  foldl (finalizeTask now) states group !! name =
  if decide (name ∈ map TaskName group)
  then Some (stampFinished now (default zeroTaskState (states !! name)))
  else states !! name.
Proof.
  revert states. induction group as [|task rest IH]; intros states;
    cbn [foldl map].
  - rewrite decide_False by apply not_elem_of_nil. reflexivity.
  - rewrite IH. unfold finalizeTask.
    destruct (decide (TaskName task = name)) as [->|Hne].
    + rewrite lookup_insert_eq. simpl. rewrite stampFinished_idem.
      rewrite (decide_True (P := name ∈ name :: _)) by (apply elem_of_cons; left; reflexivity).
      case_decide; reflexivity.
    + rewrite lookup_insert_ne by exact Hne.
      destruct (decide (name ∈ map TaskName rest)) as [Hin|Hnin].
      * rewrite decide_True by (apply elem_of_cons; right; exact Hin). reflexivity.
      * rewrite decide_False; [reflexivity|].
        rewrite elem_of_cons. intros [->|?]; tauto.
Qed.

Lemma finalizeTerminalAlloc_cases (r r' : AllocRunner) (now : Time)
    (a a' : Allocation) :
  finalizeTerminalAlloc r now a = Some (a', r') ->
  (ClientTerminalStatus a = false /\ a' = a /\ r' = r) \/
  (ClientTerminalStatus a = true /\
   exists j group,
     AllocJob a = Some j /\
     LookupTaskGroup j (AllocTaskGroup a) = Some group /\
     a' = set_TaskStates (foldl (finalizeTask now) (taskStates r) (Tasks group)) a /\
     r' = set_taskStates (foldl (finalizeTask now) (taskStates r) (Tasks group)) r).
Proof.
  unfold finalizeTerminalAlloc. intros H.
  destruct (ClientTerminalStatus a); simpl in H.
  - right. split; [reflexivity|].
    bind_inv H. bind_inv H. injection H as <- <-.
    rewrite copyTaskStates_id. eauto 10.
  - injection H as <- <-. left. auto.
Qed.

(** What [finalizeTerminalAlloc] does when the task group is found.  When
    the client status of the composed snapshot is terminal and its task
    group is found, [finalizeTerminalAlloc] gives every task of
    the group an entry in the snapshot and in the runner; the entry is the
    task's state, or a fresh one when it had none, with [FinishedAt] set to
    the current time if it was zero, so it is never zero; the other entries
    and the client status are untouched.  When the client status is not
    terminal, snapshot and runner are returned unchanged.  So every snapshot
    [Alloc] composes with a terminal client status has a non-zero
    [FinishedAt] for every task of its group. *)
Theorem finalizeTerminalAlloc_FinishedAt :
  (forall (r : AllocRunner) (now : Time) (a : Allocation) (j : Job) (group : TaskGroup),
      now <> 0%Z ->
      ClientTerminalStatus a = true ->
      AllocJob a = Some j ->
      LookupTaskGroup j (AllocTaskGroup a) = Some group ->
      exists a' r',
        finalizeTerminalAlloc r now a = Some (a', r') /\
        ClientStatus a' = ClientStatus a /\
        (forall task, In task (Tasks group) ->
           exists st,
             TaskStates a' !! TaskName task = Some st /\
             taskStates r' !! TaskName task = Some st /\
             st = stampFinished now
                    (default zeroTaskState (taskStates r !! TaskName task)) /\
             FinishedAt st <> 0%Z) /\
        (forall name, ~ In name (map TaskName (Tasks group)) ->
           TaskStates a' !! name = taskStates r !! name /\
           taskStates r' !! name = taskStates r !! name)) /\
  (forall (r : AllocRunner) (now : Time) (a : Allocation),
      ClientTerminalStatus a = false ->
      finalizeTerminalAlloc r now a = Some (a, r)) /\
  (forall (r r' : AllocRunner) (now : Time) (snapshot : Allocation),
      now <> 0%Z ->
      Alloc r now = Some (snapshot, r') ->
      ClientTerminalStatus snapshot = true ->
      exists j group,
        AllocJob snapshot = Some j /\
        LookupTaskGroup j (AllocTaskGroup snapshot) = Some group /\
        forall task, In task (Tasks group) ->
          exists st, TaskStates snapshot !! TaskName task = Some st /\
                     FinishedAt st <> 0%Z).
Proof.
  split; [|split].
  - intros r now a j group Hnow Hterm Hj Hg.
    unfold finalizeTerminalAlloc. rewrite Hterm, Hj. simpl. rewrite Hg. simpl.
    do 2 eexists. split; [reflexivity|]. rewrite copyTaskStates_id. simpl.
    split; [reflexivity|]. split.
    + intros task Hin. eexists. rewrite finalizeTasks_lookup.
      rewrite decide_True by (apply list_elem_of_In, in_map; exact Hin).
      repeat split. apply stampFinished_nonzero. exact Hnow.
    + intros name Hnot. rewrite finalizeTasks_lookup.
      rewrite decide_False by (rewrite list_elem_of_In; exact Hnot). auto.
  - intros r now a Hterm. unfold finalizeTerminalAlloc. rewrite Hterm. reflexivity.
  - intros r r' now snapshot Hnow HA Hterm. unfold Alloc in HA.
    bind_inv HA.
    assert (Hfin : exists a0, finalizeTerminalAlloc r now a0 = Some (snapshot, r'))
      by (destruct (_ || _) in HA; eauto).
    destruct Hfin as (a0 & Hfin).
    apply finalizeTerminalAlloc_cases in Hfin
      as [(Hnt & -> & _)|(_ & j & group & Hj & Hg & -> & _)]; [congruence|].
    exists j, group. simpl. repeat split; try assumption.
    intros task Hin. eexists. rewrite finalizeTasks_lookup.
    rewrite decide_True by (apply list_elem_of_In, in_map; exact Hin).
    split; [reflexivity|]. apply stampFinished_nonzero. exact Hnow.
Qed.

(** ** Dead tasks *)

Lemma markUnhealthy_TaskStates (a : Allocation) :
  TaskStates (markUnhealthy a) = TaskStates a /\
  ClientStatus (markUnhealthy a) = ClientStatus a.
Proof. unfold markUnhealthy. destruct (_ && _); auto. Qed.

(** The task states of a snapshot are those of the runner after the
    snapshot, and each is the state before or that state finalised. *)
Lemma Alloc_taskStates (r r' : AllocRunner) (now : Time) (snapshot : Allocation) :
  Alloc r now = Some (snapshot, r') ->
  TaskStates snapshot = taskStates r' /\
  forall name,
    taskStates r' !! name = taskStates r !! name \/
    taskStates r' !! name
    = Some (stampFinished now (default zeroTaskState (taskStates r !! name))).
Proof.
  unfold Alloc. intros H. bind_inv H.
  assert (Hfin : exists a0, TaskStates a0 = taskStates r /\
                            finalizeTerminalAlloc r now a0 = Some (snapshot, r')).
  { destruct (_ || _) in H; eexists; (split; [|exact H]).
    - simpl. apply copyTaskStates_id.
    - rewrite (proj1 (markUnhealthy_TaskStates _)). simpl. apply copyTaskStates_id. }
  destruct Hfin as (a0 & Hts & Hfin).
  apply finalizeTerminalAlloc_cases in Hfin
    as [(_ & -> & ->)|(_ & j & group & _ & _ & -> & ->)].
  - split; [exact Hts|]. auto.
  - split; [reflexivity|]. intros name. simpl.
    rewrite finalizeTasks_lookup.
    destruct (decide (name ∈ map TaskName (Tasks group))); auto.
Qed.

Lemma Alloc_isDead (t : string) (r r' : AllocRunner) (now : Time)
    (snapshot : Allocation) :
  Alloc r now = Some (snapshot, r') ->
  isDead t r ->
  isDead t r' /\
  exists st, TaskStates snapshot !! t = Some st /\ State st = TaskStateDead.
Proof.
  intros HA (st & Hst & Hdead).
  destruct (Alloc_taskStates _ _ _ _ HA) as [Hts Hnames].
  assert (Hd : isDead t r').
  { destruct (Hnames t) as [H|H]; rewrite Hst in H.
    - exists st. auto.
    - eexists. split; [exact H|]. simpl.
      rewrite (proj1 (stampFinished_State now st)). exact Hdead. }
  split; [exact Hd|]. rewrite Hts. exact Hd.
Qed.

Lemma appendTaskEvent_State (ts : TaskState) (ev : TaskEvent) :
  State (appendTaskEvent ts ev) = State ts.
Proof. reflexivity. Qed.

Lemma recordEvent_State (r : AllocRunner) (taskName : string) (ts ts' : TaskState)
    (ev : TaskEvent) (eff : list Effect) :
  recordEvent r taskName ts ev = Some (ts', eff) -> State ts' = State ts.
Proof.
  unfold recordEvent. intros H. case_decide.
  - bind_inv H. injection H as <- _. rewrite appendTaskEvent_State. simpl.
    destruct (FailsTask ev); reflexivity.
  - injection H as <- _. rewrite appendTaskEvent_State.
    destruct (FailsTask ev); reflexivity.
Qed.

(** What [setTaskState] stores for the task it is called for, and that it
    leaves the other tasks alone. *)
Lemma setTaskState_State (r r' : AllocRunner) (now : Time) (taskName state : string)
    (event : option TaskEvent) (lazySync : bool) (eff : list Effect) :
  setTaskState r now taskName state event lazySync = Some (r', eff) ->
  (forall t, t <> taskName -> taskStates r' !! t = taskStates r !! t) /\
  exists st',
    taskStates r' !! taskName = Some st' /\
    State st' =
      let old := State (default zeroTaskState (taskStates r !! taskName)) in
      if lazySync then old
      else if decide (state = "") then
             if decide (old = "") then TaskStatePending else old
           else state.
Proof.
  unfold setTaskState. intros H.
  bind_inv H. destruct p as [s1 eff1].
  assert (Hs1 : State s1 = State (default zeroTaskState (taskStates r !! taskName))).
  { destruct event as [ev|].
    - eapply recordEvent_State. exact E.
    - injection E as <- _. reflexivity. }
  destruct lazySync.
  - injection H as <- <-. simpl. split.
    + intros t Hne. apply lookup_insert_ne. congruence.
    + eexists. rewrite lookup_insert_eq. split; [reflexivity|exact Hs1].
  - bind_inv H. destruct p as [s2 eff2]. injection H as <- <-. simpl. split.
    + intros t Hne. apply lookup_insert_ne. congruence.
    + eexists. rewrite lookup_insert_eq. split; [reflexivity|]. simpl.
      unfold effectiveState. rewrite Hs1. reflexivity.
Qed.

Lemma setTaskState_isDead (t : string) (r r' : AllocRunner) (now : Time)
    (taskName state : string) (event : option TaskEvent) (lazySync : bool)
    (eff : list Effect) :
  setTaskState r now taskName state event lazySync = Some (r', eff) ->
  taskName <> t \/ lazySync = true \/ state = "" \/ state = TaskStateDead ->
  isDead t r -> isDead t r'.
Proof.
  intros H Hkeep (st & Hst & Hdead).
  destruct (setTaskState_State _ _ _ _ _ _ _ _ H) as (Hother & st' & Hst' & HState).
  destruct (decide (t = taskName)) as [->|Hne].
  2:{ exists st. rewrite Hother by exact Hne. auto. }
  exists st'. split; [exact Hst'|]. rewrite HState, Hst. simpl. rewrite Hdead.
  destruct Hkeep as [Hk | [ -> | [ -> | -> ] ] ]; [congruence|reflexivity| |].
  - destruct lazySync; [reflexivity|].
    rewrite decide_True by reflexivity.
    rewrite decide_False by discriminate. reflexivity.
  - destruct lazySync; [reflexivity|].
    rewrite decide_False by discriminate. reflexivity.
Qed.

Lemma saveAllocRunnerState_isDead (t : string) (r r' : AllocRunner)
    (db db' : StateDB) (f : Faults) (now : Time) (out : SaveOutcome) :
  saveAllocRunnerState r db f now = Some (out, r', db') ->
  isDead t r -> isDead t r'.
Proof.
  intros H Hdead.
  apply saveAllocRunnerState_cases in H
    as [(_ & _ & -> & _)|(_ & snapshot & r1 & HA & _ & Hcases)]; [exact Hdead|].
  destruct (Alloc_isDead t _ _ _ _ HA Hdead) as [Hd1 _].
  destruct Hcases as [(_ & -> & _)|(_ & _ & -> & _)]; [exact Hd1|].
  pose proof (savePlan_commit r1 db snapshot (allocClientStatus r1)
                (allocClientDescription r1) (allocDir r1)) as (_ & _ & _ & Hr & _).
  simpl in Hr. unfold isDead. rewrite Hr. exact Hd1.
Qed.

Lemma step_isDead (t : string) (op : Op) (w w' : World) :
  step op w = Some w' -> keepsDead t op ->
  isDead t (w_runner w) -> isDead t (w_runner w').
Proof.
  destruct w as [r db tr]. unfold step. simpl.
  destruct op; intros H Hkeep Hdead; simpl in Hkeep.
  - bind_inv H. destruct p as [r' eff]. injection H as <-. simpl.
    eapply setTaskState_isDead; eassumption.
  - injection H as <-. exact Hdead.
  - bind_inv H. destruct p as [snapshot r']. injection H as <-. simpl.
    eapply Alloc_isDead; eassumption.
  - unfold Update in H. case_decide; injection H as <-; exact Hdead.
  - bind_inv H. injection H as <-. unfold recvUpdate in E.
    destruct (updateCh r); [injection E as <-; exact Hdead|].
    bind_inv E. injection E as <-. case_decide; exact Hdead.
  - bind_inv H. destruct p as [[out r'] db']. injection H as <-. simpl.
    eapply saveAllocRunnerState_isDead; eassumption.
  - bind_inv H. destruct p as [[[out r'] db'] eff]. injection H as <-. simpl.
    apply syncStatus_save in E as (snapshot & r1 & HA & Hsave).
    eapply saveAllocRunnerState_isDead; [exact Hsave|].
    eapply Alloc_isDead; eassumption.
  - injection H as <-. exact Hdead.
  - injection H as <-. exact Hdead.
Qed.

(** C2, as the code has it.  [setTaskState] stores the state it is passed:
    a call that is not lazy and passes a state stores that state, whatever
    was recorded before.  A task recorded as dead therefore stays dead
    through every operation of the runner other than a call of
    [setTaskState] for that task that is not lazy and passes a state other
    than dead: through lazy calls, calls that omit the state or pass dead,
    calls for other tasks, explicit statuses, snapshots, updates,
    persistence, syncs and destruction; and every snapshot taken then shows
    it dead. *)
Theorem dead_task_stays_dead :
  (forall (t : string) (ops : list Op) (w w' : World),
      isDead t (w_runner w) ->
      Forall (keepsDead t) ops ->
      run ops w = Some w' ->
      isDead t (w_runner w') /\
      forall (now : Time) (snapshot : Allocation) (r' : AllocRunner),
        Alloc (w_runner w') now = Some (snapshot, r') ->
        exists st, TaskStates snapshot !! t = Some st /\ State st = TaskStateDead) /\
  (forall (r r' : AllocRunner) (now : Time) (taskName state : string)
          (event : option TaskEvent) (eff : list Effect),
      state <> "" ->
      setTaskState r now taskName state event false = Some (r', eff) ->
      exists st', taskStates r' !! taskName = Some st' /\ State st' = state).
Proof.
  split.
  - intros t ops. induction ops as [|op ops IH]; intros w w' Hdead Hkeep Hrun;
      simpl in Hrun.
    + injection Hrun as <-. split; [exact Hdead|].
      intros now snapshot r' HA. eapply Alloc_isDead; eassumption.
    + bind_inv Hrun. apply Forall_cons in Hkeep as [Hk Hkeep].
      eapply IH; [|exact Hkeep|exact Hrun].
      eapply step_isDead; eassumption.
  - intros r r' now taskName state event eff Hne H.
    destruct (setTaskState_State _ _ _ _ _ _ _ _ H) as (_ & st' & Hst' & HState).
    exists st'. split; [exact Hst'|]. rewrite HState. simpl.
    rewrite decide_False by exact Hne. reflexivity.
Qed.

(** C2 fails as stated: the task "t1" of the small allocation is recorded
    running, then dead; a further call of [setTaskState] passing running
    records it as running again, and the next snapshot shows it running. *)
Lemma dead_task_runs_again :
  exists w1 w2 : World,
    run [OpSetTaskState 100%Z "t1" "running" None false;
         OpSetTaskState 200%Z "t1" "dead" None false] exampleWorld = Some w1 /\
    isDead "t1" (w_runner w1) /\
    step (OpSetTaskState 300%Z "t1" "running" None false) w1 = Some w2 /\
    (exists st, taskStates (w_runner w2) !! "t1" = Some st /\
                State st = TaskStateRunning) /\
    (exists snapshot r' st,
        Alloc (w_runner w2) 400%Z = Some (snapshot, r') /\
        TaskStates snapshot !! "t1" = Some st /\
        State st = TaskStateRunning).
Proof.
  do 2 eexists.
  split; [vm_compute; reflexivity|].
  split; [eexists; split; vm_compute; reflexivity|].
  split; [vm_compute; reflexivity|].
  split; [eexists; split; vm_compute; reflexivity|].
  do 3 eexists. split; [vm_compute; reflexivity|].
  split; vm_compute; reflexivity.
Qed.

(** ** The cascade of a dead task *)

Lemma destroyed_app (e1 e2 : list Effect) :
  destroyed (e1 ++ e2) = destroyed e1 ++ destroyed e2.
Proof. unfold destroyed. apply omap_app. Qed.

Lemma destroyed_incrCounter (r : AllocRunner) (path : list string) (name : string)
    (m : list Effect) :
  incrCounter r path name = Some m -> destroyed m = [].
Proof.
  unfold incrCounter. intros H.
  destruct (BackwardsCompatibleMetrics (config r)).
  - bind_inv H. bind_inv H. injection H as <-.
    destruct (DisableTaggedMetrics (config r)); reflexivity.
  - injection H as <-. destruct (DisableTaggedMetrics (config r)); reflexivity.
Qed.

Lemma destroyed_recordEvent (r : AllocRunner) (taskName : string) (ts ts' : TaskState)
    (ev : TaskEvent) (eff : list Effect) :
  recordEvent r taskName ts ev = Some (ts', eff) -> destroyed eff = [].
Proof.
  unfold recordEvent. intros H. case_decide.
  - bind_inv H. injection H as _ <-. eapply destroyed_incrCounter. exact E.
  - injection H as _ <-. reflexivity.
Qed.

Lemma destroyed_destroyAll (others : list (string * TaskRunner)) (ev : TaskEvent) :
  destroyed (destroyAll others ev) = map (fun p => (p.1, ev)) others.
Proof.
  unfold destroyed, destroyAll.
  induction others as [|p rest IH]; simpl; [reflexivity|].
  f_equal. exact IH.
Qed.

Lemma destroyed_debugOthers (others : list (string * TaskRunner)) (what taskName : string) :
  destroyed (debugOthers others what taskName) = [].
Proof. destruct others; reflexivity. Qed.

(** Who the other task runners are. *)
Lemma otherTaskRunners_spec (r : AllocRunner) (taskName n : string) (ev ev' : TaskEvent) :
  (n, ev') ∈ map (fun p : string * TaskRunner => (p.1, ev)) (otherTaskRunners r taskName)
  <-> is_Some (tasks r !! n) /\ n <> taskName /\ ev' = ev.
Proof.
  unfold otherTaskRunners. rewrite list_elem_of_In, in_map_iff. split.
  - intros ([n' tr] & Heq & Hin). simpl in Heq. injection Heq as -> ->.
    apply list_elem_of_In, list_elem_of_filter in Hin as [Hne Hin].
    apply elem_of_map_to_list in Hin. simpl in Hne. eauto.
  - intros ([tr Htr] & Hne & ->). exists (n, tr). split; [reflexivity|].
    apply list_elem_of_In, list_elem_of_filter. split; [exact Hne|].
    apply elem_of_map_to_list. exact Htr.
Qed.

Lemma otherTaskRunners_NoDup (r : AllocRunner) (taskName : string) (ev : TaskEvent) :
  NoDup (map fst (map (fun p : string * TaskRunner => (p.1, ev))
                    (otherTaskRunners r taskName))).
Proof.
  rewrite map_map. simpl. unfold otherTaskRunners.
  pose proof (NoDup_fst_map_to_list (tasks r)) as Hnd.
  induction (map_to_list (tasks r)) as [|p l IH]; [constructor|].
  simpl in Hnd. apply NoDup_cons in Hnd as [Hnotin Hnd].
  rewrite filter_cons. case_decide; [|apply IH; exact Hnd].
  simpl. apply NoDup_cons. split; [|apply IH; exact Hnd].
  intros Hin. apply Hnotin.
  apply list_elem_of_In, in_map_iff in Hin as (q & Hq & Hin).
  apply list_elem_of_In, list_elem_of_filter in Hin as [_ Hin].
  rewrite <- Hq. apply list_elem_of_In, in_map, list_elem_of_In. exact Hin.
Qed.

(** A call that is not lazy stores the effective state, and when that
    state is dead what it does is what [enterDead] does. *)
Lemma setTaskState_dead (r r' : AllocRunner) (now : Time) (taskName state : string)
    (event : option TaskEvent) (eff : list Effect) (st' : TaskState) :
  setTaskState r now taskName state event false = Some (r', eff) ->
  taskStates r' !! taskName = Some st' ->
  State st' = TaskStateDead ->
  exists s1 eff1 m,
    incrCounter r [taskName] (if Failed st' then "failed" else "complete") = Some m /\
    destroyed eff1 = [] /\
    Failed st' = Failed s1 /\
    st' = set_State TaskStateDead (stampFinished now s1) /\
    eff = eff1 ++ m ++
      (if Failed st' then
         destroyAll (otherTaskRunners r taskName)
           (SetFailedSibling (NewTaskEvent now TaskSiblingFailed) taskName)
         ++ debugOthers (otherTaskRunners r taskName)
              "task failed, destroying other tasks" taskName
       else if isLeaderTask r taskName then
         destroyAll (otherTaskRunners r taskName) (NewTaskEvent now TaskLeaderDead)
         ++ debugOthers (otherTaskRunners r taskName)
              "leader task is dead, destroying other tasks" taskName
       else []).
Proof.
  unfold setTaskState. intros H Hlook Hdead.
  bind_inv H. destruct p as [s1 eff1]. simpl in H.
  bind_inv H. destruct p as [s2 eff2]. injection H as <- <-.
  simpl in Hlook. rewrite lookup_insert_eq in Hlook. injection Hlook as <-.
  simpl in Hdead. rewrite Hdead in E0.
  unfold TaskStateDead, TaskStateRunning in E0.
  rewrite decide_False in E0 by discriminate.
  rewrite decide_True in E0 by reflexivity.
  unfold enterDead in E0. bind_inv E0. injection E0 as <- <-.
  simpl. rewrite Hdead.
  assert (Hno : destroyed eff1 = []).
  { destruct event as [ev|].
    - eapply destroyed_recordEvent. exact E.
    - injection E as _ <-. reflexivity. }
  exists s1, eff1, l. repeat split; try assumption.
  destruct (stampFinished_State now s1) as [_ ->]. reflexivity.
Qed.

Lemma incrCounter_total (r : AllocRunner) (path : list string) (name : string) :
  metricsReady r -> exists m, incrCounter r path name = Some m.
Proof.
  unfold incrCounter. intros [Hoff|(a & j & Ha & Hj)].
  - rewrite Hoff. eauto.
  - rewrite Ha. simpl. rewrite Hj. simpl.
    destruct (BackwardsCompatibleMetrics (config r)); eauto.
Qed.

(** [setTaskState] returns whenever the legacy metrics can be emitted. *)
Lemma setTaskState_total (r : AllocRunner) (now : Time) (taskName state : string)
    (event : option TaskEvent) (lazySync : bool) :
  metricsReady r ->
  exists r' eff, setTaskState r now taskName state event lazySync = Some (r', eff).
Proof.
  intros Hready. unfold setTaskState.
  set (ts := default zeroTaskState (taskStates r !! taskName)).
  assert (Hev : exists s1 eff1,
             match event with
             | Some ev => recordEvent r taskName ts ev
             | None => Some (ts, [])
             end = Some (s1, eff1)).
  { destruct event as [ev|]; [|eauto]. unfold recordEvent.
    destruct (decide (Type_ ev = TaskRestarting)); [|eauto].
    destruct (incrCounter_total r [taskName] "restart" Hready) as [m ->].
    simpl. eauto. }
  destruct Hev as (s1 & eff1 & ->). simpl.
  destruct lazySync; [eauto|].
  assert (Hsw : exists s2 eff2,
             (if decide (effectiveState state s1 = TaskStateRunning)
              then enterRunning r now taskName s1
              else if decide (effectiveState state s1 = TaskStateDead)
                   then enterDead r now taskName s1
                   else Some (s1, [])) = Some (s2, eff2)).
  { destruct (decide (effectiveState state s1 = TaskStateRunning)).
    - unfold enterRunning.
      destruct (decide (State s1 = TaskStateRunning)); [eauto|].
      destruct (incrCounter_total r [taskName] "running" Hready) as [m ->].
      simpl. eauto.
    - destruct (decide (effectiveState state s1 = TaskStateDead)); [|eauto].
      unfold enterDead.
      destruct (incrCounter_total r [taskName]
                  (if Failed (stampFinished now s1) then "failed" else "complete")
                  Hready) as [m ->].
      simpl. eauto. }
  destruct Hsw as (s2 & eff2 & ->). simpl. eauto.
Qed.

(** C3. When a call of [setTaskState] that is not lazy records a task as
    dead: if the task's [Failed] flag is set, [Destroy] is called on every
    other task runner, and only on those, with a sibling-failed event that
    carries the name of the dead task; otherwise, if the task runner
    registered for the dead task runs a task whose [Leader] flag is set,
    [Destroy] is called on every other task runner, and only on those, with
    a leader-dead event; otherwise (the task has no runner, or its runner
    runs a task that does not lead) no task runner is destroyed.  No task
    runner is destroyed twice.  The call returns whenever the legacy metrics
    can be emitted, and passing dead records dead. *)
Theorem setTaskState_dead_cascade :
  (forall (r : AllocRunner) (now : Time) (taskName : string)
          (event : option TaskEvent),
      metricsReady r ->
      exists r' eff st',
        setTaskState r now taskName TaskStateDead event false = Some (r', eff) /\
        taskStates r' !! taskName = Some st' /\
        State st' = TaskStateDead) /\
  forall (r r' : AllocRunner) (now : Time) (taskName state : string)
         (event : option TaskEvent) (eff : list Effect) (st' : TaskState),
    setTaskState r now taskName state event false = Some (r', eff) ->
    taskStates r' !! taskName = Some st' ->
    State st' = TaskStateDead ->
    let sibling := SetFailedSibling (NewTaskEvent now TaskSiblingFailed) taskName in
    let leaderDead := NewTaskEvent now TaskLeaderDead in
    Type_ sibling = TaskSiblingFailed /\
    FailedSibling sibling = taskName /\
    Type_ leaderDead = TaskLeaderDead /\
    (Failed st' = true ->
     forall n ev, (n, ev) ∈ destroyed eff <->
                  is_Some (tasks r !! n) /\ n <> taskName /\ ev = sibling) /\
    (Failed st' = false ->
     forall tr, tasks r !! taskName = Some tr -> Leader (tr_task tr) = true ->
     forall n ev, (n, ev) ∈ destroyed eff <->
                  is_Some (tasks r !! n) /\ n <> taskName /\ ev = leaderDead) /\
    (Failed st' = false ->
     (forall tr, tasks r !! taskName = Some tr -> Leader (tr_task tr) = false) ->
     destroyed eff = []) /\
    NoDup (map fst (destroyed eff)).
Proof.
  split.
  { intros r now taskName event Hready.
    destruct (setTaskState_total r now taskName TaskStateDead event false Hready)
      as (r' & eff & H).
    destruct (setTaskState_State _ _ _ _ _ _ _ _ H) as (_ & st' & Hst' & HState).
    exists r', eff, st'. split; [exact H|]. split; [exact Hst'|exact HState]. }
  intros r r' now taskName state event eff st' H Hlook Hdead sibling leaderDead.
  destruct (setTaskState_dead _ _ _ _ _ _ _ _ H Hlook Hdead)
    as (s1 & eff1 & m & Hm & Hno & _ & _ & ->).
  apply destroyed_incrCounter in Hm.
  rewrite !destroyed_app, Hno, Hm. simpl.
  split; [reflexivity|]. split; [reflexivity|]. split; [reflexivity|].
  destruct (Failed st').
  - rewrite destroyed_app, destroyed_destroyAll, destroyed_debugOthers, app_nil_r.
    split; [intros _ n ev; apply otherTaskRunners_spec|].
    split; [discriminate|]. split; [discriminate|].
    apply otherTaskRunners_NoDup.
  - split; [discriminate|].
    unfold isLeaderTask, IsLeader.
    destruct (tasks r !! taskName) as [tr|] eqn:Htr.
    + destruct (Leader (tr_task tr)) eqn:Hl.
      * rewrite destroyed_app, destroyed_destroyAll, destroyed_debugOthers, app_nil_r.
        split; [intros _ tr' _ _ n ev; apply otherTaskRunners_spec|].
        split; [|apply otherTaskRunners_NoDup].
        intros _ Hall. specialize (Hall tr eq_refl). congruence.
      * split; [|split; [reflexivity|constructor]].
        intros _ tr' [= <-] Hl'. congruence.
    + split; [|split; [reflexivity|constructor]].
      intros _ tr' [=].
Qed.

(** ** Restoring *)

Section RestoreFacts.

Variable TerminalStatus : Allocation -> bool.
Variable trRestoreState : string -> string * option string.
Variable now : Time.

Lemma untouched_app (name : string) (e1 e2 : list Effect) :
  untouched name e1 -> untouched name e2 -> untouched name (e1 ++ e2).
Proof.
  intros H1 H2 e Hin. apply in_app_or in Hin as [Hin|Hin]; auto.
Qed.

Lemma restoreRunner_deadUnrun (name : string) (r r' : AllocRunner) (task : Task)
    (eff : list Effect) (errs : list string) :
  restoreRunner TerminalStatus trRestoreState now r task = Some (r', eff, errs) ->
  TaskName task <> name ->
  deadUnrun name r ->
  deadUnrun name r' /\ untouched name eff.
Proof.
  unfold restoreRunner. intros H Hne [Hdead Hnone].
  bind_inv H. destruct p as [snapshot r1]. bind_inv H.
  destruct (Alloc_isDead name _ _ _ _ E Hdead) as [Hd1 _].
  assert (Htasks : tasks r1 = tasks r)
    by (rewrite (Alloc_runner _ _ _ _ E); reflexivity).
  assert (Hres : deadUnrun name
                   (set_tasks (<[TaskName task :=
                                   {| tr_task := task; tr_alloc := Some snapshot |}]>
                                 (tasks r1)) r1)).
  { split; [exact Hd1|]. simpl.
    rewrite lookup_insert_ne by exact Hne. rewrite Htasks. exact Hnone. }
  destruct (trRestoreState (TaskName task)) as [reason [err|]].
  - injection H as <- <- <-. split; [exact Hres|].
    intros e [<-|[<-|[]]]; simpl; congruence.
  - destruct (negb (TerminalStatus a)).
    + injection H as <- <- <-. split; [exact Hres|].
      intros e [<-|[<-|Hin]]; try (simpl; congruence).
      case_decide; [destruct Hin|].
      destruct Hin as [<-|[<-|[]]]; simpl; congruence.
    + injection H as <- <- <-. split; [exact Hres|].
      intros e [<-|[<-|[]]]; simpl; congruence.
Qed.

Lemma restoreTask_deadUnrun (name : string) (r r' : AllocRunner) (task : Task)
    (eff : list Effect) (errs : list string) :
  restoreTask TerminalStatus trRestoreState now r task = Some (r', eff, errs) ->
  deadUnrun name r ->
  deadUnrun name r' /\ untouched name eff.
Proof.
  unfold restoreTask. intros H Hinv.
  destruct (taskStates r !! TaskName task) as [state|] eqn:Hstate.
  2:{ injection H as <- <- <-. split; [exact Hinv|]. intros e []. }
  bind_inv H.
  set (r1 := set_restored ({[TaskName task]} ∪ restored r) r) in *.
  assert (Hinv2 : deadUnrun name
                    (if decide (TaskName task ∈ TaskDirs a) then r1
                     else set_allocDir (Some (NewTaskDir (TaskName task) a)) r1)).
  { destruct (decide (TaskName task ∈ TaskDirs a)); exact Hinv. }
  destruct (decide (State state = TaskStateDead)) as [Hd|Hnd].
  - injection H as <- <- <-. split; [exact Hinv2|]. intros e [].
  - eapply restoreRunner_deadUnrun; [exact H| |exact Hinv2].
    intros Heq. destruct Hinv as [(st & Hst & Hdead) _].
    rewrite <- Heq in Hst. congruence.
Qed.

Lemma restoreTasks_deadUnrun (name : string) (group : list Task)
    (r r' : AllocRunner) (eff : list Effect) (errs : list string) :
  restoreTasks TerminalStatus trRestoreState now r group = Some (r', eff, errs) ->
  deadUnrun name r ->
  deadUnrun name r' /\ untouched name eff.
Proof.
  revert r r' eff errs.
  induction group as [|task rest IH]; intros r r' eff errs H Hinv; simpl in H.
  - injection H as <- <- <-. split; [exact Hinv|]. intros e [].
  - bind_inv H. destruct p as [[r1 eff1] errs1].
    bind_inv H. destruct p as [[r2 eff2] errs2]. injection H as <- <- <-.
    destruct (restoreTask_deadUnrun name _ _ _ _ _ E Hinv) as [Hinv1 Hu1].
    destruct (IH _ _ _ _ E0 Hinv1) as [Hinv2 Hu2].
    split; [exact Hinv2|]. apply untouched_app; assumption.
Qed.

Lemma viewRecords_mutable (db : StateDB) (rec : Restored) (status desc : string)
    (states : gmap string TaskState) (ds : option AllocDeploymentStatus) :
  viewRecords db = inl rec ->
  bucket db !! allocRunnerStateMutableKey = Some (ObjMutable status desc states ds) ->
  rs_taskStates rec = states.
Proof.
  unfold viewRecords, readRecords. intros H Hm. rewrite Hm in H.
  repeat match type of H with
         | match ?x with _ => _ end = _ => destruct x; try discriminate H
         end.
  injection H as <-. reflexivity.
Qed.

(** C8. After [RestoreState] has run on a persisted state whose mutable
    record holds a task in state dead, the runner has no task runner for
    that task, provided it had none before, as a new runner has; and
    nothing was done to a runner of that task: none restored, started,
    restarted or destroyed.  This holds whether [RestoreState] returns an
    error or not. *)
Theorem RestoreState_skips_dead :
  forall (r r' : AllocRunner) (db : StateDB) (err : option (list string))
         (eff : list Effect) (status desc name : string)
         (states : gmap string TaskState) (ds : option AllocDeploymentStatus)
         (st : TaskState),
    RestoreState TerminalStatus trRestoreState now r db = Some (err, r', eff) ->
    bucket db !! allocRunnerStateMutableKey = Some (ObjMutable status desc states ds) ->
    states !! name = Some st ->
    State st = TaskStateDead ->
    tasks r !! name = None ->
    tasks r' !! name = None /\
    (forall e, In e eff -> effectTask e <> Some name).
Proof.
  intros r r' db err eff status desc name states ds st H Hm Hst Hdead Hnone.
  unfold RestoreState in H.
  destruct (viewRecords db) as [rec|msg] eqn:Hview.
  2:{ injection H as <- <- <-. split; [exact Hnone|]. intros e []. }
  pose proof (viewRecords_mutable _ _ _ _ _ _ Hview Hm) as Hstates.
  bind_inv H. bind_inv H.
  destruct (LookupTaskGroup _ _) as [tg|] in H.
  2:{ injection H as <- <- <-. split; [exact Hnone|]. intros e []. }
  bind_inv H. destruct p as [[r2 eff2] errs]. injection H as <- <- <-.
  eapply restoreTasks_deadUnrun in E1 as [[_ Hres] Hu].
  - split; [exact Hres|exact Hu].
  - split; [|exact Hnone]. exists st. simpl. rewrite Hstates. auto.
Qed.

End RestoreFacts.

(** ** The statements at work on the small allocation *)

(** Twelve events appended to an empty ring leave the last ten. *)
Lemma appendTaskEvent_bounded_ring_witness :
  let st' := foldl appendTaskEvent (set_Events [] zeroTaskState) exampleEvents in
  length (Events st') <= 10 /\
  Events st' = drop (length exampleEvents - 10) exampleEvents /\
  (forall e : TaskEvent,
      length (Events st') = 10 ->
      Events (appendTaskEvent st' e) = drop 1 (Events st') ++ [e]) /\
  (forall e : TaskEvent,
      length (Events st') < 10 ->
      Events (appendTaskEvent st' e) = Events st' ++ [e]).
Proof. exact (appendTaskEvent_bounded_ring zeroTaskState exampleEvents). Defined.

(** The leader "t1" dies failing, and dies without failing: both times
    "t2" and only "t2" is destroyed, as a sibling of a failed task and as
    the follower of a dead leader.  "t2", which does not lead, dies without
    failing: nothing is destroyed. *)
Lemma setTaskState_dead_cascade_witness :
  (exists (r' : AllocRunner) (eff : list Effect) (st' : TaskState),
      setTaskState exampleRunner 100%Z "t1" "dead" (Some exampleFailure) false
      = Some (r', eff) /\
      taskStates r' !! "t1" = Some st' /\
      State st' = TaskStateDead /\
      Failed st' = true /\
      forall n ev, (n, ev) ∈ destroyed eff <->
                   is_Some (tasks exampleRunner !! n) /\ n <> "t1" /\
                   ev = SetFailedSibling (NewTaskEvent 100%Z TaskSiblingFailed) "t1") /\
  (exists (r' : AllocRunner) (eff : list Effect) (st' : TaskState) (tr : TaskRunner),
      setTaskState exampleRunner 100%Z "t1" "dead" None false = Some (r', eff) /\
      taskStates r' !! "t1" = Some st' /\
      State st' = TaskStateDead /\
      Failed st' = false /\
      tasks exampleRunner !! "t1" = Some tr /\
      Leader (tr_task tr) = true /\
      forall n ev, (n, ev) ∈ destroyed eff <->
                   is_Some (tasks exampleRunner !! n) /\ n <> "t1" /\
                   ev = NewTaskEvent 100%Z TaskLeaderDead) /\
  (exists (r' : AllocRunner) (eff : list Effect) (st' : TaskState),
      setTaskState exampleRunner 100%Z "t2" "dead" None false = Some (r', eff) /\
      taskStates r' !! "t2" = Some st' /\
      State st' = TaskStateDead /\
      Failed st' = false /\
      (forall tr, tasks exampleRunner !! "t2" = Some tr -> Leader (tr_task tr) = false) /\
      destroyed eff = []).
Proof.
  split; [|split].
  - do 3 eexists.
    split; [vm_compute; reflexivity|].
    split; [vm_compute; reflexivity|].
    split; [reflexivity|].
    split; [reflexivity|].
    refine (proj1 (proj2 (proj2 (proj2
      (proj2 setTaskState_dead_cascade exampleRunner _ 100%Z "t1" "dead"
         (Some exampleFailure) _ _ _ _ _)))) _).
    + vm_compute. reflexivity.
    + vm_compute. reflexivity.
    + reflexivity.
    + reflexivity.
  - do 4 eexists.
    split; [vm_compute; reflexivity|].
    split; [vm_compute; reflexivity|].
    split; [reflexivity|].
    split; [reflexivity|].
    split; [vm_compute; reflexivity|].
    split; [reflexivity|].
    refine (proj1 (proj2 (proj2 (proj2 (proj2
      (proj2 setTaskState_dead_cascade exampleRunner _ 100%Z "t1" "dead"
         None _ _ _ _ _))))) _ _ _ _).
    + vm_compute. reflexivity.
    + vm_compute. reflexivity.
    + reflexivity.
    + reflexivity.
    + vm_compute. reflexivity.
    + reflexivity.
  - do 3 eexists.
    split; [vm_compute; reflexivity|].
    split; [vm_compute; reflexivity|].
    split; [reflexivity|].
    split; [reflexivity|].
    assert (Hfollows : forall tr, tasks exampleRunner !! "t2" = Some tr ->
                                  Leader (tr_task tr) = false).
    { intros tr Htr. vm_compute in Htr. injection Htr as <-. reflexivity. }
    split; [exact Hfollows|].
    refine (proj1 (proj2 (proj2 (proj2 (proj2 (proj2
      (proj2 setTaskState_dead_cascade exampleRunner _ 100%Z "t2" "dead"
         None _ _ _ _ _)))))) _ Hfollows).
    + vm_compute. reflexivity.
    + vm_compute. reflexivity.
    + reflexivity.
    + reflexivity.
Defined.

(** A first persistence attempt without faults writes the [alloc] record. *)
Lemma saveAllocRunnerState_eval_gating_witness :
  exists (snapshot : Allocation) (r1 : AllocRunner),
    ctxCanceled exampleRunner = false /\
    Alloc exampleRunner 100%Z = Some (snapshot, r1) /\
    exists out r' db',
      saveAllocRunnerState exampleRunner emptyDB noFaults 100%Z = Some (out, r', db') /\
      (In "alloc" (map fst (so_puts out)) -> EvalID snapshot <> persistedEval exampleRunner) /\
      (bucketFails noFaults = false -> putFails noFaults "alloc" = false ->
       EvalID snapshot <> persistedEval exampleRunner ->
       In "alloc" (map fst (so_puts out))) /\
      (so_committed out = true ->
       (In "alloc" (map fst (so_puts out)) <->
        EvalID snapshot <> persistedEval exampleRunner) /\
       persistedEval r' = EvalID snapshot /\
       bucket db' !! "alloc" =
         (if decide (EvalID snapshot <> persistedEval exampleRunner)
          then Some (ObjAlloc (Some snapshot)) else bucket emptyDB !! "alloc")) /\
      (so_committed out = false ->
       persistedEval r' = persistedEval exampleRunner /\ db' = emptyDB).
Proof.
  do 2 eexists.
  split; [reflexivity|].
  split; [vm_compute; reflexivity|].
  eapply (saveAllocRunnerState_eval_gating exampleRunner emptyDB noFaults 100%Z).
  - reflexivity.
  - vm_compute. reflexivity.
Defined.

(** Two persistence attempts without faults: each record is there once. *)
Lemma once_only_records_witness :
  exists w : World,
    immutablePersisted (w_runner exampleWorld) = false /\
    allocDirPersisted (w_runner exampleWorld) = false /\
    committedPuts (w_db exampleWorld) = [] /\
    run [OpSave noFaults 100%Z; OpSave noFaults 200%Z] exampleWorld = Some w /\
    countKey "immutable" (committedPuts (w_db w)) <= 1 /\
    countKey "alloc-dir" (committedPuts (w_db w)) <= 1 /\
    (immutablePersisted (w_runner w) = true <->
     countKey "immutable" (committedPuts (w_db w)) = 1) /\
    (allocDirPersisted (w_runner w) = true <->
     countKey "alloc-dir" (committedPuts (w_db w)) = 1).
Proof.
  eexists.
  split; [reflexivity|]. split; [reflexivity|]. split; [reflexivity|].
  split; [vm_compute; reflexivity|].
  apply (proj1 once_only_records (w_runner exampleWorld) (w_db exampleWorld) []
           [OpSave noFaults 100%Z; OpSave noFaults 200%Z]).
  - reflexivity.
  - reflexivity.
  - reflexivity.
  - vm_compute. reflexivity.
Defined.

(** The small allocation with client status complete is finalised. *)
Lemma finalizeTerminalAlloc_FinishedAt_witness :
  exists group : TaskGroup,
    (100 <> 0)%Z /\
    ClientTerminalStatus (set_ClientStatus "complete" exampleAlloc) = true /\
    AllocJob (set_ClientStatus "complete" exampleAlloc) = Some exampleJob /\
    LookupTaskGroup exampleJob "g1" = Some group /\
    exists a' r',
      finalizeTerminalAlloc exampleRunner 100%Z (set_ClientStatus "complete" exampleAlloc)
      = Some (a', r') /\
      ClientStatus a' = "complete" /\
      (forall task, In task (Tasks group) ->
         exists st,
           TaskStates a' !! TaskName task = Some st /\
           taskStates r' !! TaskName task = Some st /\
           st = stampFinished 100%Z
                  (default zeroTaskState (taskStates exampleRunner !! TaskName task)) /\
           FinishedAt st <> 0%Z) /\
      (forall name, ~ In name (map TaskName (Tasks group)) ->
         TaskStates a' !! name = taskStates exampleRunner !! name /\
         taskStates r' !! name = taskStates exampleRunner !! name).
Proof.
  eexists.
  split; [discriminate|].
  split; [reflexivity|].
  split; [reflexivity|].
  split; [reflexivity|].
  apply (proj1 finalizeTerminalAlloc_FinishedAt exampleRunner 100%Z
           (set_ClientStatus "complete" exampleAlloc) exampleJob).
  - discriminate.
  - reflexivity.
  - reflexivity.
  - reflexivity.
Defined.

(** Two updates pushed into the empty channel wait there in order. *)
Lemma Update_nonblocking_send_witness :
  length (updateCh exampleRunner) <= 64 /\
  pushUpdates [exampleAlloc; set_ClientStatus "running" exampleAlloc] exampleRunner
  = set_updateCh
      (take 64 (updateCh exampleRunner
                ++ [exampleAlloc; set_ClientStatus "running" exampleAlloc]))
      exampleRunner.
Proof.
  split; [simpl; lia|].
  apply (proj1 (proj2 (proj2 Update_nonblocking_send))). simpl. lia.
Defined.

(** After [Destroy], a persistence attempt and a sync change nothing. *)
Lemma saveAllocRunnerState_after_Destroy_witness :
  exists w' : World,
    let w := mkWorld (Destroy exampleRunner) emptyDB [] in
    ctxCanceled (w_runner w) = true /\
    run [OpSave noFaults 100%Z; OpSync (fun _ => true) noFaults 200%Z] w = Some w' /\
    ctxCanceled (w_runner w') = true /\
    committedPuts (w_db w') = committedPuts (w_db w) /\
    (bucket (w_db w') = bucket (w_db w) \/
     In OpDestroyState [OpSave noFaults 100%Z; OpSync (fun _ => true) noFaults 200%Z] /\
     bucket (w_db w') = ∅) /\
    (forall (f : Faults) (now : Time),
        saveAllocRunnerState (w_runner w') (w_db w') f now
        = Some (noSave, w_runner w', w_db w')).
Proof.
  eexists. simpl.
  split; [reflexivity|].
  split; [vm_compute; reflexivity|].
  apply (proj2 saveAllocRunnerState_after_Destroy
           [OpSave noFaults 100%Z; OpSync (fun _ => true) noFaults 200%Z]
           (mkWorld (Destroy exampleRunner) emptyDB [])).
  - reflexivity.
  - vm_compute. reflexivity.
Defined.

(** The dead task "t1" stays dead through a call that omits the state, a
    lazy call that passes running, and a snapshot. *)
Lemma dead_task_stays_dead_witness :
  exists w w' : World,
    run [OpSetTaskState 100%Z "t1" "running" None false;
         OpSetTaskState 200%Z "t1" "dead" None false] exampleWorld = Some w /\
    isDead "t1" (w_runner w) /\
    Forall (keepsDead "t1")
      [OpSetTaskState 300%Z "t1" "" None false;
       OpSetTaskState 350%Z "t1" "running" None true;
       OpAlloc 400%Z] /\
    run [OpSetTaskState 300%Z "t1" "" None false;
         OpSetTaskState 350%Z "t1" "running" None true;
         OpAlloc 400%Z] w = Some w' /\
    isDead "t1" (w_runner w') /\
    forall (now : Time) (snapshot : Allocation) (r' : AllocRunner),
      Alloc (w_runner w') now = Some (snapshot, r') ->
      exists st, TaskStates snapshot !! "t1" = Some st /\ State st = TaskStateDead.
Proof.
  do 2 eexists.
  split; [vm_compute; reflexivity|].
  assert (Hdead : isDead "t1"
            (w_runner
               (default exampleWorld
                  (run [OpSetTaskState 100%Z "t1" "running" None false;
                        OpSetTaskState 200%Z "t1" "dead" None false] exampleWorld)))).
  { eexists. split; vm_compute; reflexivity. }
  assert (Hkeep : Forall (keepsDead "t1")
            [OpSetTaskState 300%Z "t1" "" None false;
             OpSetTaskState 350%Z "t1" "running" None true;
             OpAlloc 400%Z]).
  { apply Forall_cons; split; [simpl; auto|].
    apply Forall_cons; split; [simpl; auto|].
    apply Forall_cons; split; [exact I|]. constructor. }
  split; [exact Hdead|].
  split; [exact Hkeep|].
  split; [vm_compute; reflexivity|].
  apply (proj1 dead_task_stays_dead "t1" _ _ _ Hdead Hkeep).
  vm_compute. reflexivity.
Defined.

(** The state saved with "t1" dead and "t2" running is restored into a new
    runner: it has no runner for "t1". *)
Lemma RestoreState_skips_dead_witness :
  exists (status desc : string) (states : gmap string TaskState)
         (ds : option AllocDeploymentStatus) (st : TaskState)
         (err : option (list string)) (r' : AllocRunner) (eff : list Effect),
    let r := NewAllocRunner exampleConfig "/var/nomad/alloc" exampleAlloc in
    RestoreState (fun _ => false) (fun _ => ("", None)) 500%Z r (w_db exampleSaved)
    = Some (err, r', eff) /\
    bucket (w_db exampleSaved) !! allocRunnerStateMutableKey
    = Some (ObjMutable status desc states ds) /\
    states !! "t1" = Some st /\
    State st = TaskStateDead /\
    tasks r !! "t1" = None /\
    tasks r' !! "t1" = None /\
    (forall e, In e eff -> effectTask e <> Some "t1").
Proof.
  destruct (RestoreState (fun _ => false) (fun _ => ("", None)) 500%Z
              (NewAllocRunner exampleConfig "/var/nomad/alloc" exampleAlloc)
              (w_db exampleSaved)) as [[[err r'] eff]|] eqn:H1;
    [|vm_compute in H1; discriminate H1].
  assert (H2 : exists status desc states ds st,
             bucket (w_db exampleSaved) !! allocRunnerStateMutableKey
             = Some (ObjMutable status desc states ds) /\
             states !! "t1" = Some st /\ State st = TaskStateDead).
  { do 5 eexists. split; [vm_compute; reflexivity|].
    split; [vm_compute; reflexivity|reflexivity]. }
  destruct H2 as (status & desc & states & ds & st & H2 & H3 & H4).
  exists status, desc, states, ds, st, err, r', eff. cbv zeta.
  split; [exact H1|].
  split; [exact H2|].
  split; [exact H3|].
  split; [exact H4|].
  split; [reflexivity|].
  exact (RestoreState_skips_dead (fun _ => false) (fun _ => ("", None)) 500%Z
           _ _ _ _ _ _ _ "t1" _ _ _ H1 H2 H3 H4 eq_refl).
Defined.

(** * More of the runner *)

(** ** Snapshots *)

Lemma Alloc_composed (r : AllocRunner) (now : Time) :
  Alloc r now = a ← alloc r; finalizeTerminalAlloc r now (composed r a).
Proof.
  unfold Alloc, composed, statusIsExplicit.
  destruct (alloc r) as [a|]; [|reflexivity]. simpl.
  destruct (_ || _); reflexivity.
Qed.

Lemma finalizeTerminalAlloc_fields (r r' : AllocRunner) (now : Time)
    (a a' : Allocation) :
  finalizeTerminalAlloc r now a = Some (a', r') ->
  a' = set_TaskStates (TaskStates a') a.
Proof.
  intros H. apply finalizeTerminalAlloc_cases in H
    as [(_ & -> & _)|(_ & j & group & _ & _ & -> & _)].
  - destruct a; reflexivity.
  - reflexivity.
Qed.

(** Two maps of task states with the same states and failure flags, up to
    entries without state, have the same derived status. *)
Lemma getClientStatus_same (ts ts' : gmap string TaskState) :
  (forall n st, ts !! n = Some st ->
     exists st', ts' !! n = Some st' /\ State st' = State st /\ Failed st' = Failed st) ->
  (forall n st', ts' !! n = Some st' ->
     (exists st, ts !! n = Some st /\ State st' = State st /\ Failed st' = Failed st)
     \/ (State st' <> "running" /\ State st' <> "pending" /\ State st' <> "dead")) ->
  getClientStatus ts = getClientStatus ts'.
Proof.
  intros Hto Hfrom.
  assert (Hiff : forall P : string -> bool -> Prop,
             (forall s b, P s b -> s = "running" \/ s = "pending" \/ s = "dead") ->
             (someTask (fun st => P (State st) (Failed st)) ts <->
              someTask (fun st => P (State st) (Failed st)) ts')).
  { intros P Hno. split.
    - intros (n & st & Hst & HP).
      destruct (Hto n st Hst) as (st' & Hst' & Hs & Hf).
      exists n, st'. split; [exact Hst'|]. simpl in *. rewrite Hs, Hf. exact HP.
    - intros (n & st' & Hst' & HP).
      destruct (Hfrom n st' Hst') as [(st & Hst & Hs & Hf)|Hempty].
      + exists n, st. split; [exact Hst|]. simpl in *. rewrite <- Hs, <- Hf. exact HP.
      + simpl in HP. apply Hno in HP. tauto. }
  destruct (scanStates_spec ts) as (Hf & Hr & Hp & Hd).
  destruct (scanStates_spec ts') as (Hf' & Hr' & Hp' & Hd').
  pose proof (Hiff (fun s b => s = "dead" /\ b = true)) as If.
  pose proof (Hiff (fun s b => s = "running")) as Ir.
  pose proof (Hiff (fun s b => s = "pending")) as Ip.
  pose proof (Hiff (fun s b => s = "dead" /\ b = false)) as Id.
  simpl in If, Ir, Ip, Id.
  assert (Ef : f_failed (scanStates ts) = f_failed (scanStates ts')).
  { apply eq_true_iff_eq. rewrite Hf, Hf'. apply If. tauto. }
  assert (Er : f_running (scanStates ts) = f_running (scanStates ts')).
  { apply eq_true_iff_eq. rewrite Hr, Hr'. apply Ir. tauto. }
  assert (Ep : f_pending (scanStates ts) = f_pending (scanStates ts')).
  { apply eq_true_iff_eq. rewrite Hp, Hp'. apply Ip. tauto. }
  assert (Ed : f_dead (scanStates ts) = f_dead (scanStates ts')).
  { apply eq_true_iff_eq. rewrite Hd, Hd'. apply Id. tauto. }
  unfold getClientStatus. rewrite Ef, Er, Ep, Ed. reflexivity.
Qed.

Lemma getClientStatus_finalized (now : Time) (group : list Task)
    (ts : gmap string TaskState) :
  getClientStatus (foldl (finalizeTask now) ts group) = getClientStatus ts.
Proof.
  symmetry. apply getClientStatus_same.
  - intros n st Hst. rewrite finalizeTasks_lookup, Hst.
    destruct (decide (n ∈ map TaskName group)).
    + eexists. split; [reflexivity|]. simpl. apply stampFinished_State.
    + eauto.
  - intros n st'. rewrite finalizeTasks_lookup.
    destruct (decide (n ∈ map TaskName group)); [|eauto].
    intros [= <-]. destruct (ts !! n) as [st|] eqn:Hst; simpl.
    + left. exists st. split; [reflexivity|]. apply stampFinished_State.
    + right. unfold stampFinished. simpl. repeat split; discriminate.
Qed.

Lemma stampFinished_set (now now' : Time) (ts : TaskState) :
  now <> 0%Z -> stampFinished now' (stampFinished now ts) = stampFinished now ts.
Proof.
  intros Hnow. unfold stampFinished at 1.
  pose proof (stampFinished_nonzero now ts Hnow) as Hnz.
  unfold IsZero. destruct (Z.eqb_spec (FinishedAt (stampFinished now ts)) 0);
    [contradiction|reflexivity].
Qed.

Lemma finalizeTasks_again (now now' : Time) (group : list Task)
    (ts : gmap string TaskState) :
  now <> 0%Z ->
  foldl (finalizeTask now') (foldl (finalizeTask now) ts group) group
  = foldl (finalizeTask now) ts group.
Proof.
  intros Hnow. apply map_eq. intros n.
  rewrite !finalizeTasks_lookup.
  destruct (decide (n ∈ map TaskName group)); [|reflexivity].
  simpl. rewrite stampFinished_set by exact Hnow. reflexivity.
Qed.

Lemma composed_fields (r : AllocRunner) (a : Allocation) :
  AllocJob (composed r a) = AllocJob a /\
  AllocTaskGroup (composed r a) = AllocTaskGroup a /\
  ID (composed r a) = ID a /\
  EvalID (composed r a) = EvalID a /\
  TaskStates (composed r a) = taskStates r.
Proof.
  unfold composed, markUnhealthy, overlayHealth.
  destruct (statusIsExplicit r); simpl; rewrite ?copyTaskStates_id.
  - auto.
  - destruct (_ && _); destruct (allocHealth r); simpl;
      rewrite ?copyTaskStates_id; auto.
Qed.

(** The composition reads the task states only for the derived status and
    to copy them. *)
Lemma composed_taskStates (r : AllocRunner) (a : Allocation)
    (ts : gmap string TaskState) :
  getClientStatus ts = getClientStatus (taskStates r) ->
  composed (set_taskStates ts r) a = set_TaskStates ts (composed r a).
Proof.
  intros Hst. unfold composed, statusIsExplicit, markUnhealthy, overlayHealth.
  simpl. rewrite Hst, !copyTaskStates_id.
  destruct (_ || _); [reflexivity|].
  destruct (allocHealth r); simpl; destruct (_ && _); reflexivity.
Qed.

(** X1. A snapshot carries the explicit status and description of the
    runner as soon as one of them is not empty, even when the other is
    empty; otherwise it carries the status derived from the task states and
    the description of the allocation.  The identity of the allocation, its
    evaluation and its job are those of the runner's allocation. *)
Theorem Alloc_explicit_or_derived :
  forall (r r' : AllocRunner) (now : Time) (snapshot : Allocation),
    Alloc r now = Some (snapshot, r') ->
    exists a,
      alloc r = Some a /\
      ID snapshot = ID a /\ EvalID snapshot = EvalID a /\
      AllocJob snapshot = AllocJob a /\
      (allocClientStatus r <> "" \/ allocClientDescription r <> "" ->
       ClientStatus snapshot = allocClientStatus r /\
       ClientDescription snapshot = allocClientDescription r) /\
      (allocClientStatus r = "" -> allocClientDescription r = "" ->
       ClientStatus snapshot = getClientStatus (taskStates r) /\
       ClientDescription snapshot = ClientDescription a).
Proof.
  intros r r' now snapshot H. rewrite Alloc_composed in H.
  destruct (alloc r) as [a|]; [|discriminate]. simpl in H.
  exists a. split; [reflexivity|].
  apply finalizeTerminalAlloc_fields in H. rewrite H. simpl.
  destruct (composed_fields r a) as (_ & _ & -> & -> & _).
  split; [reflexivity|]. split; [reflexivity|].
  unfold composed, statusIsExplicit, markUnhealthy, overlayHealth.
  split; [|split].
  - destruct (_ || _); simpl; [reflexivity|].
    destruct (_ && _); destruct (allocHealth r); reflexivity.
  - intros Hex.
    assert (Hb : negb (bool_decide (allocClientStatus r = ""))
                 || negb (bool_decide (allocClientDescription r = "")) = true).
    { destruct Hex as [Hne|Hne].
      - rewrite (bool_decide_eq_false_2 _ Hne). reflexivity.
      - rewrite (bool_decide_eq_false_2 _ Hne). apply orb_true_r. }
    rewrite Hb. simpl. auto.
  - intros -> ->. simpl.
    destruct (_ && _); destruct (allocHealth r); simpl; auto.
Qed.

Lemma Alloc_again :
  forall (r r1 : AllocRunner) (now now' : Time) (snapshot : Allocation),
    now <> 0%Z ->
    Alloc r now = Some (snapshot, r1) ->
    Alloc r1 now' = Some (snapshot, r1).
Proof.
  intros r r1 now now' snapshot Hnow H.
  rewrite Alloc_composed in H |- *.
  destruct (alloc r) as [a|] eqn:Ha; [|discriminate]. simpl in H.
  destruct (composed_fields r a) as (Hj & Hg & _ & _ & Hts).
  apply finalizeTerminalAlloc_cases in H
    as [(Hnt & -> & ->)|(Ht & j & group & Hj' & Hg' & -> & ->)].
  - rewrite Ha. simpl. unfold finalizeTerminalAlloc. rewrite Hnt. reflexivity.
  - simpl. rewrite Ha. simpl.
    rewrite composed_taskStates by apply getClientStatus_finalized.
    unfold finalizeTerminalAlloc.
    assert (Hterm : ClientTerminalStatus
                      (set_TaskStates
                         (foldl (finalizeTask now) (taskStates r) (Tasks group))
                         (composed r a)) = true) by exact Ht.
    rewrite Hterm. simpl. rewrite Hj'. simpl. rewrite Hg'. simpl.
    rewrite finalizeTasks_again by exact Hnow.
    rewrite copyTaskStates_id. reflexivity.
Qed.

(** X2. Snapshots are stable: once a snapshot has been composed with a
    clock that is not zero, composing again, at any later time, returns the
    same snapshot and leaves the runner as the first composition left it. *)
Theorem Alloc_stable :
  forall (r r1 : AllocRunner) (now now' : Time) (snapshot : Allocation),
    now <> 0%Z ->
    Alloc r now = Some (snapshot, r1) ->
    Alloc r1 now' = Some (snapshot, r1).
Proof. exact Alloc_again. Qed.

Lemma Alloc_deployment_cases :
  forall (r r' : AllocRunner) (now : Time) (snapshot a : Allocation),
    Alloc r now = Some (snapshot, r') ->
    alloc r = Some a ->
    (statusIsExplicit r = true ->
     DeploymentStatus snapshot = DeploymentStatus a) /\
    (statusIsExplicit r = false ->
     (ClientStatus snapshot = AllocClientStatusFailed ->
      DeploymentID a <> "" ->
      IsUnhealthy (DeploymentStatus snapshot) = true) /\
     (forall h,
        allocHealth r = Some h ->
        ClientStatus snapshot <> AllocClientStatusFailed \/ DeploymentID a = "" ->
        DeploymentStatus snapshot
        = Some {| Healthy := Some h; Timestamp := allocHealthTime r |}) /\
     (allocHealth r = None ->
      ClientStatus snapshot <> AllocClientStatusFailed \/ DeploymentID a = "" ->
      DeploymentStatus snapshot = DeploymentStatus a)).
Proof.
  intros r r' now snapshot a H Ha. rewrite Alloc_composed, Ha in H. simpl in H.
  apply finalizeTerminalAlloc_fields in H. rewrite H. simpl.
  unfold composed. split.
  - intros ->. reflexivity.
  - intros ->.
    set (b := set_ClientStatus (getClientStatus (taskStates r))
                (set_TaskStates (copyTaskStates (taskStates r)) (overlayHealth r a))).
    assert (Hid : DeploymentID b = DeploymentID a)
      by (unfold b, overlayHealth; destruct (allocHealth r); reflexivity).
    assert (Hds : DeploymentStatus b
                  = match allocHealth r with
                    | Some h => Some {| Healthy := Some h;
                                        Timestamp := allocHealthTime r |}
                    | None => DeploymentStatus a
                    end)
      by (unfold b, overlayHealth; destruct (allocHealth r); reflexivity).
    clearbody b.
    rewrite (proj2 (markUnhealthy_TaskStates b)).
    unfold markUnhealthy. rewrite Hid.
    destruct (decide (ClientStatus b = AllocClientStatusFailed)) as [Hf|Hf];
      destruct (decide (DeploymentID a = "")) as [Hd|Hd].
    + rewrite (bool_decide_eq_true_2 _ Hd), andb_false_r. simpl.
      repeat split; intros; try tauto; rewrite Hds; destruct (allocHealth r);
        congruence.
    + rewrite (bool_decide_eq_true_2 _ Hf), (bool_decide_eq_false_2 _ Hd). simpl.
      destruct (IsUnhealthy (DeploymentStatus b)) eqn:Hu; simpl;
        repeat split; intros; try tauto; try reflexivity;
        match goal with H : _ \/ _ |- _ => destruct H; congruence end.
    + rewrite (bool_decide_eq_false_2 _ Hf). simpl.
      repeat split; intros; try tauto; rewrite Hds; destruct (allocHealth r);
        congruence.
    + rewrite (bool_decide_eq_false_2 _ Hf). simpl.
      repeat split; intros; try tauto; rewrite Hds; destruct (allocHealth r);
        congruence.
Qed.

(** X3. A snapshot whose status is derived from the task states never
    shows a failed allocation of a deployment as anything but unhealthy,
    and otherwise shows the health the watcher set, if it set one; a
    snapshot with an explicit status leaves the deployment status of the
    allocation alone, failed or not. *)
Theorem Alloc_deployment_health :
  forall (r r' : AllocRunner) (now : Time) (snapshot a : Allocation),
    Alloc r now = Some (snapshot, r') ->
    alloc r = Some a ->
    (statusIsExplicit r = true ->
     DeploymentStatus snapshot = DeploymentStatus a) /\
    (statusIsExplicit r = false ->
     (ClientStatus snapshot = AllocClientStatusFailed ->
      DeploymentID a <> "" ->
      IsUnhealthy (DeploymentStatus snapshot) = true) /\
     (forall h,
        allocHealth r = Some h ->
        ClientStatus snapshot <> AllocClientStatusFailed \/ DeploymentID a = "" ->
        DeploymentStatus snapshot
        = Some {| Healthy := Some h; Timestamp := allocHealthTime r |}) /\
     (allocHealth r = None ->
      ClientStatus snapshot <> AllocClientStatusFailed \/ DeploymentID a = "" ->
      DeploymentStatus snapshot = DeploymentStatus a)).
Proof. exact Alloc_deployment_cases. Qed.

(** X4. When the status of the snapshot is terminal and the task group of
    the allocation is not found in its job, composing the snapshot
    dereferences nil: once the runner has set the status failed for a
    missing task group, no snapshot can be composed, and so no status sync
    and no persistence attempt with a live context returns. *)
Theorem Alloc_missing_group :
  forall (r : AllocRunner) (db : StateDB) (sendOk : nat -> bool) (f : Faults)
         (now : Time) (a : Allocation) (j : Job) (desc : string),
    alloc r = Some a ->
    AllocJob a = Some j ->
    LookupTaskGroup j (AllocTaskGroup a) = None ->
    ctxCanceled r = false ->
    let r' := setStatus AllocClientStatusFailed desc r in
    Alloc r' now = None /\
    syncStatus r' db sendOk f now = None /\
    saveAllocRunnerState r' db f now = None.
Proof.
  intros r db sendOk f now a j desc Ha Hj Hg Hctx r'.
  assert (HA : Alloc r' now = None).
  { rewrite Alloc_composed. subst r'. simpl. rewrite Ha. simpl.
    unfold finalizeTerminalAlloc, composed, statusIsExplicit. simpl.
    rewrite Hj. simpl. rewrite Hg. reflexivity. }
  split; [exact HA|]. split.
  - unfold syncStatus. rewrite HA. reflexivity.
  - unfold saveAllocRunnerState. subst r'. simpl. rewrite Hctx.
    fold (setStatus AllocClientStatusFailed desc r). rewrite HA. reflexivity.
Qed.

(** C7. On an allocation whose task group is not in its job, a terminal
    snapshot gets no entries.  [Run] on the allocation "a2" of the group
    "g9", which the job "web" does not have, finds no group, sets the
    explicit status failed and returns; the snapshot composed from then on
    has the terminal status failed, and [finalizeTerminalAlloc] ranges over
    the tasks of the group it did not find: it dereferences nil, and so
    does [Alloc].  [Run] and [RestoreState] test the group they look up
    against nil; [finalizeTerminalAlloc] does not. *)
Theorem finalizeTerminalAlloc_missing_group :
  let r := NewAllocRunner exampleConfig "/var/nomad/alloc" exampleNoGroup in
  exists (r' : AllocRunner) (evs : list RunEvent),
    runStart (fun _ => false) (fun _ => false) exampleEnv (Some "n1") 100%Z r
    = Some (RunExited, r', evs) /\
    alloc r' = Some exampleNoGroup /\
    allocClientStatus r' = AllocClientStatusFailed /\
    ClientTerminalStatus (composed r' exampleNoGroup) = true /\
    AllocJob (composed r' exampleNoGroup) = Some exampleJob /\
    LookupTaskGroup exampleJob (AllocTaskGroup (composed r' exampleNoGroup)) = None /\
    finalizeTerminalAlloc r' 200%Z (composed r' exampleNoGroup) = None /\
    Alloc r' 200%Z = None.
Proof.
  cbv zeta. do 2 eexists.
  split; [vm_compute; reflexivity|].
  split; [vm_compute; reflexivity|].
  split; [vm_compute; reflexivity|].
  split; [vm_compute; reflexivity|].
  split; [vm_compute; reflexivity|].
  split; [vm_compute; reflexivity|].
  split; vm_compute; reflexivity.
Qed.

(** ** Task states under the operations *)

Lemma recordEvent_recorded (r : AllocRunner) (taskName : string) (ts ts' : TaskState)
    (ev : TaskEvent) (eff : list Effect) :
  recordEvent r taskName ts ev = Some (ts', eff) -> ts' = recorded (Some ev) ts.
Proof.
  unfold recordEvent, recorded. intros H.
  destruct (decide (Type_ ev = TaskRestarting)).
  - bind_inv H. injection H as <- _. reflexivity.
  - injection H as <- _. reflexivity.
Qed.

(** [setTaskState] replaces the state of its task by [nextTaskState] and
    marks the runner dirty unless the call is lazy. *)
Lemma setTaskState_next (r r' : AllocRunner) (now : Time) (taskName state : string)
    (event : option TaskEvent) (lazySync : bool) (eff : list Effect) :
  setTaskState r now taskName state event lazySync = Some (r', eff) ->
  taskStates r' =
    <[taskName := nextTaskState now state event lazySync
                    (default zeroTaskState (taskStates r !! taskName))]>
      (taskStates r) /\
  dirtyCh r' = (if lazySync then dirtyCh r else true).
Proof.
  unfold setTaskState, nextTaskState. intros H.
  bind_inv H. destruct p as [s1 eff1].
  assert (Hs1 : s1 = recorded event
                       (default zeroTaskState (taskStates r !! taskName))).
  { destruct event as [ev|].
    - eapply recordEvent_recorded. exact E.
    - injection E as <- _. reflexivity. }
  destruct lazySync.
  - injection H as <- _. simpl. rewrite Hs1. auto.
  - bind_inv H. destruct p as [s2 eff2]. injection H as <- _. simpl.
    rewrite <- Hs1. split; [|reflexivity]. f_equal. f_equal.
    unfold switched.
    destruct (decide (effectiveState state s1 = TaskStateRunning)).
    + unfold enterRunning in E0.
      destruct (decide (State s1 = TaskStateRunning)).
      * injection E0 as <- _. reflexivity.
      * bind_inv E0. injection E0 as <- _. reflexivity.
    + destruct (decide (effectiveState state s1 = TaskStateDead)).
      * unfold enterDead in E0. bind_inv E0. injection E0 as <- _. reflexivity.
      * injection E0 as <- _. reflexivity.
Qed.

Lemma appendTaskEvent_bounded (ts : TaskState) (ev : TaskEvent) :
  length (Events ts) <= capacity ->
  length (Events (appendTaskEvent ts ev)) <= capacity.
Proof.
  intros Hlen. rewrite appendTaskEvent_Events.
  destruct (decide (length (Events ts) = capacity)) as [Heq|Hne];
    rewrite length_app; simpl.
  - rewrite length_drop. unfold capacity in *. lia.
  - unfold capacity in *. lia.
Qed.

Lemma taskKeeps_refl (st : TaskState) : taskKeeps st st.
Proof. repeat split; auto. Qed.

Lemma taskKeeps_trans (st1 st2 st3 : TaskState) :
  taskKeeps st1 st2 -> taskKeeps st2 st3 -> taskKeeps st1 st3.
Proof.
  intros (Hf1 & Hx1 & He1) (Hf2 & Hx2 & He2). repeat split.
  - intros Hnz. rewrite Hf2; [auto|]. rewrite Hf1; assumption.
  - auto.
  - auto.
Qed.

Lemma stampFinished_keeps (now : Time) (st : TaskState) :
  taskKeeps st (stampFinished now st).
Proof.
  unfold stampFinished, IsZero.
  destruct (Z.eqb_spec (FinishedAt st) 0); repeat split; simpl; auto.
  intros Hnz. contradiction.
Qed.

Lemma recorded_keeps (event : option TaskEvent) (st : TaskState) :
  taskKeeps st (recorded event st).
Proof.
  destruct event as [ev|]; [|apply taskKeeps_refl]. unfold recorded.
  repeat split.
  - intros _. destruct (FailsTask ev), (decide (Type_ ev = TaskRestarting));
      reflexivity.
  - intros Hf. destruct (FailsTask ev), (decide (Type_ ev = TaskRestarting));
      simpl; auto.
  - intros Hlen. apply appendTaskEvent_bounded.
    destruct (FailsTask ev), (decide (Type_ ev = TaskRestarting)); exact Hlen.
Qed.

Lemma nextTaskState_keeps (now : Time) (state : string) (event : option TaskEvent)
    (lazySync : bool) (st : TaskState) :
  taskKeeps st (nextTaskState now state event lazySync st).
Proof.
  unfold nextTaskState.
  eapply taskKeeps_trans; [apply recorded_keeps|].
  destruct lazySync; [apply taskKeeps_refl|].
  set (s1 := recorded event st). unfold switched.
  destruct (decide (effectiveState state s1 = TaskStateRunning)).
  - destruct (decide (State s1 = TaskStateRunning)); repeat split; auto.
  - destruct (decide (effectiveState state s1 = TaskStateDead)).
    + destruct (stampFinished_keeps now s1) as (Hf & Hx & He).
      repeat split; simpl; auto.
    + repeat split; auto.
Qed.

(** The states found before an operation are kept by it, in the sense of
    [taskKeeps], and the states it adds hold at most one event. *)
Lemma setTaskState_keeps (r r' : AllocRunner) (now : Time) (taskName state : string)
    (event : option TaskEvent) (lazySync : bool) (eff : list Effect) :
  setTaskState r now taskName state event lazySync = Some (r', eff) ->
  (forall t st, taskStates r !! t = Some st ->
     exists st', taskStates r' !! t = Some st' /\ taskKeeps st st') /\
  (eventsBounded r -> eventsBounded r').
Proof.
  intros H. apply setTaskState_next in H as [Hts _]. split.
  - intros t st Hst. rewrite Hts.
    destruct (decide (taskName = t)) as [->|Hne].
    + rewrite lookup_insert_eq, Hst. eexists. split; [reflexivity|].
      apply nextTaskState_keeps.
    + rewrite lookup_insert_ne by exact Hne. exists st.
      split; [exact Hst|apply taskKeeps_refl].
  - intros Hb t st'. rewrite Hts.
    destruct (decide (taskName = t)) as [->|Hne].
    + rewrite lookup_insert_eq. intros [= <-].
      apply nextTaskState_keeps.
      destruct (taskStates r !! t) as [st|] eqn:Hst; simpl.
      * eapply Hb. exact Hst.
      * unfold capacity. lia.
    + rewrite lookup_insert_ne by exact Hne. apply Hb.
Qed.

Lemma Alloc_keeps (r r' : AllocRunner) (now : Time) (snapshot : Allocation) :
  Alloc r now = Some (snapshot, r') ->
  (forall t st, taskStates r !! t = Some st ->
     exists st', taskStates r' !! t = Some st' /\ taskKeeps st st') /\
  (eventsBounded r -> eventsBounded r').
Proof.
  intros H. destruct (Alloc_taskStates _ _ _ _ H) as [_ Hn]. split.
  - intros t st Hst. destruct (Hn t) as [Ht|Ht]; rewrite Ht, Hst.
    + exists st. split; [reflexivity|apply taskKeeps_refl].
    + eexists. split; [reflexivity|]. apply stampFinished_keeps.
  - intros Hb t st' Hst'. destruct (Hn t) as [Ht|Ht]; rewrite Ht in Hst'.
    + eapply Hb. exact Hst'.
    + injection Hst' as <-.
      apply (stampFinished_keeps now).
      destruct (taskStates r !! t) as [st|] eqn:Hst; simpl.
      * eapply Hb. exact Hst.
      * unfold capacity. lia.
Qed.

Lemma saveAllocRunnerState_taskStates (r r' : AllocRunner) (db db' : StateDB)
    (f : Faults) (now : Time) (out : SaveOutcome) :
  saveAllocRunnerState r db f now = Some (out, r', db') ->
  taskStates r' = taskStates r \/
  exists snapshot r1, Alloc r now = Some (snapshot, r1) /\
                      taskStates r' = taskStates r1.
Proof.
  intros H. apply saveAllocRunnerState_cases in H
    as [(_ & _ & -> & _)|(_ & snapshot & r1 & HA & _ & Hcases)]; [auto|].
  right. exists snapshot, r1. split; [exact HA|].
  destruct Hcases as [(_ & -> & _)|(_ & _ & -> & _)]; [reflexivity|].
  pose proof (savePlan_commit r1 db snapshot (allocClientStatus r1)
                (allocClientDescription r1) (allocDir r1)) as (_ & _ & _ & Hr & _).
  simpl in Hr. rewrite Hr. reflexivity.
Qed.

Lemma saveAllocRunnerState_keeps (r r' : AllocRunner) (db db' : StateDB)
    (f : Faults) (now : Time) (out : SaveOutcome) :
  saveAllocRunnerState r db f now = Some (out, r', db') ->
  (forall t st, taskStates r !! t = Some st ->
     exists st', taskStates r' !! t = Some st' /\ taskKeeps st st') /\
  (eventsBounded r -> eventsBounded r').
Proof.
  intros H. apply saveAllocRunnerState_taskStates in H
    as [Heq|(snapshot & r1 & HA & Heq)].
  - unfold eventsBounded. rewrite Heq. split; [|auto].
    intros t st Hst. exists st. split; [exact Hst|apply taskKeeps_refl].
  - destruct (Alloc_keeps _ _ _ _ HA) as [Hk Hb].
    unfold eventsBounded in *. rewrite Heq. auto.
Qed.

Lemma step_keeps (op : Op) (w w' : World) :
  step op w = Some w' ->
  (forall t st, taskStates (w_runner w) !! t = Some st ->
     exists st', taskStates (w_runner w') !! t = Some st' /\ taskKeeps st st') /\
  (eventsBounded (w_runner w) -> eventsBounded (w_runner w')).
Proof.
  assert (Hsame : forall r r' : AllocRunner,
             taskStates r' = taskStates r ->
             (forall t st, taskStates r !! t = Some st ->
                exists st', taskStates r' !! t = Some st' /\ taskKeeps st st') /\
             (eventsBounded r -> eventsBounded r')).
  { intros r r' Heq. unfold eventsBounded. rewrite Heq. split; [|auto].
    intros t st Hst. exists st. split; [exact Hst|apply taskKeeps_refl]. }
  destruct w as [r db tr]. unfold step. simpl.
  destruct op; intros H.
  - bind_inv H. destruct p as [r' eff]. injection H as <-. simpl.
    eapply setTaskState_keeps. exact E.
  - injection H as <-. apply Hsame. reflexivity.
  - bind_inv H. destruct p as [snapshot r']. injection H as <-. simpl.
    eapply Alloc_keeps. exact E.
  - unfold Update in H. case_decide; injection H as <-; apply Hsame; reflexivity.
  - bind_inv H. injection H as <-. simpl. apply Hsame. unfold recvUpdate in E.
    destruct (updateCh r); [injection E as <-; reflexivity|].
    bind_inv E. injection E as <-. case_decide; reflexivity.
  - bind_inv H. destruct p as [[out r'] db']. injection H as <-. simpl.
    eapply saveAllocRunnerState_keeps. exact E.
  - bind_inv H. destruct p as [[[out r'] db'] eff]. injection H as <-. simpl.
    apply syncStatus_save in E as (snapshot & r1 & HA & Hsave).
    destruct (Alloc_keeps _ _ _ _ HA) as [Hk1 Hb1].
    destruct (saveAllocRunnerState_keeps _ _ _ _ _ _ _ Hsave) as [Hk2 Hb2].
    split; [|auto].
    intros t st Hst. destruct (Hk1 t st Hst) as (st1 & Hst1 & K1).
    destruct (Hk2 t st1 Hst1) as (st2 & Hst2 & K2).
    exists st2. split; [exact Hst2|]. eapply taskKeeps_trans; eassumption.
  - injection H as <-. apply Hsame. reflexivity.
  - injection H as <-. apply Hsame. reflexivity.
Qed.

Lemma run_keeps (ops : list Op) (w w' : World) :
  run ops w = Some w' ->
  (forall t st, taskStates (w_runner w) !! t = Some st ->
     exists st', taskStates (w_runner w') !! t = Some st' /\ taskKeeps st st') /\
  (eventsBounded (w_runner w) -> eventsBounded (w_runner w')).
Proof.
  revert w. induction ops as [|op ops IH]; intros w H; simpl in H.
  - injection H as <-. split; [|auto].
    intros t st Hst. exists st. split; [exact Hst|apply taskKeeps_refl].
  - bind_inv H. destruct (step_keeps op w w0 E) as [Hk1 Hb1].
    destruct (IH w0 H) as [Hk2 Hb2]. split; [|auto].
    intros t st Hst. destruct (Hk1 t st Hst) as (st1 & Hst1 & K1).
    destruct (Hk2 t st1 Hst1) as (st2 & Hst2 & K2).
    exists st2. split; [exact Hst2|]. eapply taskKeeps_trans; eassumption.
Qed.

(** X5. [FinishedAt] is set once: a task whose finish time is not zero
    keeps that finish time, and a task whose failure flag is set keeps it
    set, through every operation of the runner, whatever state later calls
    of [setTaskState] pass. *)
Theorem FinishedAt_and_Failed_kept :
  forall (t : string) (ops : list Op) (w w' : World) (st : TaskState),
    taskStates (w_runner w) !! t = Some st ->
    run ops w = Some w' ->
    exists st',
      taskStates (w_runner w') !! t = Some st' /\
      (FinishedAt st <> 0%Z -> FinishedAt st' = FinishedAt st) /\
      (Failed st = true -> Failed st' = true).
Proof.
  intros t ops w w' st Hst Hrun.
  destruct (run_keeps ops w w' Hrun) as [Hk _].
  destruct (Hk t st Hst) as (st' & Hst' & Hf & Hx & _).
  exists st'. auto.
Qed.

(** X6. The event lists stay bounded: when no task state of the runner
    holds more than 10 events, none does after any sequence of operations,
    and a runner built by [NewAllocRunner] from an allocation whose task
    states hold at most 10 events each starts that way. *)
Theorem events_stay_bounded :
  (forall (ops : list Op) (w w' : World),
      eventsBounded (w_runner w) ->
      run ops w = Some w' ->
      eventsBounded (w_runner w')) /\
  (forall (cfg : Config) (root : string) (a : Allocation),
      (forall t st, TaskStates a !! t = Some st -> length (Events st) <= 10) ->
      eventsBounded (NewAllocRunner cfg root a)).
Proof.
  split.
  - intros ops w w' Hb Hrun. destruct (run_keeps ops w w' Hrun) as [_ H]. auto.
  - intros cfg root a Hb t st. simpl. rewrite copyTaskStates_id. apply Hb.
Qed.

Lemma restartsOf_Alloc (t : string) (r r' : AllocRunner) (now : Time)
    (snapshot : Allocation) :
  Alloc r now = Some (snapshot, r') -> restartsOf t r' = restartsOf t r.
Proof.
  intros H. destruct (Alloc_taskStates _ _ _ _ H) as [_ Hn].
  unfold restartsOf. destruct (Hn t) as [-> | ->]; [reflexivity|]. simpl.
  unfold stampFinished. destruct (IsZero _); reflexivity.
Qed.

Lemma restartsOf_save (t : string) (r r' : AllocRunner) (db db' : StateDB)
    (f : Faults) (now : Time) (out : SaveOutcome) :
  saveAllocRunnerState r db f now = Some (out, r', db') ->
  restartsOf t r' = restartsOf t r.
Proof.
  intros H. apply saveAllocRunnerState_taskStates in H
    as [Heq|(snapshot & r1 & HA & Heq)]; unfold restartsOf; rewrite Heq.
  - reflexivity.
  - apply (restartsOf_Alloc t _ _ _ _ HA).
Qed.

Lemma nextTaskState_Restarts (now : Time) (state : string) (event : option TaskEvent)
    (lazySync : bool) (old : TaskState) :
  Restarts (nextTaskState now state event lazySync old)
  = match event with
    | Some ev =>
        if decide (Type_ ev = TaskRestarting)
        then ((Restarts old + 1) mod uint64_max)%Z else Restarts old
    | None => Restarts old
    end.
Proof.
  assert (Hrec : Restarts (recorded event old)
                 = match event with
                   | Some ev =>
                       if decide (Type_ ev = TaskRestarting)
                       then ((Restarts old + 1) mod uint64_max)%Z else Restarts old
                   | None => Restarts old
                   end).
  { destruct event as [ev|]; [|reflexivity]. unfold recorded.
    destruct (FailsTask ev), (decide (Type_ ev = TaskRestarting)); reflexivity. }
  unfold nextTaskState. destruct lazySync; [exact Hrec|].
  rewrite <- Hrec. unfold switched, stampFinished.
  repeat (case_decide; simpl; try reflexivity).
  destruct (IsZero _); reflexivity.
Qed.

Lemma step_restarts (t : string) (op : Op) (w w' : World) :
  step op w = Some w' ->
  restartsOf t (w_runner w')
  = if isRestart t op
    then ((restartsOf t (w_runner w) + 1) mod uint64_max)%Z
    else restartsOf t (w_runner w).
Proof.
  destruct w as [r db tr]. unfold step. simpl.
  destruct op; intros H; simpl.
  - bind_inv H. destruct p as [r' eff]. injection H as <-. simpl.
    apply setTaskState_next in E as [Hts _]. unfold restartsOf. rewrite Hts.
    destruct (decide (taskName = t)) as [->|Hne].
    + rewrite lookup_insert_eq. simpl. rewrite nextTaskState_Restarts.
      destruct event as [ev|]; [|reflexivity].
      rewrite bool_decide_eq_true_2 by reflexivity. simpl.
      destruct (decide (Type_ ev = TaskRestarting)) as [He|He].
      * rewrite bool_decide_eq_true_2 by exact He. reflexivity.
      * rewrite bool_decide_eq_false_2 by exact He. reflexivity.
    + rewrite lookup_insert_ne by exact Hne.
      destruct event as [ev|]; [|reflexivity].
      rewrite bool_decide_eq_false_2 by exact Hne. reflexivity.
  - injection H as <-. reflexivity.
  - bind_inv H. destruct p as [snapshot r']. injection H as <-. simpl.
    eapply restartsOf_Alloc. exact E.
  - unfold Update in H. case_decide; injection H as <-; reflexivity.
  - bind_inv H. injection H as <-. simpl. unfold recvUpdate in E.
    destruct (updateCh r); [injection E as <-; reflexivity|].
    bind_inv E. injection E as <-. case_decide; reflexivity.
  - bind_inv H. destruct p as [[out r'] db']. injection H as <-. simpl.
    eapply restartsOf_save. exact E.
  - bind_inv H. destruct p as [[[out r'] db'] eff]. injection H as <-. simpl.
    apply syncStatus_save in E as (snapshot & r1 & HA & Hsave).
    rewrite (restartsOf_save t _ _ _ _ _ _ _ Hsave).
    eapply restartsOf_Alloc. exact HA.
  - injection H as <-. reflexivity.
  - injection H as <-. reflexivity.
Qed.

(** X7. The restart counter of a task counts the restarting events
    reported for it: after any sequence of operations it is the counter
    before plus the number of [setTaskState] calls for that task, lazy or
    not, that carried an event of type restarting, modulo 2^64; no other
    operation and no other event moves it. *)
Theorem Restarts_counts_restarting_events :
  forall (t : string) (ops : list Op) (w w' : World),
    (0 <= restartsOf t (w_runner w) < 2 ^ 64)%Z ->
    run ops w = Some w' ->
    restartsOf t (w_runner w')
    = ((restartsOf t (w_runner w) + restartEvents t ops) mod 2 ^ 64)%Z.
Proof.
  intros t ops. induction ops as [|op ops IH]; intros w w' Hrange Hrun;
    simpl in Hrun.
  - injection Hrun as <-. unfold restartEvents. simpl.
    rewrite Z.add_0_r, Z.mod_small by exact Hrange. reflexivity.
  - bind_inv Hrun. pose proof (step_restarts t op w w0 E) as Hstep.
    unfold uint64_max in Hstep.
    assert (Hrange0 : (0 <= restartsOf t (w_runner w0) < 2 ^ 64)%Z).
    { rewrite Hstep. destruct (isRestart t op); [|exact Hrange].
      apply Z.mod_pos_bound. lia. }
    rewrite (IH w0 w' Hrange0 Hrun), Hstep.
    unfold restartEvents. rewrite filter_cons.
    destruct (isRestart t op) eqn:Hop.
    + rewrite decide_True by reflexivity. simpl length.
      rewrite Zplus_mod_idemp_l. f_equal. lia.
    + rewrite decide_False by discriminate. reflexivity.
Qed.

Lemma recorded_fields (event : option TaskEvent) (old : TaskState) :
  State (recorded event old) = State old /\
  StartedAt (recorded event old) = StartedAt old /\
  FinishedAt (recorded event old) = FinishedAt old /\
  (forall ev, event = Some ev -> last (Events (recorded event old)) = Some ev).
Proof.
  destruct event as [ev|]; unfold recorded.
  - repeat split;
      try (destruct (FailsTask ev), (decide (Type_ ev = TaskRestarting));
           reflexivity).
    intros ev' [= <-]. rewrite appendTaskEvent_Events. apply last_snoc.
  - repeat split. discriminate.
Qed.

(** X8. [StartedAt] follows the transitions into running: a call that is
    not lazy and records running for a task not recorded running sets it to
    the current time, also when the task ran before; every other call
    leaves it as it was. *)
Theorem setTaskState_StartedAt :
  forall (r r' : AllocRunner) (now : Time) (taskName state : string)
         (event : option TaskEvent) (lazySync : bool) (eff : list Effect),
    setTaskState r now taskName state event lazySync = Some (r', eff) ->
    let old := default zeroTaskState (taskStates r !! taskName) in
    exists st',
      taskStates r' !! taskName = Some st' /\
      (lazySync = false -> State st' = TaskStateRunning ->
       State old <> TaskStateRunning -> StartedAt st' = now) /\
      (lazySync = true \/ State st' <> TaskStateRunning \/
       State old = TaskStateRunning -> StartedAt st' = StartedAt old).
Proof.
  intros r r' now taskName state event lazySync eff H old.
  apply setTaskState_next in H as [Hts _].
  eexists. rewrite Hts, lookup_insert_eq. split; [reflexivity|].
  fold old. unfold nextTaskState.
  destruct (recorded_fields event old) as (HS & HSt & _ & _).
  destruct lazySync.
  - split; [discriminate|]. intros _. exact HSt.
  - simpl. unfold switched. rewrite HS.
    destruct (decide (effectiveState state (recorded event old) = TaskStateRunning))
      as [Hr|Hr].
    + destruct (decide (State old = TaskStateRunning)) as [Ho|Ho]; simpl.
      * split; [tauto|]. intros _. exact HSt.
      * split; [reflexivity|]. intros [?|[?|?]]; [discriminate|tauto|tauto].
    + split; [tauto|]. intros _.
      destruct (decide (effectiveState state (recorded event old) = TaskStateDead)).
      * unfold stampFinished. destruct (IsZero _); exact HSt.
      * exact HSt.
Qed.

(** The [Destroy] calls of a call of [setTaskState]. *)
Lemma setTaskState_cascade (r r' : AllocRunner) (now : Time) (taskName state : string)
    (event : option TaskEvent) (lazySync : bool) (eff : list Effect) :
  setTaskState r now taskName state event lazySync = Some (r', eff) ->
  destroyed eff = cascade r now taskName state event lazySync.
Proof.
  unfold setTaskState, cascade. intros H.
  bind_inv H. destruct p as [s1 eff1].
  assert (Hs1 : s1 = recorded event
                       (default zeroTaskState (taskStates r !! taskName)) /\
                destroyed eff1 = []).
  { destruct event as [ev|].
    - split; [eapply recordEvent_recorded|eapply destroyed_recordEvent]; exact E.
    - injection E as <- <-. auto. }
  destruct Hs1 as [Hs1 Hno]. rewrite <- Hs1.
  destruct lazySync.
  - injection H as _ <-. exact Hno.
  - bind_inv H. destruct p as [s2 eff2]. injection H as _ <-.
    rewrite destroyed_app, Hno. simpl.
    destruct (decide (effectiveState state s1 = TaskStateRunning)) as [Hr|Hr].
    + rewrite decide_False by (rewrite Hr; discriminate).
      unfold enterRunning in E0.
      destruct (decide (State s1 = TaskStateRunning)).
      * injection E0 as _ <-. reflexivity.
      * bind_inv E0. injection E0 as _ <-. eapply destroyed_incrCounter. exact E1.
    + destruct (decide (effectiveState state s1 = TaskStateDead)).
      * unfold enterDead in E0. bind_inv E0. injection E0 as _ <-.
        rewrite destroyed_app, (destroyed_incrCounter _ _ _ _ E1). simpl.
        rewrite (proj2 (stampFinished_State now s1)).
        destruct (Failed s1); [|destruct (isLeaderTask r taskName)];
          rewrite ?destroyed_app, ?destroyed_destroyAll, ?destroyed_debugOthers,
            ?app_nil_r; reflexivity.
      * injection E0 as _ <-. reflexivity.
Qed.

(** X9. A lazy call of [setTaskState] only records: whatever state and
    event it is passed, it destroys no task runner, leaves the dirty
    channel, the recorded state and the start and finish times of its task
    and all other tasks as they were, and the event it was passed is the
    last of the task's events. *)
Theorem setTaskState_lazy_records_only :
  forall (r r' : AllocRunner) (now : Time) (taskName state : string)
         (event : option TaskEvent) (eff : list Effect),
    setTaskState r now taskName state event true = Some (r', eff) ->
    let old := default zeroTaskState (taskStates r !! taskName) in
    destroyed eff = [] /\
    dirtyCh r' = dirtyCh r /\
    (forall t, t <> taskName -> taskStates r' !! t = taskStates r !! t) /\
    exists st',
      taskStates r' !! taskName = Some st' /\
      State st' = State old /\
      StartedAt st' = StartedAt old /\
      FinishedAt st' = FinishedAt old /\
      (forall ev, event = Some ev -> last (Events st') = Some ev).
Proof.
  intros r r' now taskName state event eff H old.
  pose proof (setTaskState_cascade _ _ _ _ _ _ _ _ H) as Hc.
  apply setTaskState_next in H as [Hts Hd].
  split; [exact Hc|]. split; [exact Hd|]. split.
  - intros t Hne. rewrite Hts. apply lookup_insert_ne. congruence.
  - eexists. rewrite Hts, lookup_insert_eq. split; [reflexivity|].
    apply recorded_fields.
Qed.

(** X10. [setTaskState] destroys task runners only when it records its
    task as dead in a call that is not lazy, and then only runners that are
    registered with the runner under another name than the task's: the
    runner of the reporting task is never destroyed by its own report. *)
Theorem setTaskState_destroys_only_others :
  forall (r r' : AllocRunner) (now : Time) (taskName state : string)
         (event : option TaskEvent) (lazySync : bool) (eff : list Effect)
         (n : string) (ev : TaskEvent),
    setTaskState r now taskName state event lazySync = Some (r', eff) ->
    (n, ev) ∈ destroyed eff ->
    n <> taskName /\
    is_Some (tasks r !! n) /\
    lazySync = false /\
    exists st', taskStates r' !! taskName = Some st' /\ State st' = TaskStateDead.
Proof.
  intros r r' now taskName state event lazySync eff n ev H Hin.
  rewrite (setTaskState_cascade _ _ _ _ _ _ _ _ H) in Hin.
  apply setTaskState_next in H as [Hts _].
  unfold cascade in Hin.
  destruct lazySync; [apply elem_of_nil in Hin; destruct Hin|].
  destruct (decide (effectiveState state _ = TaskStateDead)) as [Hd|Hd];
    [|apply elem_of_nil in Hin; destruct Hin].
  assert (Hreg : n <> taskName /\ is_Some (tasks r !! n)).
  { destruct (Failed _); [|destruct (isLeaderTask r taskName)].
    - apply otherTaskRunners_spec in Hin. tauto.
    - apply otherTaskRunners_spec in Hin. tauto.
    - apply elem_of_nil in Hin. destruct Hin. }
  destruct Hreg as [Hne Hsome].
  split; [exact Hne|]. split; [exact Hsome|]. split; [reflexivity|].
  eexists. rewrite Hts, lookup_insert_eq. split; [reflexivity|].
  unfold nextTaskState. simpl. exact Hd.
Qed.

(** X11. A terminal snapshot fixes the finish time of the tasks that are
    not finished: a task of the group without finish time, running or not,
    gets the time of the snapshot, and whatever is reported for it later,
    its own death included, leaves that time in place. *)
Theorem terminal_snapshot_fixes_FinishedAt :
  forall (r r1 r2 : AllocRunner) (now now2 : Time) (snapshot : Allocation)
         (j : Job) (group : TaskGroup) (task : Task) (state : string)
         (event : option TaskEvent) (lazySync : bool) (eff : list Effect),
    now <> 0%Z ->
    Alloc r now = Some (snapshot, r1) ->
    ClientTerminalStatus snapshot = true ->
    AllocJob snapshot = Some j ->
    LookupTaskGroup j (AllocTaskGroup snapshot) = Some group ->
    In task (Tasks group) ->
    FinishedAt (default zeroTaskState (taskStates r !! TaskName task)) = 0%Z ->
    setTaskState r1 now2 (TaskName task) state event lazySync = Some (r2, eff) ->
    exists st1 st2,
      taskStates r1 !! TaskName task = Some st1 /\ FinishedAt st1 = now /\
      taskStates r2 !! TaskName task = Some st2 /\ FinishedAt st2 = now.
Proof.
  intros r r1 r2 now now2 snapshot j group task state event lazySync eff
    Hnow HA Hterm Hj Hg Hin Hzero Hset.
  rewrite Alloc_composed in HA.
  destruct (alloc r) as [a|]; [|discriminate]. simpl in HA.
  pose proof (finalizeTerminalAlloc_fields _ _ _ _ _ HA) as Hsnap.
  apply finalizeTerminalAlloc_cases in HA
    as [(Hnt & -> & _)|(_ & j' & group' & Hj' & Hg' & Hs & ->)]; [congruence|].
  assert (Hgroup : group' = group).
  { rewrite Hs in Hj, Hg. simpl in Hj, Hg. congruence. }
  subst group'.
  assert (Hst1 : taskStates
                   (set_taskStates
                      (foldl (finalizeTask now) (taskStates r) (Tasks group)) r)
                 !! TaskName task
                 = Some (stampFinished now
                           (default zeroTaskState (taskStates r !! TaskName task)))).
  { simpl. rewrite finalizeTasks_lookup.
    rewrite decide_True by (apply list_elem_of_In, in_map; exact Hin). reflexivity. }
  assert (Hf1 : FinishedAt
                  (stampFinished now
                     (default zeroTaskState (taskStates r !! TaskName task))) = now).
  { unfold stampFinished, IsZero. rewrite Hzero. reflexivity. }
  destruct (setTaskState_keeps _ _ _ _ _ _ _ _ Hset) as [Hk _].
  destruct (Hk _ _ Hst1) as (st2 & Hst2 & Hfin & _).
  do 2 eexists. split; [exact Hst1|]. split; [exact Hf1|].
  split; [exact Hst2|]. rewrite Hfin; [exact Hf1|]. rewrite Hf1. exact Hnow.
Qed.

(** ** More on persistence *)

(** The mutable record of a plan, and the records of a first plan. *)
Lemma savePlan_mutable (r : AllocRunner) (db : StateDB) (snapshot : Allocation)
    (st desc : string) (dir : option AllocDir) :
  applyPuts (planPuts (savePlan r snapshot st desc dir)) (bucket db) !! "mutable"
  = Some (ObjMutable st desc (TaskStates snapshot) (DeploymentStatus snapshot)).
Proof.
  plan_cases r snapshot dir; simplify_map_eq; reflexivity.
Qed.

Lemma viewRecords_found (db : StateDB) (key : string) (v : StateObject) :
  bucket db !! key = Some v -> viewRecords db = readRecords db.
Proof.
  intros H. unfold viewRecords. rewrite decide_False; [reflexivity|].
  intros He. rewrite He, lookup_empty in H. discriminate H.
Qed.

Lemma viewRecords_missing (db : StateDB) :
  bucket db = ∅ -> viewRecords db = inr "failed to get allocation bucket".
Proof. intros H. unfold viewRecords. rewrite decide_True by exact H. reflexivity. Qed.

Lemma savePlan_first (r : AllocRunner) (db : StateDB) (snapshot : Allocation)
    (st desc : string) (d : AllocDir) :
  EvalID snapshot <> persistedEval r ->
  immutablePersisted r = false ->
  allocDirPersisted r = false ->
  let b := applyPuts (planPuts (savePlan r snapshot st desc (Some d))) (bucket db) in
  b !! "alloc" = Some (ObjAlloc (Some snapshot)) /\
  b !! "immutable" = Some (ObjImmutable (Version (config r))) /\
  b !! "alloc-dir" = Some (ObjAllocDir d).
Proof.
  intros Hne Hi Hd. unfold savePlan, planPuts, applyPuts,
    allocRunnerStateAllocKey, allocRunnerStateImmutableKey,
    allocRunnerStateAllocDirKey, allocRunnerStateMutableKey.
  rewrite decide_True by exact Hne. rewrite Hi, Hd. simpl.
  repeat split; simplify_map_eq; reflexivity.
Qed.

(** X12. What a committed persistence attempt leaves in the mutable record
    is what the runner then holds: the explicit status and description and
    the task states and deployment status of the snapshot it composed, and
    those task states are the task states of the runner after the attempt. *)
Theorem committed_mutable_record :
  forall (r r' : AllocRunner) (db db' : StateDB) (f : Faults) (now : Time)
         (out : SaveOutcome),
    saveAllocRunnerState r db f now = Some (out, r', db') ->
    so_committed out = true ->
    exists snapshot r1,
      Alloc r now = Some (snapshot, r1) /\
      bucket db' !! "mutable"
      = Some (ObjMutable (allocClientStatus r') (allocClientDescription r')
                (taskStates r') (DeploymentStatus snapshot)) /\
      taskStates r' = TaskStates snapshot /\
      allocClientStatus r' = allocClientStatus r /\
      allocClientDescription r' = allocClientDescription r.
Proof.
  intros r r' db db' f now out H Hc.
  apply saveAllocRunnerState_cases in H
    as [(_ & -> & _)|(_ & snapshot & r1 & HA & _ & Hcases)]; [discriminate|].
  destruct Hcases as [(Hn & _)|(_ & _ & -> & ->)]; [congruence|].
  exists snapshot, r1. split; [exact HA|].
  pose proof (savePlan_commit r1 db snapshot (allocClientStatus r1)
                (allocClientDescription r1) (allocDir r1)) as (_ & _ & _ & Hr & _).
  simpl in Hr. rewrite Hr. simpl.
  destruct (Alloc_taskStates _ _ _ _ HA) as [Hts _].
  pose proof (Alloc_runner _ _ _ _ HA) as Hr1.
  rewrite savePlan_mutable, Hts.
  split; [reflexivity|]. split; [reflexivity|].
  rewrite Hr1. auto.
Qed.

(** X13. A first committed persistence attempt can be read back: when the
    evaluation of the allocation is not the one marked as persisted, no
    one-shot record is marked as written and the directory is not nil, the
    four records read from the store afterwards are the snapshot, the
    version of the node, the explicit status and description with the task
    states and deployment status of the snapshot, and the directory. *)
Theorem first_save_reads_back :
  forall (r r' : AllocRunner) (db db' : StateDB) (f : Faults) (now : Time)
         (out : SaveOutcome) (snapshot : Allocation) (r1 : AllocRunner)
         (d : AllocDir),
    saveAllocRunnerState r db f now = Some (out, r', db') ->
    so_committed out = true ->
    Alloc r now = Some (snapshot, r1) ->
    EvalID snapshot <> persistedEval r ->
    immutablePersisted r = false ->
    allocDirPersisted r = false ->
    allocDir r = Some d ->
    viewRecords db'
    = inl {| rs_alloc := Some snapshot;
             rs_version := Version (config r);
             rs_status := allocClientStatus r;
             rs_description := allocClientDescription r;
             rs_taskStates := TaskStates snapshot;
             rs_deployment := DeploymentStatus snapshot;
             rs_allocDir := d |}.
Proof.
  intros r r' db db' f now out snapshot r1 d H Hc HA Hne Hi Hd Hdir.
  apply saveAllocRunnerState_cases in H
    as [(_ & -> & _)|(_ & snapshot' & r1' & HA' & _ & Hcases)]; [discriminate|].
  rewrite HA in HA'. injection HA' as <- <-.
  destruct Hcases as [(Hn & _)|(_ & _ & _ & ->)]; [congruence|].
  pose proof (Alloc_runner _ _ _ _ HA) as Hr1.
  assert (Hne1 : EvalID snapshot <> persistedEval r1) by (rewrite Hr1; exact Hne).
  assert (Hi1 : immutablePersisted r1 = false) by (rewrite Hr1; exact Hi).
  assert (Hd1 : allocDirPersisted r1 = false) by (rewrite Hr1; exact Hd).
  assert (Hdir1 : allocDir r1 = Some d) by (rewrite Hr1; exact Hdir).
  assert (Hcfg : config r1 = config r) by (rewrite Hr1; reflexivity).
  assert (Hst : allocClientStatus r1 = allocClientStatus r)
    by (rewrite Hr1; reflexivity).
  assert (Hde : allocClientDescription r1 = allocClientDescription r)
    by (rewrite Hr1; reflexivity).
  rewrite Hdir1.
  destruct (savePlan_first r1 db snapshot (allocClientStatus r1)
              (allocClientDescription r1) d Hne1 Hi1 Hd1) as (Ha & Him & Had).
  pose proof (savePlan_mutable r1 db snapshot (allocClientStatus r1)
                (allocClientDescription r1) (Some d)) as Hm.
  erewrite viewRecords_found by (simpl; exact Ha).
  unfold readRecords, allocRunnerStateAllocKey, allocRunnerStateImmutableKey,
    allocRunnerStateAllocDirKey, allocRunnerStateMutableKey. simpl.
  rewrite Ha, Him, Hm, Had, Hcfg, Hst, Hde. reflexivity.
Qed.

(** X14. An allocation whose evaluation identifier is the one marked as
    persisted, as the empty identifier is for a new runner, never gets its
    [alloc] record written: a persistence attempt leaves the [alloc] key as
    it was.  When the key was missing no restore succeeds afterwards: after
    a committed attempt the bucket is there without the [alloc] record and
    the restore fails reading that record; as long as nothing was ever
    committed there is no bucket and the restore fails getting it. *)
Theorem same_eval_never_persists_alloc :
  forall (TerminalStatus : Allocation -> bool)
         (trRestoreState : string -> string * option string)
         (r r' r0 : AllocRunner) (db db' : StateDB) (f : Faults) (now now' : Time)
         (out : SaveOutcome) (snapshot : Allocation) (r1 : AllocRunner),
    saveAllocRunnerState r db f now = Some (out, r', db') ->
    Alloc r now = Some (snapshot, r1) ->
    EvalID snapshot = persistedEval r ->
    bucket db !! "alloc" = None ->
    bucket db' !! "alloc" = None /\
    (so_committed out = true -> bucket db' <> ∅) /\
    (so_committed out = false -> db' = db) /\
    RestoreState TerminalStatus trRestoreState now' r0 db'
    = Some (Some ["failed to read allocation state";
                  if decide (bucket db' = ∅) then "failed to get allocation bucket"
                  else "failed to read alloc runner alloc state"], r0, []).
Proof.
  intros TS trR r r' r0 db db' f now now' out snapshot r1 H HA Heq Hnone.
  assert (Hb : bucket db' !! "alloc" = None /\
               (so_committed out = true -> bucket db' <> ∅) /\
               (so_committed out = false -> db' = db)).
  { apply saveAllocRunnerState_cases in H
      as [(_ & -> & _ & ->)|(_ & snapshot' & r1' & HA' & _ & Hcases)].
    { split; [exact Hnone|]. split; [discriminate|reflexivity]. }
    rewrite HA in HA'. injection HA' as <- <-.
    destruct Hcases as [(Hc & _ & ->)|(Hc & _ & _ & ->)].
    { split; [exact Hnone|]. split; [congruence|reflexivity]. }
    pose proof (savePlan_commit r1 db snapshot (allocClientStatus r1)
                  (allocClientDescription r1) (allocDir r1))
      as (_ & _ & _ & _ & Hbk).
    pose proof (savePlan_mutable r1 db snapshot (allocClientStatus r1)
                  (allocClientDescription r1) (allocDir r1)) as Hm.
    simpl in Hbk |- *. split; [|split; [|congruence]].
    - rewrite Hbk. rewrite decide_False; [exact Hnone|].
      rewrite (Alloc_runner _ _ _ _ HA). simpl. intros Hne. apply Hne. exact Heq.
    - intros _ He. rewrite He, lookup_empty in Hm. discriminate Hm. }
  destruct Hb as (Hb & Hc & Hu).
  split; [exact Hb|]. split; [exact Hc|]. split; [exact Hu|].
  unfold RestoreState, viewRecords.
  destruct (decide (bucket db' = ∅)); [reflexivity|].
  unfold readRecords, allocRunnerStateAllocKey. rewrite Hb. reflexivity.
Qed.

Lemma viewRecords_inl (db : StateDB) (rec : Restored) :
  viewRecords db = inl rec ->
  bucket db !! "alloc" = Some (ObjAlloc (rs_alloc rec)) /\
  bucket db !! "immutable" = Some (ObjImmutable (rs_version rec)) /\
  bucket db !! "mutable"
  = Some (ObjMutable (rs_status rec) (rs_description rec) (rs_taskStates rec)
            (rs_deployment rec)) /\
  bucket db !! "alloc-dir" = Some (ObjAllocDir (rs_allocDir rec)).
Proof.
  unfold viewRecords, readRecords, allocRunnerStateAllocKey,
    allocRunnerStateImmutableKey, allocRunnerStateAllocDirKey,
    allocRunnerStateMutableKey. intros H.
  repeat match type of H with
         | match ?x with _ => _ end = _ =>
             let E := fresh "E" in destruct x eqn:E; try discriminate H
         end.
  injection H as <-. simpl. auto.
Qed.


(** The task runners [SaveState] asks to save. *)
Lemma SaveState_cases (trSaveState : string -> option string) (r r' : AllocRunner)
    (db db' : StateDB) (f : Faults) (now : Time) (err : option (list string))
    (saved : list string) :
  SaveState trSaveState r db f now = Some (err, saved, r', db') ->
  exists out,
    saveAllocRunnerState r db f now = Some (out, r', db') /\
    match so_err out with
    | Some e => err = Some [e] /\ saved = []
    | None =>
        saved = map fst (map_to_list (tasks r')) /\
        err = match omap trSaveState saved with
              | [] => None
              | _ :: _ => Some (omap trSaveState saved)
              end
    end.
Proof.
  unfold SaveState. intros H. bind_inv H. destruct p as [[out r1] db1].
  exists out. destruct (so_err out) as [e|];
    injection H as <- <- <- <-; (split; [reflexivity|split; reflexivity]).
Qed.

(** X16. [SaveState] saves the task runners only after its own state:
    when persisting the runner's state returns an error, that error is
    returned and no task runner is asked to save; otherwise every
    registered task runner is asked exactly once, and the result is nil
    exactly when none of them returns an error.  After [Destroy] the
    runner's own records are left alone, yet every task runner is still
    asked to save. *)
Theorem SaveState_order :
  forall (trSaveState : string -> option string) (r r' : AllocRunner)
         (db db' : StateDB) (f : Faults) (now : Time)
         (err : option (list string)) (saved : list string),
    SaveState trSaveState r db f now = Some (err, saved, r', db') ->
    exists out,
      saveAllocRunnerState r db f now = Some (out, r', db') /\
      (forall e, so_err out = Some e -> err = Some [e] /\ saved = []) /\
      (so_err out = None ->
       NoDup saved /\
       (forall n, n ∈ saved <-> is_Some (tasks r !! n)) /\
       (err = None <-> forall n, n ∈ saved -> trSaveState n = None)) /\
      (ctxCanceled r = true ->
       db' = db /\ forall n, n ∈ saved <-> is_Some (tasks r !! n)).
Proof.
  intros trS r r' db db' f now err saved H.
  apply SaveState_cases in H as (out & Hsave & Hcase).
  exists out. split; [exact Hsave|].
  assert (Htasks : tasks r' = tasks r).
  { apply saveAllocRunnerState_cases in Hsave
      as [(_ & _ & -> & _)|(_ & snapshot & r1 & HA & _ & Hcases)]; [reflexivity|].
    pose proof (Alloc_runner _ _ _ _ HA) as Hr1.
    destruct Hcases as [(_ & -> & _)|(_ & _ & -> & _)].
    - rewrite Hr1. reflexivity.
    - pose proof (savePlan_commit r1 db snapshot (allocClientStatus r1)
                    (allocClientDescription r1) (allocDir r1))
        as (_ & _ & _ & Hr & _).
      simpl in Hr. rewrite Hr, Hr1. reflexivity. }
  assert (Hnames : forall n, n ∈ map fst (map_to_list (tasks r'))
                             <-> is_Some (tasks r !! n)).
  { intros n. rewrite Htasks, list_elem_of_In, in_map_iff. split.
    - intros ([n' tr] & <- & Hin). apply list_elem_of_In, elem_of_map_to_list in Hin.
      simpl. eauto.
    - intros [tr Htr]. exists (n, tr). split; [reflexivity|].
      apply list_elem_of_In, elem_of_map_to_list. exact Htr. }
  split; [|split].
  - intros e He. rewrite He in Hcase. exact Hcase.
  - intros Hnone. rewrite Hnone in Hcase. destruct Hcase as [-> ->].
    split; [apply NoDup_fst_map_to_list|]. split; [exact Hnames|].
    set (saved := map fst (map_to_list (tasks r'))).
    split.
    + intros Herr n Hin.
      destruct (omap trS saved) as [|e errs] eqn:Hom; [|discriminate].
      destruct (trS n) as [e|] eqn:Hn; [|reflexivity].
      assert (e ∈ omap trS saved) by (apply list_elem_of_omap; eauto).
      rewrite Hom in H. apply elem_of_nil in H. destruct H.
    + intros Hall.
      destruct (omap trS saved) as [|e errs] eqn:Hom; [reflexivity|].
      assert (He : e ∈ omap trS saved) by (rewrite Hom; apply elem_of_cons; auto).
      apply list_elem_of_omap in He as (n & Hin & Hn).
      rewrite (Hall n Hin) in Hn. discriminate.
  - intros Hctx.
    rewrite saveAllocRunnerState_canceled in Hsave by exact Hctx.
    injection Hsave as <- <- <-. simpl in Hcase. destruct Hcase as [-> _].
    split; [reflexivity|]. exact Hnames.
Qed.

(** ** The derived status, broadcasts and updates *)

(** X17. The derived status ignores a task whose state is none of
    running, pending and dead, such as the task that so far was only
    reported lazily and has the empty state: with or without that task the
    status is the same.  In particular task states that are all empty give
    the empty status, not pending. *)
Theorem getClientStatus_ignores_unknown :
  forall (taskStates : gmap string TaskState) (n : string) (st : TaskState),
    State st <> "running" -> State st <> "pending" -> State st <> "dead" ->
    getClientStatus (<[n := st]> taskStates) = getClientStatus (delete n taskStates).
Proof.
  intros ts n st Hr Hp Hd. symmetry. apply getClientStatus_same.
  - intros m st' Hst'. apply lookup_delete_Some in Hst' as [Hne Hst'].
    exists st'. rewrite lookup_insert_ne by exact Hne. auto.
  - intros m st'. destruct (decide (n = m)) as [->|Hne].
    + rewrite lookup_insert_eq. intros [= <-]. right. auto.
    + rewrite lookup_insert_ne by exact Hne. intros Hst'. left.
      exists st'. rewrite lookup_delete_ne by exact Hne. auto.
Qed.

Lemma sendBroadcast_cases (r : AllocRunner) (sendOk : nat -> bool)
    (snapshot : Allocation) :
  sendBroadcast r sendOk snapshot =
  if sendOk 0 then [EBroadcast snapshot]
  else if sendOk 1 then [EBroadcast snapshot; EBroadcast snapshot]
  else if sendOk 2 then [EBroadcast snapshot; EBroadcast snapshot; EBroadcast snapshot]
  else [EBroadcast snapshot; EBroadcast snapshot; EBroadcast snapshot;
        ELog "WARN" ["failed to broadcast update to allocation"; allocID r]].
Proof.
  unfold sendBroadcast. simpl.
  destruct (sendOk 0); [reflexivity|].
  destruct (sendOk 1); [reflexivity|].
  destruct (sendOk 2); reflexivity.
Qed.

Ltac all_same H :=
  repeat (apply elem_of_cons in H as [->|H]; [reflexivity|]);
  apply elem_of_nil in H; destruct H.

(** X18. [sendBroadcast] tries at most three times and stops at the
    first send the broadcaster accepts: it sends the same snapshot once
    more than sends were refused, three times at most, and it logs the
    failure exactly when all three sends were refused. *)
Theorem sendBroadcast_retries :
  forall (r : AllocRunner) (sendOk : nat -> bool) (snapshot : Allocation),
    let eff := sendBroadcast r sendOk snapshot in
    1 <= length (broadcasts eff) <= 3 /\
    (forall s, s ∈ broadcasts eff -> s = snapshot) /\
    (forall k, k < 3 -> sendOk k = true ->
               (forall i, i < k -> sendOk i = false) ->
               length (broadcasts eff) = S k) /\
    (warned eff = true <->
     sendOk 0 = false /\ sendOk 1 = false /\ sendOk 2 = false).
Proof.
  intros r sendOk snapshot eff. subst eff. rewrite sendBroadcast_cases.
  destruct (sendOk 0) eqn:H0; [|destruct (sendOk 1) eqn:H1;
    [|destruct (sendOk 2) eqn:H2]]; simpl.
  - split; [lia|]. split; [intros s Hs; all_same Hs|]. split.
    + intros k Hk Hok Hbefore. destruct k as [|k]; [reflexivity|].
      rewrite Hbefore in H0 by lia. discriminate.
    + split; [discriminate|]. intros [? _]. discriminate.
  - split; [lia|]. split; [intros s Hs; all_same Hs|]. split.
    + intros k Hk Hok Hbefore. destruct k as [|[|k]]; try congruence.
      rewrite Hbefore in H1 by lia. discriminate.
    + split; [discriminate|]. intros (_ & ? & _). discriminate.
  - split; [lia|]. split; [intros s Hs; all_same Hs|]. split.
    + intros k Hk Hok Hbefore. destruct k as [|[|[|k]]]; try congruence. lia.
    + split; [discriminate|]. intros (_ & _ & ?). discriminate.
  - split; [lia|]. split; [intros s Hs; all_same Hs|]. split.
    + intros k Hk Hok Hbefore. destruct k as [|[|[|k]]]; try congruence. lia.
    + split; [auto|]. intros _. reflexivity.
Qed.

Lemma drain_all (l : list Allocation) (r : AllocRunner) :
  updateCh r = l ->
  is_Some (alloc r) ->
  exists r', drain (length l) r = Some (map Some l, r') /\ updateCh r' = [].
Proof.
  revert r. induction l as [|u rest IH]; intros r Hch [a Ha]; simpl.
  - exists r. auto.
  - unfold recvUpdate. rewrite Hch, Ha. simpl.
    set (r1 := set_alloc (Some u) _).
    assert (Hch1 : updateCh r1 = rest) by (unfold r1; case_decide; reflexivity).
    assert (Ha1 : alloc r1 = Some u) by reflexivity.
    destruct (IH r1 Hch1 (ex_intro _ u Ha1)) as (r' & -> & Hempty).
    simpl. exists r'. split; [reflexivity|exact Hempty].
Qed.


(** X20. Receiving an update replaces the allocation and forgets the
    health the watcher had set exactly when the update belongs to another
    deployment; the next snapshot with a derived status then carries the
    deployment status of the update, unless the allocation failed inside a
    deployment.  An update of the same deployment leaves the health as it
    was. *)
Theorem recvUpdate_deployment_change :
  forall (r r' : AllocRunner) (update a : Allocation) (rest : list Allocation),
    updateCh r = update :: rest ->
    alloc r = Some a ->
    recvUpdate r = Some r' ->
    alloc r' = Some update /\
    (DeploymentID a = DeploymentID update ->
     allocHealth r' = allocHealth r /\ allocHealthTime r' = allocHealthTime r) /\
    (DeploymentID a <> DeploymentID update ->
     allocHealth r' = None /\ allocHealthTime r' = 0%Z /\
     forall (now : Time) (snapshot : Allocation) (r'' : AllocRunner),
       statusIsExplicit r = false ->
       Alloc r' now = Some (snapshot, r'') ->
       ClientStatus snapshot <> AllocClientStatusFailed \/ DeploymentID update = "" ->
       DeploymentStatus snapshot = DeploymentStatus update).
Proof.
  intros r r' update a rest Hch Ha H. unfold recvUpdate in H.
  rewrite Hch, Ha in H. simpl in H. injection H as <-.
  destruct (decide (DeploymentID a <> DeploymentID update)) as [Hne|Heq]; simpl.
  - split; [reflexivity|]. split; [intros Heq; contradiction|]. intros _.
    split; [reflexivity|]. split; [reflexivity|].
    intros now snapshot r'' Hex HA Hok.
    eapply Alloc_deployment_cases in HA as [_ Hder]; [|reflexivity].
    destruct (Hder Hex) as (_ & _ & Hnone). apply Hnone; [reflexivity|exact Hok].
  - split; [reflexivity|]. split; [auto|]. intros Hne. contradiction.
Qed.

(** ** Starting the task runners *)

Lemma runStarted_app (e1 e2 : list RunEvent) :
  runStarted (e1 ++ e2) = runStarted e1 ++ runStarted e2.
Proof. unfold runStarted. apply omap_app. Qed.

Lemma runStarted_RDo (eff : list Effect) :
  runStarted (map RDo eff)
  = omap (fun e => match e with ERun n => Some n | _ => None end) eff.
Proof.
  unfold runStarted. induction eff as [|e eff IH]; [reflexivity|].
  destruct e; simpl; first [exact IH | f_equal; exact IH].
Qed.

Lemma runStarted_incrCounter (r : AllocRunner) (path : list string) (name : string)
    (m : list Effect) :
  incrCounter r path name = Some m -> runStarted (map RDo m) = [].
Proof.
  unfold incrCounter. intros H.
  destruct (BackwardsCompatibleMetrics (config r)).
  - bind_inv H. bind_inv H. injection H as <-.
    destruct (DisableTaggedMetrics (config r)); reflexivity.
  - injection H as <-. destruct (DisableTaggedMetrics (config r)); reflexivity.
Qed.

(** What the start loop does: the restored set is as it was; a task that
    is restored or not of the group keeps what runner it had and is not
    started; every other task of the group has a runner and was started. *)
Lemma startTasks_spec (now : Time) (group : list Task) (r r' : AllocRunner)
    (eff : list Effect) :
  startTasks now r group = Some (r', eff) ->
  restored r' = restored r /\
  alloc r' = alloc r /\
  (forall n, n ∈ restored r \/ n ∉ map TaskName group ->
             tasks r' !! n = tasks r !! n /\
             forall e, In e eff -> effectTask e <> Some n) /\
  (forall n, n ∈ map TaskName group -> n ∉ restored r ->
             is_Some (tasks r' !! n) /\ In (ERun n) eff).
Proof.
  revert r r' eff. induction group as [|task rest IH]; intros r r' eff H;
    simpl in H.
  - injection H as <- <-. split; [reflexivity|]. split; [reflexivity|]. split.
    + intros n _. split; [reflexivity|]. intros e [].
    + intros n Hn. apply elem_of_nil in Hn. destruct Hn.
  - destruct (decide (TaskName task ∈ restored r)) as [Hres|Hres].
    + destruct (IH _ _ _ H) as (Hr & Ha & Hkeep & Hstart).
      split; [exact Hr|]. split; [exact Ha|]. split.
      * intros n Hn. apply Hkeep. destruct Hn as [Hn|Hn]; [auto|].
        right. intros Hin. apply Hn. simpl. apply elem_of_cons. auto.
      * intros n Hin Hnot. simpl in Hin. apply elem_of_cons in Hin as [->|Hin];
          [contradiction|]. apply Hstart; assumption.
    + bind_inv H. bind_inv H. destruct p as [snapshot r2].
      bind_inv H. destruct p as [r4 eff4]. injection H as <- <-.
      pose proof (Alloc_runner _ _ _ _ E0) as Hr2.
      destruct (IH _ _ _ E1) as (Hr & Ha & Hkeep & Hstart).
      simpl in Hr, Ha, Hkeep, Hstart.
      assert (Hres2 : restored r2 = restored r) by (rewrite Hr2; reflexivity).
      assert (Htasks2 : tasks r2 = tasks r) by (rewrite Hr2; reflexivity).
      assert (Halloc2 : alloc r2 = alloc r) by (rewrite Hr2; reflexivity).
      split; [congruence|]. split; [congruence|]. split.
      * intros n Hn.
        assert (Hne : TaskName task <> n).
        { intros <-. destruct Hn as [Hn|Hn]; [contradiction|].
          apply Hn. simpl. apply elem_of_cons. auto. }
        destruct (Hkeep n) as [Ht He].
        { rewrite Hres2. destruct Hn as [Hn|Hn]; [auto|].
          right. intros Hin. apply Hn. simpl. apply elem_of_cons. auto. }
        split.
        -- rewrite Ht, lookup_insert_ne by exact Hne. rewrite Htasks2. reflexivity.
        -- intros e [<-|[<-|Hin]]; simpl; try congruence. apply He. exact Hin.
      * intros n Hin Hnot. simpl in Hin. apply elem_of_cons in Hin as [->|Hin].
        -- destruct (decide (TaskName task ∈ map TaskName rest)) as [Hlater|Hlater].
           ++ destruct (Hstart _ Hlater) as [Hs Hrun];
                [rewrite Hres2; exact Hnot|].
              split; [exact Hs|]. right. right. exact Hrun.
           ++ destruct (Hkeep (TaskName task)) as [Ht _]; [right; exact Hlater|].
              split; [|right; left; reflexivity].
              rewrite Ht, lookup_insert_eq. eauto.
        -- destruct (Hstart _ Hin) as [Hs Hrun]; [rewrite Hres2; exact Hnot|].
           split; [exact Hs|]. right. right. exact Hrun.
Qed.

Lemma setBaseLabels_frame (nodeID : option string) (r r' : AllocRunner) :
  setBaseLabels nodeID r = Some r' -> r' = set_baseLabels (baseLabels r') r.
Proof.
  unfold setBaseLabels. intros H. bind_inv H. injection H as <-. reflexivity.
Qed.

Section RunFacts.

Variable TerminalStatus : Allocation -> bool.
Variable Terminated : Allocation -> bool.

(** The first part of [Run] seen from its end: the snapshot it composed,
    the group it found or not, and how it went on. *)
Lemma runStart_cases (env : RunEnv) (nodeID : option string) (now : Time)
    (r r' : AllocRunner) (phase : RunPhase) (evs : list RunEvent) :
  runStart TerminalStatus Terminated env nodeID now r = Some (phase, r', evs) ->
  exists r0 snapshot r1 j,
    setBaseLabels nodeID r = Some r0 /\
    Alloc r0 now = Some (snapshot, r1) /\
    AllocJob snapshot = Some j /\
    ((phase = RunExited /\ runStarted evs = [] /\
      exists st desc, r' = setStatus st desc r1 /\ st = AllocClientStatusFailed) \/
     (phase = RunExited /\ runStarted evs = [] /\ r' = r1 /\
      (env_wait env = Some ErrCanceled \/ env_migrate env = Some ErrCanceled)) \/
     (exists tg before,
        LookupTaskGroup j (AllocTaskGroup snapshot) = Some tg /\
        env_build env = None /\ env_wait env = None /\
        (env_migrate env = None \/
         exists msg, env_migrate env = Some (ErrOther msg) /\ env_rebuild env = None) /\
        runStarted before = [] /\
        runTasks TerminalStatus Terminated now snapshot tg r1 before
        = Some (phase, r', evs))).
Proof.
  unfold runStart. intros H.
  destruct (setBaseLabels nodeID r) as [r0|] eqn:Hl; [simpl in H|discriminate].
  destruct (Alloc r0 now) as [[snapshot r1]|] eqn:HA; [simpl in H|discriminate].
  destruct (AllocJob snapshot) as [j|] eqn:Hj; [simpl in H|discriminate].
  exists r0, snapshot, r1, j.
  split; [reflexivity|]. split; [exact HA|]. split; [exact Hj|].
  destruct (LookupTaskGroup j (AllocTaskGroup snapshot)) as [tg|].
  2:{ injection H as <- <- <-. left. split; [reflexivity|].
      split; [reflexivity|]. eauto. }
  bind_inv H.
  destruct (env_build env) as [err|].
  { injection H as <- <- <-. left. split; [reflexivity|].
    split; [reflexivity|]. eauto. }
  destruct (env_wait env) as [[|msg]|].
  { injection H as <- <- <-. right. left. auto. }
  { injection H as <- <- <-. left. split; [reflexivity|].
    split; [reflexivity|]. eauto. }
  destruct (env_migrate env) as [[|msg]|].
  { injection H as <- <- <-. right. left. auto. }
  - destruct (env_rebuild env) as [err|].
    { injection H as <- <- <-. left. split; [reflexivity|].
      split; [reflexivity|]. eauto. }
    right. right. do 2 eexists. split; [reflexivity|].
    split; [reflexivity|]. split; [reflexivity|].
    split; [right; eauto|]. split; [|exact H]. reflexivity.
  - right. right. do 2 eexists. split; [reflexivity|].
    split; [reflexivity|]. split; [reflexivity|].
    split; [left; reflexivity|]. split; [|exact H]. reflexivity.
Qed.

Lemma runTasks_cases (now : Time) (snapshot : Allocation) (tg : TaskGroup)
    (r r' : AllocRunner) (before evs : list RunEvent) (phase : RunPhase) :
  runTasks TerminalStatus Terminated now snapshot tg r before = Some (phase, r', evs) ->
  runStarted before = [] ->
  (TerminalStatus snapshot = true /\ phase = RunAwaitsDestroy /\
   runStarted evs = [] /\ tasks r' = tasks r /\
   r' = (if negb (Terminated snapshot)
         then setStatus AllocClientStatusComplete
                "canceled running tasks for allocation in terminal state" r
         else r)) \/
  (TerminalStatus snapshot = false /\ phase = RunSupervises /\
   exists eff,
     startTasks now r (Tasks tg) = Some (r', eff) /\
     runStarted evs
     = omap (fun e => match e with ERun n => Some n | _ => None end) eff).
Proof.
  unfold runTasks. intros H Hb.
  destruct (TerminalStatus snapshot).
  - injection H as <- <- <-. left. split; [reflexivity|]. split; [reflexivity|].
    rewrite runStarted_app, Hb. split; [reflexivity|].
    split; [destruct (negb _); reflexivity|reflexivity].
  - bind_inv H. bind_inv H. destruct p as [r1 eff]. injection H as <- <- <-.
    right. split; [reflexivity|]. split; [reflexivity|].
    exists eff. split; [reflexivity|].
    rewrite !runStarted_app, Hb, (runStarted_incrCounter _ _ _ _ E).
    rewrite <- runStarted_RDo. reflexivity.
Qed.

Lemma runStart_early :
  forall (env : RunEnv) (nodeID : option string) (now : Time)
         (r r' : AllocRunner) (phase : RunPhase) (evs : list RunEvent),
    runStart TerminalStatus Terminated env nodeID now r = Some (phase, r', evs) ->
    phase <> RunSupervises ->
    tasks r' = tasks r /\
    runStarted evs = [] /\
    (phase = RunExited ->
     allocClientStatus r' = AllocClientStatusFailed \/
     (allocClientStatus r' = allocClientStatus r /\
      allocClientDescription r' = allocClientDescription r /\
      (env_wait env = Some ErrCanceled \/ env_migrate env = Some ErrCanceled))).
Proof.
  intros env nodeID now r r' phase evs H Hphase.
  apply runStart_cases in H
    as (r0 & snapshot & r1 & j & Hl & HA & Hj & Hcases).
  apply setBaseLabels_frame in Hl. apply Alloc_runner in HA.
  assert (Ht1 : tasks r1 = tasks r) by (rewrite HA, Hl; reflexivity).
  assert (Hs1 : allocClientStatus r1 = allocClientStatus r)
    by (rewrite HA, Hl; reflexivity).
  assert (Hd1 : allocClientDescription r1 = allocClientDescription r)
    by (rewrite HA, Hl; reflexivity).
  destruct Hcases as [(-> & Hst & st & desc & -> & ->)
                     |[(-> & Hst & -> & Hc)
                      |(tg & before & _ & _ & _ & _ & Hb & Hrun)]].
  - split; [exact Ht1|]. split; [exact Hst|]. intros _. left. reflexivity.
  - split; [exact Ht1|]. split; [exact Hst|]. intros _. right. auto.
  - destruct (runTasks_cases _ _ _ _ _ _ _ _ Hrun Hb)
      as [(_ & -> & Hst & Ht & _)|(_ & -> & _)].
    + split; [congruence|]. split; [exact Hst|]. discriminate.
    + contradiction.
Qed.

(** X21. [Run] starts task runners only when it reaches its update loop:
    when it returns early (the task group is missing, the directory cannot
    be built or rebuilt, waiting for the previous allocation fails or is
    cancelled, the migration is cancelled) or finds the allocation terminal,
    it registers no task runner and starts none.  When it returns early
    because the wait for the previous allocation, or after that wait the
    migration, was cancelled, the explicit status and description are left
    as they were; every other early return sets the explicit status
    failed. *)
Theorem Run_starts_nothing_unless_supervising :
  forall (env : RunEnv) (nodeID : option string) (now : Time)
         (r r' : AllocRunner) (phase : RunPhase) (evs : list RunEvent),
    runStart TerminalStatus Terminated env nodeID now r = Some (phase, r', evs) ->
    phase <> RunSupervises ->
    tasks r' = tasks r /\
    runStarted evs = [] /\
    (phase = RunExited ->
     exists a j,
       alloc r = Some a /\ AllocJob a = Some j /\
       let cancelled :=
         is_Some (LookupTaskGroup j (AllocTaskGroup a)) /\
         env_build env = None /\
         (env_wait env = Some ErrCanceled \/
          env_wait env = None /\ env_migrate env = Some ErrCanceled) in
       (cancelled ->
        allocClientStatus r' = allocClientStatus r /\
        allocClientDescription r' = allocClientDescription r) /\
       (~ cancelled -> allocClientStatus r' = AllocClientStatusFailed)).
Proof.
  intros env nodeID now r r' phase evs H Hphase.
  destruct (runStart_early _ _ _ _ _ _ _ H Hphase) as (Ht & Hs & _).
  split; [exact Ht|]. split; [exact Hs|]. intros ->.
  unfold runStart in H.
  destruct (setBaseLabels nodeID r) as [r0|] eqn:Hl; [simpl in H|discriminate].
  destruct (Alloc r0 now) as [[snapshot r1]|] eqn:HA; [simpl in H|discriminate].
  destruct (AllocJob snapshot) as [j|] eqn:Hj; [simpl in H|discriminate].
  pose proof (setBaseLabels_frame _ _ _ Hl) as Hr0.
  pose proof (Alloc_runner _ _ _ _ HA) as Hr1.
  assert (Hs1 : allocClientStatus r1 = allocClientStatus r)
    by (rewrite Hr1, Hr0; reflexivity).
  assert (Hd1 : allocClientDescription r1 = allocClientDescription r)
    by (rewrite Hr1, Hr0; reflexivity).
  rewrite Alloc_composed in HA.
  destruct (alloc r0) as [a|] eqn:Ha0; [simpl in HA|discriminate].
  assert (Ha : alloc r = Some a) by (rewrite Hr0 in Ha0; exact Ha0).
  apply finalizeTerminalAlloc_fields in HA.
  destruct (composed_fields r0 a) as (Hcj & Hcg & _).
  assert (Hjob : AllocJob a = Some j)
    by (rewrite HA in Hj; simpl in Hj; rewrite Hcj in Hj; exact Hj).
  assert (Hgrp : AllocTaskGroup snapshot = AllocTaskGroup a)
    by (rewrite HA; simpl; exact Hcg).
  rewrite Hgrp in H.
  exists a, j. split; [exact Ha|]. split; [exact Hjob|]. cbv zeta.
  destruct (LookupTaskGroup j (AllocTaskGroup a)) as [tg|].
  2:{ injection H as <- _. split; [|reflexivity].
      intros ([? [=]] & _). }
  destruct (allocDir r1) as [d|]; [simpl in H|discriminate].
  destruct (env_build env) as [berr|].
  { injection H as <- _. split; [|reflexivity]. intros (_ & [=] & _). }
  destruct (env_wait env) as [[|wmsg]|].
  - injection H as <- _. split; [auto|]. intros Hn. exfalso. apply Hn. eauto.
  - injection H as <- _. split; [|reflexivity].
    intros (_ & _ & [[=]|[[=] _]]).
  - assert (Hnot : forall before,
               runTasks TerminalStatus Terminated now snapshot tg r1 before
               <> Some (RunExited, r', evs)).
    { intros before Hrt. unfold runTasks in Hrt.
      destruct (TerminalStatus snapshot); [discriminate Hrt|].
      destruct (incrCounter r1 [] "start"); [simpl in Hrt|discriminate].
      destruct (startTasks now r1 (Tasks tg)) as [[r2 eff]|];
        [discriminate Hrt|discriminate]. }
    destruct (env_migrate env) as [[|mmsg]|].
    + injection H as <- _. split; [auto|]. intros Hn. exfalso. apply Hn. eauto.
    + destruct (env_rebuild env) as [rerr|].
      * injection H as <- _. split; [|reflexivity].
        intros (_ & _ & [[=]|[_ [=]]]).
      * exfalso. exact (Hnot _ H).
    + exfalso. exact (Hnot _ H).
Qed.

(** X22. A failed migration is a soft failure: when the migration of the
    previous allocation's data fails with an error other than the
    cancellation and the directory is rebuilt, [Run] ends in the same phase
    with the same runner, and starts the same task runners in the same
    order, as when the migration succeeds. *)
Theorem Run_migration_soft_fail :
  forall (nodeID : option string) (now : Time) (r : AllocRunner)
         (werr : option CtxErr) (berr : option string) (msg : string)
         (rebuild : option string),
    let failing := {| env_build := berr; env_wait := werr;
                      env_migrate := Some (ErrOther msg); env_rebuild := None |} in
    let smooth := {| env_build := berr; env_wait := werr;
                     env_migrate := None; env_rebuild := rebuild |} in
    match runStart TerminalStatus Terminated failing nodeID now r,
          runStart TerminalStatus Terminated smooth nodeID now r with
    | Some (phase, r', evs), Some (phase', r'', evs') =>
        phase = phase' /\ r' = r'' /\ runStarted evs = runStarted evs'
    | None, None => True
    | _, _ => False
    end.
Proof.
  intros nodeID now r werr berr msg rebuild failing smooth.
  unfold runStart, failing, smooth. simpl.
  destruct (setBaseLabels nodeID r) as [r0|]; [|exact I]. simpl.
  destruct (Alloc r0 now) as [[snapshot r1]|]; [|exact I]. simpl.
  destruct (AllocJob snapshot) as [j|]; [|exact I]. simpl.
  destruct (LookupTaskGroup j (AllocTaskGroup snapshot)) as [tg|]; [|auto].
  destruct (allocDir r1) as [d|]; [|exact I]. simpl.
  destruct berr as [err|]; [auto|].
  destruct werr as [[|wmsg]|]; [auto|auto|].
  unfold runTasks.
  destruct (TerminalStatus snapshot).
  - split; [reflexivity|]. split; [reflexivity|].
    rewrite !runStarted_app. reflexivity.
  - destruct (incrCounter r1 [] "start") as [m|]; [|exact I]. simpl.
    destruct (startTasks now r1 (Tasks tg)) as [[r2 eff]|]; [|exact I]. simpl.
    split; [reflexivity|]. split; [reflexivity|].
    rewrite !runStarted_app. reflexivity.
Qed.

(** X23. When [Run] reaches its update loop, every task of the group
    that is not marked restored has a task runner and was started, and a
    restored task has the runner it had, or none, and was not started. *)
Theorem Run_starts_unrestored_tasks :
  forall (env : RunEnv) (nodeID : option string) (now : Time)
         (r r' : AllocRunner) (evs : list RunEvent),
    runStart TerminalStatus Terminated env nodeID now r
    = Some (RunSupervises, r', evs) ->
    exists a j tg,
      alloc r = Some a /\ AllocJob a = Some j /\
      LookupTaskGroup j (AllocTaskGroup a) = Some tg /\
      (forall task, In task (Tasks tg) -> TaskName task ∉ restored r ->
         is_Some (tasks r' !! TaskName task) /\ TaskName task ∈ runStarted evs) /\
      (forall n, n ∈ restored r ->
         tasks r' !! n = tasks r !! n /\ n ∉ runStarted evs).
Proof.
  intros env nodeID now r r' evs H.
  apply runStart_cases in H
    as (r0 & snapshot & r1 & j & Hl & HA & Hj & Hcases).
  destruct Hcases as [(Hp & _)|[(Hp & _)|(tg & before & Hg & _ & _ & _ & Hb & Hrun)]];
    try discriminate.
  destruct (runTasks_cases _ _ _ _ _ _ _ _ Hrun Hb)
    as [(_ & Hp & _)|(_ & _ & eff & Hstart & Hevs)]; [discriminate|].
  pose proof (setBaseLabels_frame _ _ _ Hl) as Hr0.
  pose proof (Alloc_runner _ _ _ _ HA) as Hr1.
  rewrite Alloc_composed in HA.
  destruct (alloc r0) as [a|] eqn:Ha; [|discriminate]. simpl in HA.
  apply finalizeTerminalAlloc_fields in HA.
  destruct (composed_fields r0 a) as (Hcj & Hcg & _).
  assert (Hjob : AllocJob snapshot = AllocJob a) by (rewrite HA; exact Hcj).
  assert (Hgrp : AllocTaskGroup snapshot = AllocTaskGroup a) by (rewrite HA; exact Hcg).
  exists a, j, tg.
  split; [rewrite Hr0 in Ha; exact Ha|].
  split; [congruence|]. split; [congruence|].
  destruct (startTasks_spec _ _ _ _ _ Hstart) as (_ & _ & Hkeep & Hnew).
  assert (Hres : restored r1 = restored r) by (rewrite Hr1, Hr0; reflexivity).
  assert (Htasks : tasks r1 = tasks r) by (rewrite Hr1, Hr0; reflexivity).
  assert (Hin_started : forall n, n ∈ runStarted evs <-> In (ERun n) eff).
  { intros n. rewrite Hevs, list_elem_of_omap. split.
    - intros (e & He & Hn). destruct e; try discriminate.
      injection Hn as ->. apply list_elem_of_In. exact He.
    - intros Hn. exists (ERun n). split; [apply list_elem_of_In; exact Hn|reflexivity]. }
  split.
  - intros task Hin Hnot. destruct (Hnew (TaskName task)) as [Hs Hrun'].
    + apply list_elem_of_In, in_map. exact Hin.
    + rewrite Hres. exact Hnot.
    + split; [exact Hs|]. apply Hin_started. exact Hrun'.
  - intros n Hn. destruct (Hkeep n) as [Ht He]; [left; rewrite Hres; exact Hn|].
    split; [rewrite Ht, Htasks; reflexivity|].
    intros Hs. apply Hin_started in Hs. apply (He _ Hs). reflexivity.
Qed.

End RunFacts.

(** ** Restoring, then running *)

Section RestoreRunFacts.

Variable TerminalStatus : Allocation -> bool.
Variable Terminated : Allocation -> bool.
Variable trRestoreState : string -> string * option string.

Lemma Alloc_States (r r' : AllocRunner) (now : Time) (snapshot : Allocation) :
  Alloc r now = Some (snapshot, r') ->
  forall n st, taskStates r !! n = Some st ->
    exists st', taskStates r' !! n = Some st' /\ State st' = State st.
Proof.
  intros H n st Hst. destruct (Alloc_taskStates _ _ _ _ H) as [_ Hn].
  destruct (Hn n) as [Ht|Ht]; rewrite Ht, Hst; eexists; split; try reflexivity.
  simpl. apply stampFinished_State.
Qed.

(** One round of the restore loop: what was restored or registered stays
    so, the task states keep their state, and a task that has a state is
    marked restored and, unless dead, gets a runner that is restored. *)
Lemma restoreTask_marks (now : Time) (r r' : AllocRunner) (task : Task)
    (eff : list Effect) (errs : list string) :
  restoreTask TerminalStatus trRestoreState now r task = Some (r', eff, errs) ->
  alloc r' = alloc r /\
  restored r ⊆ restored r' /\
  (forall n, is_Some (tasks r !! n) -> is_Some (tasks r' !! n)) /\
  (forall n st, taskStates r !! n = Some st ->
     exists st', taskStates r' !! n = Some st' /\ State st' = State st) /\
  (forall st, taskStates r !! TaskName task = Some st ->
     TaskName task ∈ restored r' /\
     (State st <> TaskStateDead ->
      is_Some (tasks r' !! TaskName task) /\ In (ETaskRestore (TaskName task)) eff)).
Proof.
  unfold restoreTask. intros H.
  destruct (taskStates r !! TaskName task) as [state|] eqn:Hstate.
  2:{ injection H as <- <- <-.
      split; [reflexivity|]. split; [reflexivity|]. split; [auto|].
      split; [eauto|]. intros st [=]. }
  bind_inv H.
  set (r1 := set_restored ({[TaskName task]} ∪ restored r) r) in *.
  set (r2 := if decide (TaskName task ∈ TaskDirs a) then r1
             else set_allocDir (Some (NewTaskDir (TaskName task) a)) r1) in *.
  assert (Hr2 : alloc r2 = alloc r /\ restored r2 = {[TaskName task]} ∪ restored r /\
                tasks r2 = tasks r /\ taskStates r2 = taskStates r).
  { unfold r2. destruct (decide _); auto. }
  destruct Hr2 as (Ha2 & Hres2 & Ht2 & Hts2).
  destruct (decide (State state = TaskStateDead)) as [Hd|Hnd].
  - injection H as <- <- <-. rewrite Ha2, Hres2, Ht2, Hts2.
    split; [reflexivity|]. split; [apply union_subseteq_r|]. split; [auto|].
    split; [eauto|]. intros st [= <-].
    split; [apply elem_of_union_l, elem_of_singleton; reflexivity|]. contradiction.
  - unfold restoreRunner in H. bind_inv H. destruct p as [snapshot r3].
    bind_inv H.
    pose proof (Alloc_runner _ _ _ _ E0) as Hr3.
    pose proof (Alloc_States _ _ _ _ E0) as Hst3.
    assert (Hfin : exists eff' errs',
               r' = set_tasks (<[TaskName task :=
                                   {| tr_task := task; tr_alloc := Some snapshot |}]>
                                 (tasks r3)) r3 /\
               eff = ETaskRestore (TaskName task) :: eff' /\ errs = errs').
    { destruct (trRestoreState (TaskName task)) as [reason [err|]].
      - injection H as <- <- <-. eauto.
      - destruct (negb (TerminalStatus a0)); injection H as <- <- <-; eauto. }
    destruct Hfin as (eff' & errs' & -> & -> & _). simpl.
    assert (Ha3 : alloc r3 = alloc r) by (rewrite Hr3; exact Ha2).
    assert (Hres3 : restored r3 = {[TaskName task]} ∪ restored r)
      by (rewrite Hr3; exact Hres2).
    assert (Ht3 : tasks r3 = tasks r) by (rewrite Hr3; exact Ht2).
    rewrite Ha3, Hres3, Ht3.
    split; [reflexivity|]. split; [apply union_subseteq_r|]. split.
    { intros n Hn. destruct (decide (TaskName task = n)) as [->|Hne].
      - rewrite lookup_insert_eq. eauto.
      - rewrite lookup_insert_ne by exact Hne. exact Hn. }
    split.
    { intros n st Hst. apply Hst3. rewrite Hts2. exact Hst. }
    intros st [= <-].
    split; [apply elem_of_union_l, elem_of_singleton; reflexivity|]. intros _.
    rewrite lookup_insert_eq. split; [eauto|]. left. reflexivity.
Qed.

Lemma restoreTasks_marks (now : Time) (group : list Task) (r r' : AllocRunner)
    (eff : list Effect) (errs : list string) :
  restoreTasks TerminalStatus trRestoreState now r group = Some (r', eff, errs) ->
  alloc r' = alloc r /\
  restored r ⊆ restored r' /\
  (forall n, is_Some (tasks r !! n) -> is_Some (tasks r' !! n)) /\
  (forall n st, taskStates r !! n = Some st ->
     exists st', taskStates r' !! n = Some st' /\ State st' = State st) /\
  (forall task st, In task group -> taskStates r !! TaskName task = Some st ->
     TaskName task ∈ restored r' /\
     (State st <> TaskStateDead ->
      is_Some (tasks r' !! TaskName task) /\ In (ETaskRestore (TaskName task)) eff)).
Proof.
  revert r r' eff errs.
  induction group as [|task rest IH]; intros r r' eff errs H; simpl in H.
  - injection H as <- <- <-.
    split; [reflexivity|]. split; [reflexivity|]. split; [auto|].
    split; [eauto|]. intros task st [].
  - bind_inv H. destruct p as [[r1 eff1] errs1].
    bind_inv H. destruct p as [[r2 eff2] errs2]. injection H as <- <- <-.
    destruct (restoreTask_marks _ _ _ _ _ _ E) as (Ha1 & Hres1 & Ht1 & Hs1 & Hm1).
    destruct (IH _ _ _ _ E0) as (Ha2 & Hres2 & Ht2 & Hs2 & Hm2).
    split; [congruence|]. split; [etrans; eassumption|]. split; [auto|]. split.
    { intros n st Hst. destruct (Hs1 n st Hst) as (st1 & Hst1 & HS1).
      destruct (Hs2 n st1 Hst1) as (st2 & Hst2 & HS2).
      exists st2. split; [exact Hst2|congruence]. }
    intros task' st [<-|Hin] Hst.
    + destruct (Hm1 st Hst) as [Hr Hlive]. split; [apply Hres2, Hr|].
      intros Hnd. destruct (Hlive Hnd) as [Hrun Heff].
      split; [auto|]. apply in_or_app. left. exact Heff.
    + destruct (Hs1 _ st Hst) as (st1 & Hst1 & HS1).
      destruct (Hm2 task' st1 Hin Hst1) as [Hr Hlive]. split; [exact Hr|].
      intros Hnd. destruct Hlive as [Hrun Heff]; [congruence|].
      split; [exact Hrun|]. apply in_or_app. right. exact Heff.
Qed.

(** [RestoreState] on a store whose four records can be read. *)
Lemma RestoreState_read (now : Time) (r r' : AllocRunner) (db : StateDB)
    (rec : Restored) (err : option (list string)) (eff : list Effect) :
  RestoreState TerminalStatus trRestoreState now r db = Some (err, r', eff) ->
  viewRecords db = inl rec ->
  exists a j r1,
    rs_alloc rec = Some a /\ AllocJob a = Some j /\
    alloc r1 = Some (set_DeploymentStatus (rs_deployment rec)
                       (set_ClientStatus (getClientStatus (rs_taskStates rec)) a)) /\
    taskStates r1 = rs_taskStates rec /\
    tasks r1 = tasks r /\ restored r1 = restored r /\
    allocClientStatus r1 = rs_status rec /\
    ((LookupTaskGroup j (AllocTaskGroup a) = None /\ r' = r1 /\ eff = []) \/
     exists tg errs,
       LookupTaskGroup j (AllocTaskGroup a) = Some tg /\
       restoreTasks TerminalStatus trRestoreState now r1 (Tasks tg)
       = Some (r', eff, errs)).
Proof.
  unfold RestoreState. intros H Hv. rewrite Hv in H.
  destruct (rs_alloc rec) as [a|]; [simpl in H|discriminate].
  destruct (AllocJob _) as [j|] eqn:Hj in H; [simpl in H|discriminate].
  simpl in Hj. exists a, j.
  exists (set_taskStates (rs_taskStates rec)
            (set_allocClientDescription (rs_description rec)
               (set_allocClientStatus (rs_status rec)
                  (set_allocDir (Some (rs_allocDir rec))
                     (set_alloc
                        (Some (set_DeploymentStatus (rs_deployment rec)
                                 (set_ClientStatus (getClientStatus (rs_taskStates rec)) a)))
                        r))))).
  split; [reflexivity|]. split; [exact Hj|].
  split; [reflexivity|]. split; [reflexivity|]. split; [reflexivity|].
  split; [reflexivity|]. split; [reflexivity|].
  destruct (LookupTaskGroup j (AllocTaskGroup a)) as [tg|].
  - bind_inv H. destruct p as [[r2 eff2] errs]. injection H as _ <- <-.
    right. eauto.
  - injection H as _ <- <-. left. auto.
Qed.

(** X24. After [RestoreState] has read the four records and found the
    task group, every task of the group that has a persisted state is
    marked restored, whatever that state is, and every such task whose
    state is not dead has a task runner, which was asked to restore. *)
Theorem RestoreState_restores_tasks :
  forall (now : Time) (r r' : AllocRunner) (db : StateDB) (rec : Restored)
         (err : option (list string)) (eff : list Effect)
         (a : Allocation) (j : Job) (tg : TaskGroup) (task : Task) (st : TaskState),
    RestoreState TerminalStatus trRestoreState now r db = Some (err, r', eff) ->
    viewRecords db = inl rec ->
    rs_alloc rec = Some a ->
    AllocJob a = Some j ->
    LookupTaskGroup j (AllocTaskGroup a) = Some tg ->
    In task (Tasks tg) ->
    rs_taskStates rec !! TaskName task = Some st ->
    TaskName task ∈ restored r' /\
    (State st <> TaskStateDead ->
     is_Some (tasks r' !! TaskName task) /\ In (ETaskRestore (TaskName task)) eff).
Proof.
  intros now r r' db rec err eff a j tg task st H Hv Ha Hj Hg Hin Hst.
  destruct (RestoreState_read _ _ _ _ _ _ _ H Hv)
    as (a' & j' & r1 & Ha' & Hj' & _ & Hts & _ & _ & _ & Hcases).
  assert (a' = a) by congruence. subst a'.
  assert (j' = j) by congruence. subst j'.
  destruct Hcases as [(Hnone & _)|(tg' & errs & Hg' & Hloop)]; [congruence|].
  assert (tg' = tg) by congruence. subst tg'.
  destruct (restoreTasks_marks _ _ _ _ _ _ Hloop) as (_ & _ & _ & _ & Hm).
  apply (Hm task st Hin). rewrite Hts. exact Hst.
Qed.

Lemma restoreTasks_dead_restored (now : Time) (name : string) (group : list Task)
    (r r' : AllocRunner) (eff : list Effect) (errs : list string) :
  restoreTasks TerminalStatus trRestoreState now r group = Some (r', eff, errs) ->
  isDead name r ->
  name ∈ map TaskName group ->
  name ∈ restored r'.
Proof.
  intros H (st & Hst & _) Hin.
  apply list_elem_of_In, in_map_iff in Hin as (task & <- & Hin).
  destruct (restoreTasks_marks _ _ _ _ _ _ H) as (_ & _ & _ & _ & Hm).
  apply (Hm task st Hin Hst).
Qed.

(** X25. A task persisted as dead is never launched again: after
    [RestoreState] has read a state in which the task is dead, into a
    runner that has no task runner for it, [Run] registers no task runner
    for the task and starts none, however [Run] ends. *)
Theorem dead_task_never_relaunched :
  forall (env : RunEnv) (nodeID : option string) (now now' : Time)
         (r r1 r2 : AllocRunner) (db : StateDB) (rec : Restored)
         (err : option (list string)) (eff : list Effect)
         (name : string) (st : TaskState) (phase : RunPhase) (evs : list RunEvent),
    RestoreState TerminalStatus trRestoreState now r db = Some (err, r1, eff) ->
    viewRecords db = inl rec ->
    rs_taskStates rec !! name = Some st ->
    State st = TaskStateDead ->
    tasks r !! name = None ->
    runStart TerminalStatus Terminated env nodeID now' r1 = Some (phase, r2, evs) ->
    tasks r2 !! name = None /\ name ∉ runStarted evs.
Proof.
  intros env nodeID now now' r r1 r2 db rec err eff name st phase evs
    H Hv Hst Hdead Hnone Hrun.
  destruct (RestoreState_read _ _ _ _ _ _ _ H Hv)
    as (a & j & r0 & Ha & Hj & Ha0 & Hts & Ht0 & _ & _ & Hcases).
  assert (Hinv0 : deadUnrun name r0).
  { split; [|rewrite Ht0; exact Hnone]. exists st. rewrite Hts. auto. }
  set (a2 := set_DeploymentStatus (rs_deployment rec)
               (set_ClientStatus (getClientStatus (rs_taskStates rec)) a)) in *.
  assert (Hfacts : alloc r1 = Some a2 /\ tasks r1 !! name = None /\
                   forall tg, LookupTaskGroup j (AllocTaskGroup a) = Some tg ->
                              name ∈ map TaskName (Tasks tg) -> name ∈ restored r1).
  { destruct Hcases as [(Hg & -> & _)|(tg & errs & Hg & Hloop)].
    - split; [exact Ha0|]. split; [apply Hinv0|]. intros tg Hg'. congruence.
    - destruct (restoreTasks_deadUnrun TerminalStatus trRestoreState now name
                  _ _ _ _ _ Hloop Hinv0) as [[_ Hn1] _].
      destruct (restoreTasks_marks _ _ _ _ _ _ Hloop) as (Ha1 & _).
      split; [congruence|]. split; [exact Hn1|].
      intros tg' Hg' Hin. assert (tg' = tg) by congruence. subst tg'.
      eapply restoreTasks_dead_restored; [exact Hloop|apply Hinv0|exact Hin]. }
  destruct Hfacts as (Ha1 & Hn1 & Hres1).
  destruct phase.
  - destruct (runStart_early TerminalStatus Terminated _ _ _ _ _ _ _ Hrun)
      as (Ht & Hs & _); [discriminate|].
    rewrite Ht, Hs. split; [exact Hn1|]. apply not_elem_of_nil.
  - destruct (runStart_early TerminalStatus Terminated _ _ _ _ _ _ _ Hrun)
      as (Ht & Hs & _); [discriminate|].
    rewrite Ht, Hs. split; [exact Hn1|]. apply not_elem_of_nil.
  - apply runStart_cases in Hrun
      as (r3 & snapshot & r4 & j' & Hl & HA & Hj' & Hc).
    destruct Hc as [(Hp & _)|[(Hp & _)|(tg & before & Hg & _ & _ & _ & Hb & Hrt)]];
      try discriminate.
    destruct (runTasks_cases _ _ _ _ _ _ _ _ _ _ Hrt Hb)
      as [(_ & Hp & _)|(_ & _ & eff' & Hstart & Hevs)]; [discriminate|].
    pose proof (setBaseLabels_frame _ _ _ Hl) as Hr3.
    pose proof (Alloc_runner _ _ _ _ HA) as Hr4.
    rewrite Alloc_composed in HA.
    assert (Ha3 : alloc r3 = Some a2) by (rewrite Hr3; exact Ha1).
    rewrite Ha3 in HA. simpl in HA.
    apply finalizeTerminalAlloc_fields in HA.
    destruct (composed_fields r3 a2) as (Hcj & Hcg & _).
    assert (Hjob : AllocJob snapshot = Some j)
      by (rewrite HA; simpl; rewrite Hcj; exact Hj).
    assert (Hgrp : AllocTaskGroup snapshot = AllocTaskGroup a)
      by (rewrite HA; simpl; rewrite Hcg; reflexivity).
    assert (j' = j) by congruence. subst j'. rewrite Hgrp in Hg.
    destruct (startTasks_spec _ _ _ _ _ Hstart) as (_ & _ & Hkeep & _).
    assert (Hres4 : restored r4 = restored r1) by (rewrite Hr4, Hr3; reflexivity).
    assert (Ht4 : tasks r4 = tasks r1) by (rewrite Hr4, Hr3; reflexivity).
    destruct (Hkeep name) as [Ht He].
    { destruct (decide (name ∈ map TaskName (Tasks tg))) as [Hin|Hnin];
        [left|right; exact Hnin].
      rewrite Hres4. apply (Hres1 tg Hg Hin). }
    split; [rewrite Ht, Ht4; exact Hn1|].
    rewrite Hevs, list_elem_of_omap. intros (e & Hin & Hn).
    destruct e; try discriminate. injection Hn as ->.
    apply (He (ERun name)); [apply list_elem_of_In; exact Hin|reflexivity].
Qed.

End RestoreRunFacts.

(** ** Updates and the end of [Run] *)

Lemma saveAllocRunnerState_frame (r r' : AllocRunner) (db db' : StateDB)
    (f : Faults) (now : Time) (out : SaveOutcome) :
  saveAllocRunnerState r db f now = Some (out, r', db') ->
  alloc r' = alloc r /\ tasks r' = tasks r /\ updateCh r' = updateCh r.
Proof.
  intros H. apply saveAllocRunnerState_cases in H
    as [(_ & _ & -> & _)|(_ & snapshot & r1 & HA & _ & Hcases)]; [auto|].
  pose proof (Alloc_runner _ _ _ _ HA) as Hr1.
  assert (H1 : alloc r1 = alloc r /\ tasks r1 = tasks r /\ updateCh r1 = updateCh r)
    by (rewrite Hr1; auto).
  destruct Hcases as [(_ & -> & _)|(_ & _ & -> & _)]; [exact H1|].
  pose proof (savePlan_commit r1 db snapshot (allocClientStatus r1)
                (allocClientDescription r1) (allocDir r1)) as (_ & _ & _ & Hr & _).
  simpl in Hr. rewrite Hr. exact H1.
Qed.

Lemma saveAllocRunnerState_status (r r' : AllocRunner) (db db' : StateDB)
    (f : Faults) (now : Time) (out : SaveOutcome) :
  saveAllocRunnerState r db f now = Some (out, r', db') ->
  allocClientStatus r' = allocClientStatus r /\
  allocClientDescription r' = allocClientDescription r.
Proof.
  intros H. apply saveAllocRunnerState_cases in H
    as [(_ & _ & -> & _)|(_ & snapshot & r1 & HA & _ & Hcases)]; [auto|].
  pose proof (Alloc_runner _ _ _ _ HA) as Hr1.
  assert (H1 : allocClientStatus r1 = allocClientStatus r /\
               allocClientDescription r1 = allocClientDescription r)
    by (rewrite Hr1; auto).
  destruct Hcases as [(_ & -> & _)|(_ & _ & -> & _)]; [exact H1|].
  pose proof (savePlan_commit r1 db snapshot (allocClientStatus r1)
                (allocClientDescription r1) (allocDir r1)) as (_ & _ & _ & Hr & _).
  simpl in Hr. rewrite Hr. exact H1.
Qed.

(** A store that does not fail commits every attempt made with a live
    context. *)
Lemma execPuts_faultless (f : Faults) (plan : list PlannedPut) (tx : Tx) :
  (forall key, putFails f key = false) ->
  exists tx', execPuts f plan tx = TxOk tx'.
Proof.
  intros Hput. revert tx. induction plan as [|p rest IH]; intros tx; simpl.
  - eauto.
  - unfold PutObject. rewrite Hput. apply IH.
Qed.

Lemma saveAllocRunnerState_commits (r r' : AllocRunner) (db db' : StateDB)
    (f : Faults) (now : Time) (out : SaveOutcome) :
  ctxCanceled r = false ->
  faultless f ->
  saveAllocRunnerState r db f now = Some (out, r', db') ->
  so_committed out = true /\ so_err out = None.
Proof.
  intros Hctx (Hb & Hput & Hc) H.
  destruct (Alloc r now) as [[snapshot r1]|] eqn:HA.
  2:{ unfold saveAllocRunnerState in H. rewrite Hctx, HA in H. discriminate H. }
  rewrite (saveAllocRunnerState_live _ _ _ _ _ _ Hctx HA) in H.
  rewrite saveTx_plan, Hb in H.
  destruct (execPuts_faultless f
              (savePlan r1 snapshot (allocClientStatus r1)
                 (allocClientDescription r1) (allocDir r1)) emptyTx Hput)
    as [tx' Hx].
  rewrite Hx in H. unfold Batch in H. rewrite Hc in H.
  injection H as <- _ _. auto.
Qed.

Lemma runUpdated_app (e1 e2 : list RunEvent) :
  runUpdated (e1 ++ e2) = runUpdated e1 ++ runUpdated e2.
Proof. apply omap_app. Qed.

Lemma runUpdated_forward (update : Allocation) (l : list (string * TaskRunner)) :
  runUpdated (map (fun p : string * TaskRunner => RDo (ETaskUpdate p.1 update)) l)
  = map (fun p : string * TaskRunner => (p.1, update)) l.
Proof.
  induction l as [|p l IH]; [reflexivity|]. simpl. f_equal. exact IH.
Qed.

Lemma runUpdated_sync (r : AllocRunner) (db db' : StateDB) (sendOk : nat -> bool)
    (f : Faults) (now : Time) (out : SaveOutcome) (r' : AllocRunner)
    (eff : list Effect) :
  syncStatus r db sendOk f now = Some (out, r', db', eff) ->
  runUpdated (map RDo eff) = [].
Proof.
  unfold syncStatus. intros H. bind_inv H. destruct p as [snapshot r1].
  bind_inv H. destruct p as [[out' r2] db2]. injection H as _ _ _ <-.
  rewrite sendBroadcast_cases.
  destruct (sendOk 0); [reflexivity|].
  destruct (sendOk 1); [reflexivity|].
  destruct (sendOk 2); reflexivity.
Qed.

Lemma recvUpdate_head (r r' : AllocRunner) (update : Allocation)
    (rest : list Allocation) :
  updateCh r = update :: rest ->
  recvUpdate r = Some r' ->
  alloc r' = Some update /\ updateCh r' = rest /\ tasks r' = tasks r.
Proof.
  unfold recvUpdate. intros Hch H. rewrite Hch in H.
  destruct (alloc r) as [a|]; [simpl in H|discriminate].
  injection H as <-. destruct (decide _); auto.
Qed.

(** X26. One turn of the update loop of [Run] on a pending update: the
    update becomes the runner's allocation; the loop goes on exactly when
    the update is not terminal; a terminal update is forwarded to no task
    runner and nothing is persisted; any other update is forwarded once to
    every registered task runner and to nothing else, also when the status
    sync that follows fails. *)
Theorem handleUpdate_forwards :
  forall (TerminalStatus : Allocation -> bool) (now : Time)
         (sendOk : nat -> bool) (f : Faults) (r r' : AllocRunner)
         (db db' : StateDB) (update : Allocation) (rest : list Allocation)
         (continue : bool) (evs : list RunEvent),
    updateCh r = update :: rest ->
    handleUpdate TerminalStatus now sendOk f r db = Some (continue, r', db', evs) ->
    continue = negb (TerminalStatus update) /\
    alloc r' = Some update /\
    updateCh r' = rest /\
    (TerminalStatus update = true -> db' = db /\ runUpdated evs = []) /\
    (TerminalStatus update = false ->
     runUpdated evs
     ≡ₚ map (fun p : string * TaskRunner => (p.1, update)) (map_to_list (tasks r))).
Proof.
  intros TerminalStatus now sendOk f r r' db db' update rest continue evs Hch H.
  unfold handleUpdate in H. rewrite Hch in H.
  destruct (recvUpdate r) as [r1|] eqn:Hrecv; [simpl in H|discriminate].
  destruct (recvUpdate_head _ _ _ _ Hch Hrecv) as (Ha1 & Hch1 & Ht1).
  destruct (TerminalStatus update) eqn:Hterm.
  - injection H as <- <- <- <-.
    split; [reflexivity|]. split; [exact Ha1|]. split; [exact Hch1|].
    split; [auto|]. discriminate.
  - destruct (syncStatus r1 db sendOk f now) as [[[[out r2] db2] eff]|] eqn:Hsync;
      [simpl in H|discriminate].
    injection H as <- <- <- <-.
    destruct (syncStatus_save _ _ _ _ _ _ _ _ _ Hsync) as (snapshot & r3 & HA & Hsave).
    destruct (saveAllocRunnerState_frame _ _ _ _ _ _ _ Hsave) as (Ha2 & _ & Hch2).
    pose proof (Alloc_runner _ _ _ _ HA) as Hr3.
    assert (H3 : alloc r3 = alloc r1 /\ updateCh r3 = updateCh r1)
      by (rewrite Hr3; auto).
    destruct H3 as [Ha3 Hch3].
    split; [reflexivity|]. split; [congruence|]. split; [congruence|].
    split; [discriminate|]. intros _.
    match goal with
    | |- runUpdated (_ :: ?l) ≡ₚ _ => change (runUpdated (_ :: l)) with (runUpdated l)
    end.
    rewrite !runUpdated_app, runUpdated_forward, (runUpdated_sync _ _ _ _ _ _ _ _ _ Hsync).
    rewrite Ht1. simpl. destruct (so_err out); simpl; rewrite app_nil_r; reflexivity.
Qed.

Lemma runDestroyed_app (e1 e2 : list RunEvent) :
  runDestroyed (e1 ++ e2) = runDestroyed e1 ++ runDestroyed e2.
Proof. apply omap_app. Qed.

Lemma runDestroyed_destroys (ev : TaskEvent) (l : list (string * TaskRunner)) :
  runDestroyed (map (fun p : string * TaskRunner => RDo (EDestroy p.1 ev)) l)
  = map fst l.
Proof.
  induction l as [|p l IH]; [reflexivity|]. simpl. f_equal. exact IH.
Qed.

Lemma runDestroyed_waits (l : list (string * TaskRunner)) :
  runDestroyed (map (fun p : string * TaskRunner => RWaitTask p.1) l) = [].
Proof. induction l as [|p l IH]; [reflexivity|exact IH]. Qed.

Lemma runWaited_app (e1 e2 : list RunEvent) :
  runWaited (e1 ++ e2) = runWaited e1 ++ runWaited e2.
Proof. apply omap_app. Qed.

Lemma runWaited_destroys (ev : TaskEvent) (l : list (string * TaskRunner)) :
  runWaited (map (fun p : string * TaskRunner => RDo (EDestroy p.1 ev)) l) = [].
Proof. induction l as [|p l IH]; [reflexivity|exact IH]. Qed.

Lemma runWaited_waits (l : list (string * TaskRunner)) :
  runWaited (map (fun p : string * TaskRunner => RWaitTask p.1) l) = map fst l.
Proof.
  induction l as [|p l IH]; [reflexivity|]. simpl. f_equal. exact IH.
Qed.

(** The names under which runners are registered, but for one. *)
Lemma others_names (tasks : gmap string TaskRunner) (leader : string) :
  NoDup (map fst (filter (fun p : string * TaskRunner => p.1 <> leader)
                    (map_to_list tasks))) /\
  forall name,
    name ∈ map fst (filter (fun p : string * TaskRunner => p.1 <> leader)
                      (map_to_list tasks))
    <-> is_Some (tasks !! name) /\ name <> leader.
Proof.
  split.
  - pose proof (NoDup_fst_map_to_list tasks) as Hnd.
    induction (map_to_list tasks) as [|p l IH]; [constructor|].
    simpl in Hnd. apply NoDup_cons in Hnd as [Hnin Hnd].
    rewrite filter_cons. destruct (decide _); [|auto].
    simpl. apply NoDup_cons. split; [|auto].
    intros Hin. apply Hnin.
    apply list_elem_of_fmap in Hin as (q & -> & Hq).
    apply list_elem_of_fmap. exists q. split; [reflexivity|].
    apply list_elem_of_filter in Hq as [_ Hq]. exact Hq.
  - intros name. split.
    + intros Hin. apply list_elem_of_fmap in Hin as ([n tr] & -> & Hq).
      apply list_elem_of_filter in Hq as [Hne Hq].
      apply elem_of_map_to_list in Hq. simpl in *. split; [eauto|exact Hne].
    + intros [[tr Htr] Hne]. apply list_elem_of_fmap. exists (name, tr).
      split; [reflexivity|]. apply list_elem_of_filter. split; [exact Hne|].
      apply elem_of_map_to_list. exact Htr.
Qed.

(** X27. When no task runner is registered under the empty name,
    [destroyTaskRunners] destroys every registered task runner exactly
    once, the leader included, and nothing that has no runner; every
    registered runner is waited for.  (The loop over the other runners
    skips the name of the leader, which is the empty string when the group
    has no leader.) *)
Theorem destroyTaskRunners_each_once :
  forall (r : AllocRunner) (destroyEvent : TaskEvent) (evs : list RunEvent),
    destroyTaskRunners r destroyEvent = Some evs ->
    tasks r !! "" = None ->
    NoDup (runDestroyed evs) /\
    forall name,
      (name ∈ runDestroyed evs <-> is_Some (tasks r !! name)) /\
      (is_Some (tasks r !! name) -> name ∈ runWaited evs).
Proof.
  intros r destroyEvent evs H Hempty. unfold destroyTaskRunners in H.
  destruct (alloc r) as [a|]; [simpl in H|discriminate].
  destruct (AllocJob a) as [j|]; [simpl in H|discriminate].
  destruct (LookupTaskGroup j (AllocTaskGroup a)) as [tg|]; [simpl in H|discriminate].
  injection H as <-.
  set (leader := leaderOf (Tasks tg)).
  destruct (others_names (tasks r) leader) as [Hnd Hin].
  assert (Hwait : forall name, is_Some (tasks r !! name) ->
                    name ∈ map fst (map_to_list (tasks r))).
  { intros name [tr Htr]. apply list_elem_of_fmap. exists (name, tr).
    split; [reflexivity|]. apply elem_of_map_to_list. exact Htr. }
  rewrite !runDestroyed_app, !runWaited_app, runDestroyed_destroys, runDestroyed_waits,
    runWaited_destroys, runWaited_waits, app_nil_r. simpl.
  destruct (decide (leader = "")) as [He|Hne].
  - simpl. split; [exact Hnd|]. intros name. split.
    + rewrite Hin. split; [tauto|]. intros Hsome. split; [exact Hsome|].
      intros ->. rewrite He, Hempty in Hsome. destruct Hsome as [? [=]].
    + apply Hwait.
  - destruct (tasks r !! leader) as [tr|] eqn:Hl; simpl.
    + split.
      * apply NoDup_cons. split; [|exact Hnd]. rewrite Hin. tauto.
      * intros name. split.
        -- rewrite elem_of_cons, Hin. split.
           ++ intros [->|[Hs _]]; [rewrite Hl; eauto|exact Hs].
           ++ intros Hs. destruct (decide (name = leader)); auto.
        -- intros Hs. apply elem_of_cons. right. apply Hwait, Hs.
    + split; [exact Hnd|]. intros name. split.
      * rewrite Hin. split; [tauto|]. intros Hs. split; [exact Hs|].
        intros ->. rewrite Hl in Hs. destruct Hs as [? [=]].
      * apply Hwait.
Qed.

(** X28. When the task group has a leader and the leader has a task
    runner, [destroyTaskRunners] destroys the leader and waits for it
    before it destroys any other task runner: the events begin with the
    leader's destruction and the wait on it, and what follows destroys only
    other registered runners. *)
Theorem destroyTaskRunners_leader_first :
  forall (r : AllocRunner) (destroyEvent : TaskEvent) (evs : list RunEvent)
         (a : Allocation) (j : Job) (tg : TaskGroup) (leader : Task) (tr : TaskRunner),
    destroyTaskRunners r destroyEvent = Some evs ->
    alloc r = Some a ->
    AllocJob a = Some j ->
    LookupTaskGroup j (AllocTaskGroup a) = Some tg ->
    find (fun task => Leader task) (Tasks tg) = Some leader ->
    TaskName leader <> "" ->
    tasks r !! TaskName leader = Some tr ->
    exists log rest,
      evs = RDo log :: RDo (EDestroy (TaskName leader) destroyEvent)
              :: RWaitTask (TaskName leader) :: rest /\
      effectTask log = None /\
      forall name, name ∈ runDestroyed rest ->
                   name <> TaskName leader /\ is_Some (tasks r !! name).
Proof.
  intros r destroyEvent evs a j tg leader tr H Ha Hj Hg Hfind Hne Hl.
  unfold destroyTaskRunners in H. rewrite Ha in H. simpl in H.
  rewrite Hj in H. simpl in H. rewrite Hg in H. simpl in H.
  unfold leaderOf in H. rewrite Hfind in H.
  rewrite decide_False in H by exact Hne. rewrite Hl in H.
  injection H as <-. simpl. eexists. eexists. split; [reflexivity|].
  split; [reflexivity|]. intros name.
  rewrite runDestroyed_app, runDestroyed_destroys, runDestroyed_waits, app_nil_r.
  destruct (others_names (tasks r) (TaskName leader)) as [_ Hin].
  rewrite Hin. tauto.
Qed.

(** ** A terminal allocation *)

Lemma Alloc_baseLabels (labels : list (string * string)) (r r' : AllocRunner)
    (now : Time) (snapshot : Allocation) :
  Alloc (set_baseLabels labels r) now = Some (snapshot, r') ->
  exists r0, Alloc r now = Some (snapshot, r0).
Proof.
  unfold Alloc, finalizeTerminalAlloc, overlayHealth. simpl. intros H.
  destruct (alloc r) as [a|]; [simpl in *|discriminate].
  destruct (_ || _); simpl in *.
  - destruct (negb _); [injection H as <- _; eauto|].
    destruct (AllocJob a) as [j|]; [simpl in *|discriminate].
    destruct (LookupTaskGroup j _) as [g|]; [simpl in *|discriminate].
    injection H as <- _. eauto.
  - destruct (negb _); [injection H as <- _; eauto|].
    destruct (AllocJob _) as [j|]; [simpl in *|discriminate].
    destruct (LookupTaskGroup j _) as [g|]; [simpl in *|discriminate].
    injection H as <- _. eauto.
Qed.

Section TerminalFacts.

Variable TerminalStatus : Allocation -> bool.
Variable Terminated : Allocation -> bool.

Lemma runEffects_app (e1 e2 : list RunEvent) :
  runEffects (e1 ++ e2) = runEffects e1 ++ runEffects e2.
Proof. apply omap_app. Qed.

Lemma runEffects_RDo (eff : list Effect) : runEffects (map RDo eff) = eff.
Proof. induction eff as [|e eff IH]; [reflexivity|]. simpl. f_equal. exact IH. Qed.

Lemma incrCounter_quiet (r : AllocRunner) (path : list string) (name : string)
    (m : list Effect) :
  incrCounter r path name = Some m -> broadcasts m = [] /\ handed m = [].
Proof.
  unfold incrCounter. intros H.
  destruct (BackwardsCompatibleMetrics (config r)).
  - bind_inv H. bind_inv H. injection H as <-.
    destruct (DisableTaggedMetrics (config r)); split; reflexivity.
  - injection H as <-. destruct (DisableTaggedMetrics (config r)); split; reflexivity.
Qed.

Lemma sendBroadcast_sent (r : AllocRunner) (sendOk : nat -> bool)
    (snapshot : Allocation) :
  let eff := sendBroadcast r sendOk snapshot in
  handed eff = [] /\
  1 <= length (broadcasts eff) <= 3 /\
  forall s, s ∈ broadcasts eff -> s = snapshot.
Proof.
  intros eff. subst eff. rewrite sendBroadcast_cases.
  destruct (sendOk 0); [|destruct (sendOk 1); [|destruct (sendOk 2)]]; simpl;
    (split; [reflexivity|]); (split; [lia|]); intros s Hs; all_same Hs.
Qed.

(** What [handleDestroy] does before it waits. *)
Lemma handleDestroySync_cases (sendOk : nat -> bool) (f : Faults)
    (unmountErr : option string) (now : Time) (r r2 : AllocRunner)
    (db db' : StateDB) (reported : Allocation) (evs : list RunEvent) :
  handleDestroySync sendOk f unmountErr now r db = Some (reported, r2, db', evs) ->
  exists r1 m out logs,
    Alloc r now = Some (reported, r1) /\
    incrCounter r1 [] "destroy" = Some m /\
    saveAllocRunnerState r1 db f now = Some (out, r2, db') /\
    runEffects evs
    = m ++ sendBroadcast r1 sendOk reported ++ logs ++ [EUpdater reported] /\
    broadcasts logs = [] /\ handed logs = [].
Proof.
  unfold handleDestroySync. intros H.
  destruct (Alloc r now) as [[s r1]|] eqn:HA; [simpl in H|discriminate].
  destruct (incrCounter r1 [] "destroy") as [m|] eqn:Hm; [simpl in H|discriminate].
  destruct (saveAllocRunnerState r1 db f now) as [[[out r3] db3]|] eqn:Hs;
    [simpl in H|discriminate].
  destruct (allocDir r3) as [d|]; [simpl in H|discriminate].
  injection H as <- <- <- <-.
  exists r1, m, out.
  exists ((match so_err out with
           | Some err =>
               [ELog "WARN" ["unable to persist state but should be GC'd soon anyway";
                             allocID r3; err]]
           | None => []
           end)
          ++ match unmountErr with
             | Some err =>
                 [ELog "ERR" ["unable unmount task directories"; allocID r3; err]]
             | None => []
             end).
  split; [first [assumption|reflexivity]|].
  split; [first [assumption|reflexivity]|].
  split; [first [assumption|reflexivity]|].
  split.
  - rewrite !runEffects_app, !runEffects_RDo.
    destruct (so_err out); destruct unmountErr; reflexivity.
  - destruct (so_err out); destruct unmountErr; split; reflexivity.
Qed.

(** X29. An allocation that [Run] finds in a terminal status but not
    terminated is reported complete: [Run] sets the explicit status
    complete with its description, and the runner keeps them through
    [handleDestroy]; the snapshot [handleDestroy] composes carries that
    status and description; that snapshot, and no other, is broadcast, at
    least once and at most three times, and handed to the updater, exactly
    once.  When the context is cancelled nothing is persisted.  Composed
    with a clock that is not zero, the snapshot shows every task of the
    group as finished, and with a live context and a store that does not
    fail the mutable record left in the bucket holds the status complete,
    its description and the task states and deployment status of that
    snapshot. *)
Theorem terminal_alloc_reported_complete :
  forall (env : RunEnv) (nodeID : option string) (now now' : Time)
         (sendOk : nat -> bool) (f : Faults) (unmountErr : option string)
         (r r0 r1 r2 : AllocRunner) (db db' : StateDB)
         (found reported : Allocation) (evs evs' : list RunEvent),
    Alloc r now = Some (found, r0) ->
    Terminated found = false ->
    runStart TerminalStatus Terminated env nodeID now r
    = Some (RunAwaitsDestroy, r1, evs) ->
    handleDestroySync sendOk f unmountErr now' r1 db = Some (reported, r2, db', evs') ->
    let desc := "canceled running tasks for allocation in terminal state" in
    TerminalStatus found = true /\
    (allocClientStatus r1 = AllocClientStatusComplete /\
     allocClientDescription r1 = desc) /\
    (allocClientStatus r2 = AllocClientStatusComplete /\
     allocClientDescription r2 = desc) /\
    ClientStatus reported = AllocClientStatusComplete /\
    ClientDescription reported = desc /\
    handed (runEffects evs') = [reported] /\
    (1 <= length (broadcasts (runEffects evs')) <= 3 /\
     forall s, s ∈ broadcasts (runEffects evs') -> s = reported) /\
    (ctxCanceled r = true -> db' = db) /\
    (now' <> 0%Z ->
     (forall j tg task,
        AllocJob reported = Some j ->
        LookupTaskGroup j (AllocTaskGroup reported) = Some tg ->
        In task (Tasks tg) ->
        exists st,
          TaskStates reported !! TaskName task = Some st /\ FinishedAt st <> 0%Z) /\
     (ctxCanceled r = false -> faultless f ->
      bucket db' !! "mutable"
      = Some (ObjMutable AllocClientStatusComplete desc
                (TaskStates reported) (DeploymentStatus reported)))).
Proof.
  intros env nodeID now now' sendOk f unmountErr r r0 r1 r2 db db' found reported
    evs evs' Hfound Hnt Hrun Hd desc.
  apply runStart_cases in Hrun as (r3 & snapshot & r4 & j0 & Hl & HA & Hj0 & Hc).
  destruct Hc as [(Hp & _)|[(Hp & _)|(tg0 & before & _ & _ & _ & _ & Hb & Hrt)]];
    try discriminate.
  destruct (runTasks_cases _ _ _ _ _ _ _ _ _ _ Hrt Hb)
    as [(Hterm & _ & _ & _ & Hr1)|(_ & Hp & _)]; [|discriminate].
  pose proof (Alloc_runner _ _ _ _ HA) as Hr4.
  pose proof (setBaseLabels_frame _ _ _ Hl) as Hr3.
  rewrite Hr3 in HA.
  destruct (Alloc_baseLabels _ _ _ _ _ HA) as (r0' & HA').
  assert (snapshot = found) by congruence. subst snapshot.
  rewrite Hnt in Hr1. simpl in Hr1.
  assert (Hctx1 : ctxCanceled r1 = ctxCanceled r)
    by (rewrite Hr1, Hr4, Hr3; reflexivity).
  assert (Hst1 : allocClientStatus r1 = AllocClientStatusComplete /\
                 allocClientDescription r1 = desc)
    by (rewrite Hr1; split; reflexivity).
  split; [exact Hterm|]. split; [exact Hst1|].
  apply handleDestroySync_cases in Hd
    as (r5 & m & out & logs & HA1 & Hm & Hsave & Hevs & Hlb & Hlh).
  pose proof (Alloc_runner _ _ _ _ HA1) as Hr5.
  assert (Hst5 : allocClientStatus r5 = AllocClientStatusComplete /\
                 allocClientDescription r5 = desc)
    by (rewrite Hr5; exact Hst1).
  assert (Hctx5 : ctxCanceled r5 = ctxCanceled r) by (rewrite Hr5; exact Hctx1).
  destruct (saveAllocRunnerState_status _ _ _ _ _ _ _ Hsave) as [Hs2 Hd2].
  split; [rewrite Hs2, Hd2; exact Hst5|].
  pose proof HA1 as Hcomposed. rewrite Alloc_composed in Hcomposed.
  destruct (alloc r1) as [al|]; [simpl in Hcomposed|discriminate].
  assert (Hex : composed r1 al
                = set_TaskStates (copyTaskStates (taskStates r1))
                    (set_ClientDescription desc
                       (set_ClientStatus AllocClientStatusComplete al))).
  { rewrite Hr1. reflexivity. }
  apply finalizeTerminalAlloc_cases in Hcomposed
    as [(Hntm & _)|(_ & j1 & g1 & Hj1 & Hg1 & Hrep & _)].
  { rewrite Hex in Hntm. discriminate Hntm. }
  rewrite Hex in Hrep, Hj1, Hg1. simpl in Hj1, Hg1.
  split; [rewrite Hrep; reflexivity|]. split; [rewrite Hrep; reflexivity|].
  destruct (incrCounter_quiet _ _ _ _ Hm) as [Hmb Hmh].
  destruct (sendBroadcast_sent r5 sendOk reported) as (Hsh & Hlen & Hall).
  split.
  { rewrite Hevs. unfold handed. rewrite !omap_app.
    fold (handed m). fold (handed (sendBroadcast r5 sendOk reported)).
    fold (handed logs). rewrite Hmh, Hsh, Hlh. reflexivity. }
  assert (Hbc : broadcasts (runEffects evs')
                = broadcasts (sendBroadcast r5 sendOk reported)).
  { rewrite Hevs. unfold broadcasts. rewrite !omap_app.
    fold (broadcasts m). fold (broadcasts (sendBroadcast r5 sendOk reported)).
    fold (broadcasts logs). rewrite Hmb, Hlb. simpl. rewrite app_nil_r.
    reflexivity. }
  split; [rewrite Hbc; split; [exact Hlen|exact Hall]|].
  split.
  { intros Hcan.
    apply saveAllocRunnerState_cases in Hsave
      as [(_ & _ & _ & ->)|(Hlive & _)]; [reflexivity|congruence]. }
  intros Hnow. split.
  - intros j tg task Hj Hg Hin.
    rewrite Hrep in Hj, Hg |- *. simpl in Hj, Hg |- *.
    assert (j = j1) by congruence. subst j1.
    assert (tg = g1) by congruence. subst g1.
    rewrite finalizeTasks_lookup.
    rewrite decide_True by (apply list_elem_of_In, in_map; exact Hin).
    eexists. split; [reflexivity|]. apply stampFinished_nonzero, Hnow.
  - intros Hlive Hf.
    assert (Hlive5 : ctxCanceled r5 = false) by congruence.
    destruct (saveAllocRunnerState_commits _ _ _ _ _ _ _ Hlive5 Hf Hsave)
      as [Hcommit _].
    pose proof (Alloc_again _ _ _ now' _ Hnow HA1) as HA2.
    apply saveAllocRunnerState_cases in Hsave
      as [(_ & Hout & _)|(_ & s2 & r7 & HA3 & _ & Hcases)].
    { rewrite Hout in Hcommit. discriminate Hcommit. }
    rewrite HA2 in HA3. injection HA3 as <- <-.
    destruct Hcases as [(Hn & _)|(_ & _ & _ & ->)]; [congruence|].
    simpl. rewrite savePlan_mutable.
    destruct Hst5 as [-> ->]. reflexivity.
Qed.

End TerminalFacts.

(** * The theorems on the small allocation *)

(** The explicit status failed with an empty description. *)
Lemma Alloc_explicit_or_derived_witness :
  exists (snapshot : Allocation) (r' : AllocRunner),
    let r := setStatus AllocClientStatusFailed "" exampleRunner in
    Alloc r 100%Z = Some (snapshot, r') /\
    exists a,
      alloc r = Some a /\
      ID snapshot = ID a /\ EvalID snapshot = EvalID a /\
      AllocJob snapshot = AllocJob a /\
      (allocClientStatus r <> "" \/ allocClientDescription r <> "" ->
       ClientStatus snapshot = allocClientStatus r /\
       ClientDescription snapshot = allocClientDescription r) /\
      (allocClientStatus r = "" -> allocClientDescription r = "" ->
       ClientStatus snapshot = getClientStatus (taskStates r) /\
       ClientDescription snapshot = ClientDescription a).
Proof.
  destruct (Alloc (setStatus AllocClientStatusFailed "" exampleRunner) 100%Z)
    as [[snapshot r']|] eqn:H; [|vm_compute in H; discriminate H].
  exists snapshot, r'. cbv zeta. split; [first [exact H|reflexivity]|].
  exact (Alloc_explicit_or_derived _ _ _ _ H).
Defined.

(** The snapshot of the completed allocation, composed twice. *)
Lemma Alloc_stable_witness :
  exists (snapshot : Allocation) (r1 : AllocRunner),
    let r := setStatus AllocClientStatusComplete "" exampleRunner in
    (100 <> 0)%Z /\
    Alloc r 100%Z = Some (snapshot, r1) /\
    Alloc r1 200%Z = Some (snapshot, r1).
Proof.
  destruct (Alloc (setStatus AllocClientStatusComplete "" exampleRunner) 100%Z)
    as [[snapshot r1]|] eqn:H; [|vm_compute in H; discriminate H].
  exists snapshot, r1. cbv zeta.
  assert (H0 : (100 <> 0)%Z) by discriminate.
  split; [exact H0|]. split; [first [exact H|reflexivity]|].
  exact (Alloc_stable _ _ 100%Z 200%Z _ H0 H).
Defined.

(** The watcher found the updated allocation healthy. *)
Lemma Alloc_deployment_health_witness :
  exists (snapshot : Allocation) (r' : AllocRunner),
    let r := set_allocHealthTime 7%Z
               (set_allocHealth (Some true)
                  (set_alloc (Some exampleUpdate) exampleRunner)) in
    Alloc r 100%Z = Some (snapshot, r') /\
    alloc r = Some exampleUpdate /\
    (statusIsExplicit r = true ->
     DeploymentStatus snapshot = DeploymentStatus exampleUpdate) /\
    (statusIsExplicit r = false ->
     (ClientStatus snapshot = AllocClientStatusFailed ->
      DeploymentID exampleUpdate <> "" ->
      IsUnhealthy (DeploymentStatus snapshot) = true) /\
     (forall h,
        allocHealth r = Some h ->
        ClientStatus snapshot <> AllocClientStatusFailed \/ DeploymentID exampleUpdate = "" ->
        DeploymentStatus snapshot
        = Some {| Healthy := Some h; Timestamp := allocHealthTime r |}) /\
     (allocHealth r = None ->
      ClientStatus snapshot <> AllocClientStatusFailed \/ DeploymentID exampleUpdate = "" ->
      DeploymentStatus snapshot = DeploymentStatus exampleUpdate)).
Proof.
  destruct (Alloc (set_allocHealthTime 7%Z
                     (set_allocHealth (Some true)
                        (set_alloc (Some exampleUpdate) exampleRunner))) 100%Z)
    as [[snapshot r']|] eqn:H; [|vm_compute in H; discriminate H].
  exists snapshot, r'. cbv zeta. split; [first [exact H|reflexivity]|]. split; [reflexivity|].
  exact (Alloc_deployment_health _ _ _ _ _ H eq_refl).
Defined.

(** The allocation of the task group "g9", which the job does not have. *)
Lemma Alloc_missing_group_witness :
  let r0 := NewAllocRunner exampleConfig "/var/nomad/alloc" exampleNoGroup in
  let r' := setStatus AllocClientStatusFailed "missing task group 'g9'" r0 in
  alloc r0 = Some exampleNoGroup /\
  AllocJob exampleNoGroup = Some exampleJob /\
  LookupTaskGroup exampleJob (AllocTaskGroup exampleNoGroup) = None /\
  ctxCanceled r0 = false /\
  Alloc r' 100%Z = None /\
  syncStatus r' emptyDB (fun _ => true) noFaults 100%Z = None /\
  saveAllocRunnerState r' emptyDB noFaults 100%Z = None.
Proof.
  cbv zeta.
  split; [reflexivity|]. split; [reflexivity|]. split; [reflexivity|].
  split; [reflexivity|].
  exact (Alloc_missing_group
           (NewAllocRunner exampleConfig "/var/nomad/alloc" exampleNoGroup)
           emptyDB (fun _ => true) noFaults 100%Z exampleNoGroup exampleJob
           "missing task group 'g9'" eq_refl eq_refl eq_refl eq_refl).
Defined.

(** The task "t1", dead and failed at 100, is reported running and then
    the snapshot is composed. *)
Lemma FinishedAt_and_Failed_kept_witness :
  exists (st : TaskState) (w' : World),
    taskStates (w_runner exampleSaved) !! "t1" = Some st /\
    FinishedAt st <> 0%Z /\ Failed st = true /\
    run [OpSetTaskState 300%Z "t1" "running" None false; OpAlloc 400%Z] exampleSaved
    = Some w' /\
    exists st',
      taskStates (w_runner w') !! "t1" = Some st' /\
      (FinishedAt st <> 0%Z -> FinishedAt st' = FinishedAt st) /\
      (Failed st = true -> Failed st' = true).
Proof.
  do 2 eexists.
  split; [vm_compute; reflexivity|].
  split; [discriminate|]. split; [reflexivity|].
  split; [vm_compute; reflexivity|].
  apply (FinishedAt_and_Failed_kept "t1"
           [OpSetTaskState 300%Z "t1" "running" None false; OpAlloc 400%Z]
           exampleSaved).
  - vm_compute. reflexivity.
  - vm_compute. reflexivity.
Defined.

(** The new runner has no event; twelve events later it holds ten. *)
Lemma events_stay_bounded_witness :
  exists w' : World,
    eventsBounded (w_runner exampleWorld) /\
    run (map (fun ev => OpSetTaskState 100%Z "t1" "running" (Some ev) true) exampleEvents)
      exampleWorld = Some w' /\
    eventsBounded (w_runner w').
Proof.
  assert (H0 : eventsBounded (w_runner exampleWorld)).
  { apply (proj2 events_stay_bounded exampleConfig "/var/nomad/alloc" exampleAlloc).
    intros t st H. simpl in H. rewrite lookup_empty in H. discriminate H. }
  eexists. split; [exact H0|].
  split; [vm_compute; reflexivity|].
  apply (proj1 events_stay_bounded
           (map (fun ev => OpSetTaskState 100%Z "t1" "running" (Some ev) true) exampleEvents)
           exampleWorld _ H0).
  vm_compute. reflexivity.
Defined.

(** Two restarts of "t1", one of them reported lazily, and a start. *)
Lemma Restarts_counts_restarting_events_witness :
  exists w' : World,
    let ops := [OpSetTaskState 120%Z "t1" "pending" (Some exampleRestart) false;
                OpSetTaskState 130%Z "t1" "running" None false;
                OpSetTaskState 140%Z "t1" "" (Some exampleRestart) true] in
    (0 <= restartsOf "t1" (w_runner exampleWorld) < 2 ^ 64)%Z /\
    run ops exampleWorld = Some w' /\
    restartsOf "t1" (w_runner w')
    = ((restartsOf "t1" (w_runner exampleWorld) + restartEvents "t1" ops) mod 2 ^ 64)%Z.
Proof.
  assert (H0 : (0 <= restartsOf "t1" (w_runner exampleWorld) < 2 ^ 64)%Z).
  { change (restartsOf "t1" (w_runner exampleWorld)) with 0%Z. lia. }
  eexists. cbv zeta. split; [exact H0|].
  split; [vm_compute; reflexivity|].
  apply (Restarts_counts_restarting_events "t1" _ exampleWorld _ H0).
  vm_compute. reflexivity.
Defined.

(** The task "t1" starts at 100. *)
Lemma setTaskState_StartedAt_witness :
  exists (r' : AllocRunner) (eff : list Effect),
    setTaskState exampleRunner 100%Z "t1" "running" None false = Some (r', eff) /\
    let old := default zeroTaskState (taskStates exampleRunner !! "t1") in
    exists st',
      taskStates r' !! "t1" = Some st' /\
      (false = false -> State st' = TaskStateRunning ->
       State old <> TaskStateRunning -> StartedAt st' = 100%Z) /\
      (false = true \/ State st' <> TaskStateRunning \/
       State old = TaskStateRunning -> StartedAt st' = StartedAt old).
Proof.
  destruct (setTaskState exampleRunner 100%Z "t1" "running" None false)
    as [[r' eff]|] eqn:H; [|vm_compute in H; discriminate H].
  exists r', eff. split; [first [exact H|reflexivity]|].
  exact (setTaskState_StartedAt _ _ _ _ _ _ _ _ H).
Defined.

(** A lazy report of a restart of "t1" that passes the state dead. *)
Lemma setTaskState_lazy_records_only_witness :
  exists (r' : AllocRunner) (eff : list Effect),
    setTaskState exampleRunner 100%Z "t1" "dead" (Some exampleRestart) true
    = Some (r', eff) /\
    let old := default zeroTaskState (taskStates exampleRunner !! "t1") in
    destroyed eff = [] /\
    dirtyCh r' = dirtyCh exampleRunner /\
    (forall t, t <> "t1" -> taskStates r' !! t = taskStates exampleRunner !! t) /\
    exists st',
      taskStates r' !! "t1" = Some st' /\
      State st' = State old /\
      StartedAt st' = StartedAt old /\
      FinishedAt st' = FinishedAt old /\
      (forall ev, Some exampleRestart = Some ev -> last (Events st') = Some ev).
Proof.
  destruct (setTaskState exampleRunner 100%Z "t1" "dead" (Some exampleRestart) true)
    as [[r' eff]|] eqn:H; [|vm_compute in H; discriminate H].
  exists r', eff. split; [first [exact H|reflexivity]|].
  exact (setTaskState_lazy_records_only _ _ _ _ _ _ _ H).
Defined.

(** The failing leader "t1" dies: the runner of "t2" is destroyed. *)
Lemma setTaskState_destroys_only_others_witness :
  exists (r' : AllocRunner) (eff : list Effect),
    let ev := SetFailedSibling (NewTaskEvent 100%Z TaskSiblingFailed) "t1" in
    setTaskState exampleRunner 100%Z "t1" "dead" (Some exampleFailure) false
    = Some (r', eff) /\
    ("t2", ev) ∈ destroyed eff /\
    "t2" <> "t1" /\
    is_Some (tasks exampleRunner !! "t2") /\
    false = false /\
    exists st', taskStates r' !! "t1" = Some st' /\ State st' = TaskStateDead.
Proof.
  do 2 eexists. cbv zeta.
  split; [vm_compute; reflexivity|].
  split; [vm_compute; apply elem_of_cons; left; reflexivity|].
  eapply (setTaskState_destroys_only_others exampleRunner _ 100%Z "t1" "dead"
            (Some exampleFailure) false _ "t2" _).
  - vm_compute. reflexivity.
  - vm_compute. apply elem_of_cons. left. reflexivity.
Defined.

(** The allocation is marked complete while "t2" has not finished; "t2"
    dies at 300. *)
Lemma terminal_snapshot_fixes_FinishedAt_witness :
  exists (snapshot : Allocation) (r1 : AllocRunner) (group : TaskGroup)
         (r2 : AllocRunner) (eff : list Effect),
    let r := setStatus AllocClientStatusComplete "" exampleRunner in
    let task := {| TaskName := "t2"; Leader := false |} in
    (100 <> 0)%Z /\
    Alloc r 100%Z = Some (snapshot, r1) /\
    ClientTerminalStatus snapshot = true /\
    AllocJob snapshot = Some exampleJob /\
    LookupTaskGroup exampleJob (AllocTaskGroup snapshot) = Some group /\
    In task (Tasks group) /\
    FinishedAt (default zeroTaskState (taskStates r !! TaskName task)) = 0%Z /\
    setTaskState r1 300%Z (TaskName task) "dead" None false = Some (r2, eff) /\
    exists st1 st2,
      taskStates r1 !! TaskName task = Some st1 /\ FinishedAt st1 = 100%Z /\
      taskStates r2 !! TaskName task = Some st2 /\ FinishedAt st2 = 100%Z.
Proof.
  do 5 eexists. cbv zeta.
  split; [discriminate|].
  split; [vm_compute; reflexivity|].
  split; [vm_compute; reflexivity|].
  split; [vm_compute; reflexivity|].
  split; [vm_compute; reflexivity|].
  split; [right; left; reflexivity|].
  split; [vm_compute; reflexivity|].
  split; [vm_compute; reflexivity|].
  eapply (terminal_snapshot_fixes_FinishedAt
            (setStatus AllocClientStatusComplete "" exampleRunner) _ _ 100%Z 300%Z _
            exampleJob _ {| TaskName := "t2"; Leader := false |} "dead" None false _).
  - discriminate.
  - vm_compute. reflexivity.
  - vm_compute. reflexivity.
  - vm_compute. reflexivity.
  - vm_compute. reflexivity.
  - right. left. reflexivity.
  - vm_compute. reflexivity.
  - vm_compute. reflexivity.
Defined.

(** A first persistence attempt without faults. *)
Lemma committed_mutable_record_witness :
  exists (out : SaveOutcome) (r' : AllocRunner) (db' : StateDB),
    saveAllocRunnerState exampleRunner emptyDB noFaults 100%Z = Some (out, r', db') /\
    so_committed out = true /\
    exists snapshot r1,
      Alloc exampleRunner 100%Z = Some (snapshot, r1) /\
      bucket db' !! "mutable"
      = Some (ObjMutable (allocClientStatus r') (allocClientDescription r')
                (taskStates r') (DeploymentStatus snapshot)) /\
      taskStates r' = TaskStates snapshot /\
      allocClientStatus r' = allocClientStatus exampleRunner /\
      allocClientDescription r' = allocClientDescription exampleRunner.
Proof.
  do 3 eexists.
  split; [vm_compute; reflexivity|].
  split; [reflexivity|].
  eapply (committed_mutable_record exampleRunner _ emptyDB _ noFaults 100%Z _).
  - vm_compute. reflexivity.
  - reflexivity.
Defined.

(** The records of the first persistence attempt, read back. *)
Lemma first_save_reads_back_witness :
  exists (out : SaveOutcome) (r' : AllocRunner) (db' : StateDB)
         (snapshot : Allocation) (r1 : AllocRunner) (d : AllocDir),
    saveAllocRunnerState exampleRunner emptyDB noFaults 100%Z = Some (out, r', db') /\
    so_committed out = true /\
    Alloc exampleRunner 100%Z = Some (snapshot, r1) /\
    EvalID snapshot <> persistedEval exampleRunner /\
    immutablePersisted exampleRunner = false /\
    allocDirPersisted exampleRunner = false /\
    allocDir exampleRunner = Some d /\
    viewRecords db'
    = inl {| rs_alloc := Some snapshot;
             rs_version := Version (config exampleRunner);
             rs_status := allocClientStatus exampleRunner;
             rs_description := allocClientDescription exampleRunner;
             rs_taskStates := TaskStates snapshot;
             rs_deployment := DeploymentStatus snapshot;
             rs_allocDir := d |}.
Proof.
  do 6 eexists.
  split; [vm_compute; reflexivity|].
  split; [reflexivity|].
  split; [vm_compute; reflexivity|].
  split; [discriminate|].
  split; [reflexivity|].
  split; [reflexivity|].
  split; [reflexivity|].
  eapply (first_save_reads_back exampleRunner _ emptyDB _ noFaults 100%Z _ _ _ _).
  - vm_compute. reflexivity.
  - reflexivity.
  - vm_compute. reflexivity.
  - discriminate.
  - reflexivity.
  - reflexivity.
  - reflexivity.
Defined.

(** The new runner of an allocation without evaluation saves its state:
    the bucket is there, without the [alloc] record, and restoring from it
    fails reading that record. *)
Lemma same_eval_never_persists_alloc_witness :
  exists (out : SaveOutcome) (r' : AllocRunner) (db' : StateDB)
         (snapshot : Allocation) (r1 : AllocRunner),
    let r := NewAllocRunner exampleConfig "/var/nomad/alloc" exampleNoEval in
    saveAllocRunnerState r emptyDB noFaults 100%Z = Some (out, r', db') /\
    so_committed out = true /\
    Alloc r 100%Z = Some (snapshot, r1) /\
    EvalID snapshot = persistedEval r /\
    bucket emptyDB !! "alloc" = None /\
    bucket db' !! "alloc" = None /\
    bucket db' <> ∅ /\
    RestoreState (fun _ => false) (fun _ => ("", None)) 500%Z r db'
    = Some (Some ["failed to read allocation state";
                  "failed to read alloc runner alloc state"], r, []).
Proof.
  do 5 eexists. cbv zeta.
  split; [vm_compute; reflexivity|].
  split; [reflexivity|].
  split; [vm_compute; reflexivity|].
  split; [reflexivity|].
  split; [reflexivity|].
  pose proof (fun r' db' out snapshot r1 =>
                same_eval_never_persists_alloc (fun _ => false) (fun _ => ("", None))
                  (NewAllocRunner exampleConfig "/var/nomad/alloc" exampleNoEval) r'
                  (NewAllocRunner exampleConfig "/var/nomad/alloc" exampleNoEval)
                  emptyDB db' noFaults 100%Z 500%Z out snapshot r1) as T.
  edestruct T as (Hb & Hc & _ & HR).
  - vm_compute. reflexivity.
  - vm_compute. reflexivity.
  - reflexivity.
  - reflexivity.
  - split; [exact Hb|]. split; [exact (Hc eq_refl)|].
    rewrite decide_False in HR by exact (Hc eq_refl). exact HR.
Defined.

(** The runner and its two task runners save their state. *)
Lemma SaveState_order_witness :
  exists (err : option (list string)) (saved : list string)
         (r' : AllocRunner) (db' : StateDB),
    SaveState (fun _ => None) exampleRunner emptyDB noFaults 100%Z
    = Some (err, saved, r', db') /\
    exists out,
      saveAllocRunnerState exampleRunner emptyDB noFaults 100%Z = Some (out, r', db') /\
      (forall e, so_err out = Some e -> err = Some [e] /\ saved = []) /\
      (so_err out = None ->
       NoDup saved /\
       (forall n, n ∈ saved <-> is_Some (tasks exampleRunner !! n)) /\
       (err = None <-> forall n, n ∈ saved -> (fun _ : string => @None string) n = None)) /\
      (ctxCanceled exampleRunner = true ->
       db' = emptyDB /\ forall n, n ∈ saved <-> is_Some (tasks exampleRunner !! n)).
Proof.
  destruct (SaveState (fun _ => None) exampleRunner emptyDB noFaults 100%Z)
    as [[[[err saved] r'] db']|] eqn:H; [|vm_compute in H; discriminate H].
  exists err, saved, r', db'. split; [first [exact H|reflexivity]|].
  exact (SaveState_order _ _ _ _ _ _ _ _ _ H).
Defined.

(** "t1" runs and "t2" was only reported lazily. *)
Lemma getClientStatus_ignores_unknown_witness :
  let states : gmap string TaskState :=
    {[ "t1" := set_State TaskStateRunning zeroTaskState ]} in
  State zeroTaskState <> "running" /\
  State zeroTaskState <> "pending" /\
  State zeroTaskState <> "dead" /\
  getClientStatus (<["t2" := zeroTaskState]> states)
  = getClientStatus (delete "t2" states).
Proof.
  cbv zeta.
  assert (H1 : State zeroTaskState <> "running") by discriminate.
  assert (H2 : State zeroTaskState <> "pending") by discriminate.
  assert (H3 : State zeroTaskState <> "dead") by discriminate.
  split; [exact H1|]. split; [exact H2|]. split; [exact H3|].
  exact (getClientStatus_ignores_unknown _ "t2" zeroTaskState H1 H2 H3).
Defined.


(** An update of another deployment is received. *)
Lemma recvUpdate_deployment_change_witness :
  exists r' : AllocRunner,
    let r := pushUpdates [exampleUpdate]
               (set_allocHealthTime 7%Z (set_allocHealth (Some true) exampleRunner)) in
    updateCh r = [exampleUpdate] /\
    alloc r = Some exampleAlloc /\
    recvUpdate r = Some r' /\
    DeploymentID exampleAlloc <> DeploymentID exampleUpdate /\
    alloc r' = Some exampleUpdate /\
    allocHealth r' = None /\ allocHealthTime r' = 0%Z.
Proof.
  destruct (recvUpdate
              (pushUpdates [exampleUpdate]
                 (set_allocHealthTime 7%Z (set_allocHealth (Some true) exampleRunner))))
    as [r'|] eqn:H; [|vm_compute in H; discriminate H].
  exists r'. cbv zeta.
  assert (Hd : DeploymentID exampleAlloc <> DeploymentID exampleUpdate) by discriminate.
  split; [reflexivity|]. split; [reflexivity|].
  split; [first [exact H|reflexivity]|]. split; [exact Hd|].
  destruct (recvUpdate_deployment_change
              (pushUpdates [exampleUpdate]
                 (set_allocHealthTime 7%Z (set_allocHealth (Some true) exampleRunner)))
              r' exampleUpdate exampleAlloc [] eq_refl eq_refl H) as (Ha & _ & Hchange).
  destruct (Hchange Hd) as (Hh & Ht & _).
  split; [exact Ha|]. split; [exact Hh|exact Ht].
Defined.

(** The wait for the previous allocation of the new allocation is
    cancelled: [Run] returns and the status is as it was, empty and not
    failed.  When instead its directory cannot be built, the status is
    failed. *)
Lemma Run_starts_nothing_unless_supervising_witness :
  (exists (r' : AllocRunner) (evs : list RunEvent),
      let r := w_runner exampleWorld in
      runStart (fun _ => false) (fun _ => false) exampleCancelled (Some "n1") 100%Z r
      = Some (RunExited, r', evs) /\
      tasks r' = tasks r /\
      runStarted evs = [] /\
      allocClientStatus r' = "" /\
      allocClientDescription r' = "") /\
  (exists (r' : AllocRunner) (evs : list RunEvent),
      let r := w_runner exampleWorld in
      runStart (fun _ => false) (fun _ => false) exampleNoDisk (Some "n1") 100%Z r
      = Some (RunExited, r', evs) /\
      tasks r' = tasks r /\
      runStarted evs = [] /\
      allocClientStatus r' = AllocClientStatusFailed).
Proof.
  split.
  - pose proof (fun r' evs =>
                  Run_starts_nothing_unless_supervising (fun _ => false) (fun _ => false)
                    exampleCancelled (Some "n1") 100%Z (w_runner exampleWorld)
                    r' RunExited evs) as T.
    do 2 eexists. cbv zeta.
    split; [vm_compute; reflexivity|].
    edestruct T as (Ht & Hs & Hst).
    + vm_compute. reflexivity.
    + discriminate.
    + destruct (Hst eq_refl) as (a & j & Ha & Hj & Hcancel & _).
      injection Ha as <-. injection Hj as <-.
      split; [exact Ht|]. split; [exact Hs|].
      apply Hcancel. split; [eexists; reflexivity|]. split; [reflexivity|].
      left. reflexivity.
  - pose proof (fun r' evs =>
                  Run_starts_nothing_unless_supervising (fun _ => false) (fun _ => false)
                    exampleNoDisk (Some "n1") 100%Z (w_runner exampleWorld)
                    r' RunExited evs) as T.
    do 2 eexists. cbv zeta.
    split; [vm_compute; reflexivity|].
    edestruct T as (Ht & Hs & Hst).
    + vm_compute. reflexivity.
    + discriminate.
    + destruct (Hst eq_refl) as (a & j & Ha & Hj & _ & Hfail).
      split; [exact Ht|]. split; [exact Hs|].
      apply Hfail. intros (_ & Hb & _). discriminate Hb.
Defined.

(** The new allocation is run: "t1" and "t2" are started. *)
Lemma Run_starts_unrestored_tasks_witness :
  exists (r' : AllocRunner) (evs : list RunEvent),
    let r := w_runner exampleWorld in
    runStart (fun _ => false) (fun _ => false) exampleEnv (Some "n1") 100%Z r
    = Some (RunSupervises, r', evs) /\
    exists a j tg,
      alloc r = Some a /\ AllocJob a = Some j /\
      LookupTaskGroup j (AllocTaskGroup a) = Some tg /\
      (forall task, In task (Tasks tg) -> TaskName task ∉ restored r ->
         is_Some (tasks r' !! TaskName task) /\ TaskName task ∈ runStarted evs) /\
      (forall n, n ∈ restored r ->
         tasks r' !! n = tasks r !! n /\ n ∉ runStarted evs).
Proof.
  do 2 eexists. cbv zeta.
  split; [vm_compute; reflexivity|].
  eapply (Run_starts_unrestored_tasks (fun _ => false) (fun _ => false)
            exampleEnv (Some "n1") 100%Z (w_runner exampleWorld) _ _).
  vm_compute. reflexivity.
Defined.

(** The state saved with "t1" dead and "t2" running is restored: "t2" has
    a task runner again. *)
Lemma RestoreState_restores_tasks_witness :
  exists (rec : Restored) (err : option (list string)) (r' : AllocRunner)
         (eff : list Effect) (a : Allocation) (tg : TaskGroup) (st : TaskState),
    let r := NewAllocRunner exampleConfig "/var/nomad/alloc" exampleAlloc in
    let task := {| TaskName := "t2"; Leader := false |} in
    RestoreState (fun _ => false) (fun _ => ("", None)) 500%Z r (w_db exampleSaved)
    = Some (err, r', eff) /\
    viewRecords (w_db exampleSaved) = inl rec /\
    rs_alloc rec = Some a /\
    AllocJob a = Some exampleJob /\
    LookupTaskGroup exampleJob (AllocTaskGroup a) = Some tg /\
    In task (Tasks tg) /\
    rs_taskStates rec !! TaskName task = Some st /\
    State st <> TaskStateDead /\
    TaskName task ∈ restored r' /\
    (State st <> TaskStateDead ->
     is_Some (tasks r' !! TaskName task) /\ In (ETaskRestore (TaskName task)) eff).
Proof.
  do 7 eexists. cbv zeta.
  split; [vm_compute; reflexivity|].
  split; [vm_compute; reflexivity|].
  split; [vm_compute; reflexivity|].
  split; [vm_compute; reflexivity|].
  split; [vm_compute; reflexivity|].
  split; [right; left; reflexivity|].
  split; [vm_compute; reflexivity|].
  split; [discriminate|].
  eapply (RestoreState_restores_tasks (fun _ => false) (fun _ => ("", None)) 500%Z
            (NewAllocRunner exampleConfig "/var/nomad/alloc" exampleAlloc)
            _ (w_db exampleSaved) _ _ _ _ exampleJob _
            {| TaskName := "t2"; Leader := false |} _).
  - vm_compute. reflexivity.
  - vm_compute. reflexivity.
  - vm_compute. reflexivity.
  - vm_compute. reflexivity.
  - vm_compute. reflexivity.
  - right. left. reflexivity.
  - vm_compute. reflexivity.
Defined.

(** The state saved with "t1" dead is restored and the allocation is run
    again: "t1" is not started. *)
Lemma dead_task_never_relaunched_witness :
  exists (rec : Restored) (err : option (list string)) (r1 : AllocRunner)
         (eff : list Effect) (st : TaskState) (phase : RunPhase)
         (r2 : AllocRunner) (evs : list RunEvent),
    let r := NewAllocRunner exampleConfig "/var/nomad/alloc" exampleAlloc in
    RestoreState (fun _ => false) (fun _ => ("", None)) 500%Z r (w_db exampleSaved)
    = Some (err, r1, eff) /\
    viewRecords (w_db exampleSaved) = inl rec /\
    rs_taskStates rec !! "t1" = Some st /\
    State st = TaskStateDead /\
    tasks r !! "t1" = None /\
    runStart (fun _ => false) (fun _ => false) exampleEnv (Some "n1") 600%Z r1
    = Some (phase, r2, evs) /\
    tasks r2 !! "t1" = None /\ "t1" ∉ runStarted evs.
Proof.
  do 8 eexists. cbv zeta.
  split; [vm_compute; reflexivity|].
  split; [vm_compute; reflexivity|].
  split; [vm_compute; reflexivity|].
  split; [reflexivity|].
  split; [reflexivity|].
  split; [vm_compute; reflexivity|].
  eapply (dead_task_never_relaunched (fun _ => false) (fun _ => false)
            (fun _ => ("", None)) exampleEnv (Some "n1") 500%Z 600%Z
            (NewAllocRunner exampleConfig "/var/nomad/alloc" exampleAlloc)
            _ _ (w_db exampleSaved) _ _ _ "t1" _ _ _).
  - vm_compute. reflexivity.
  - vm_compute. reflexivity.
  - vm_compute. reflexivity.
  - reflexivity.
  - reflexivity.
  - vm_compute. reflexivity.
Defined.

(** An update that is not terminal reaches both task runners. *)
Lemma handleUpdate_forwards_witness :
  exists (continue : bool) (r' : AllocRunner) (db' : StateDB) (evs : list RunEvent),
    let r := pushUpdates [exampleUpdate] exampleRunner in
    let TerminalStatus := fun _ : Allocation => false in
    updateCh r = [exampleUpdate] /\
    handleUpdate TerminalStatus 100%Z (fun _ => true) noFaults r emptyDB
    = Some (continue, r', db', evs) /\
    continue = negb (TerminalStatus exampleUpdate) /\
    alloc r' = Some exampleUpdate /\
    updateCh r' = [] /\
    (TerminalStatus exampleUpdate = true -> db' = emptyDB /\ runUpdated evs = []) /\
    (TerminalStatus exampleUpdate = false ->
     runUpdated evs
     ≡ₚ map (fun p : string * TaskRunner => (p.1, exampleUpdate))
          (map_to_list (tasks r))).
Proof.
  destruct (handleUpdate (fun _ => false) 100%Z (fun _ => true) noFaults
              (pushUpdates [exampleUpdate] exampleRunner) emptyDB)
    as [[[[continue r'] db'] evs]|] eqn:H; [|vm_compute in H; discriminate H].
  exists continue, r', db', evs. cbv zeta.
  split; [reflexivity|]. split; [first [exact H|reflexivity]|].
  exact (handleUpdate_forwards (fun _ => false) 100%Z (fun _ => true) noFaults
           (pushUpdates [exampleUpdate] exampleRunner) r' emptyDB db'
           exampleUpdate [] continue evs eq_refl H).
Defined.

(** The two task runners of the small allocation are destroyed. *)
Lemma destroyTaskRunners_each_once_witness :
  exists evs : list RunEvent,
    destroyTaskRunners exampleRunner (NewTaskEvent 100%Z TaskKilled) = Some evs /\
    tasks exampleRunner !! "" = None /\
    NoDup (runDestroyed evs) /\
    forall name,
      (name ∈ runDestroyed evs <-> is_Some (tasks exampleRunner !! name)) /\
      (is_Some (tasks exampleRunner !! name) -> name ∈ runWaited evs).
Proof.
  destruct (destroyTaskRunners exampleRunner (NewTaskEvent 100%Z TaskKilled))
    as [evs|] eqn:H; [|vm_compute in H; discriminate H].
  exists evs.
  assert (H0 : tasks exampleRunner !! "" = None) by (vm_compute; reflexivity).
  split; [first [exact H|reflexivity]|]. split; [exact H0|].
  exact (destroyTaskRunners_each_once _ _ _ H H0).
Defined.

(** The leader "t1" is destroyed and waited for first. *)
Lemma destroyTaskRunners_leader_first_witness :
  exists (evs : list RunEvent) (tr : TaskRunner),
    let leader := {| TaskName := "t1"; Leader := true |} in
    let destroyEvent := NewTaskEvent 100%Z TaskKilled in
    destroyTaskRunners exampleRunner destroyEvent = Some evs /\
    alloc exampleRunner = Some exampleAlloc /\
    AllocJob exampleAlloc = Some exampleJob /\
    find (fun task => Leader task)
      (Tasks {| GroupName := "g1";
                Tasks := [leader; {| TaskName := "t2"; Leader := false |}] |})
    = Some leader /\
    TaskName leader <> "" /\
    tasks exampleRunner !! TaskName leader = Some tr /\
    exists log rest,
      evs = RDo log :: RDo (EDestroy (TaskName leader) destroyEvent)
              :: RWaitTask (TaskName leader) :: rest /\
      effectTask log = None /\
      forall name, name ∈ runDestroyed rest ->
                   name <> TaskName leader /\ is_Some (tasks exampleRunner !! name).
Proof.
  destruct (destroyTaskRunners exampleRunner (NewTaskEvent 100%Z TaskKilled))
    as [evs|] eqn:H; [|vm_compute in H; discriminate H].
  exists evs, {| tr_task := {| TaskName := "t1"; Leader := true |};
                 tr_alloc := Some exampleAlloc |}.
  cbv zeta.
  assert (Hne : TaskName {| TaskName := "t1"; Leader := true |} <> "") by discriminate.
  assert (Hl : tasks exampleRunner !! TaskName {| TaskName := "t1"; Leader := true |}
               = Some {| tr_task := {| TaskName := "t1"; Leader := true |};
                         tr_alloc := Some exampleAlloc |})
    by (vm_compute; reflexivity).
  split; [first [exact H|reflexivity]|].
  split; [reflexivity|]. split; [reflexivity|]. split; [reflexivity|].
  split; [exact Hne|]. split; [exact Hl|].
  exact (destroyTaskRunners_leader_first exampleRunner _ evs exampleAlloc exampleJob
           {| GroupName := "g1";
              Tasks := [{| TaskName := "t1"; Leader := true |};
                        {| TaskName := "t2"; Leader := false |}] |}
           {| TaskName := "t1"; Leader := true |} _ H eq_refl eq_refl eq_refl eq_refl
           Hne Hl).
Defined.

(** The allocation the server wants stopped is run, and the store does
    not fail. *)
Lemma terminal_alloc_reported_complete_witness :
  exists (found : Allocation) (r0 r1 : AllocRunner) (evs : list RunEvent)
         (reported : Allocation) (r2 : AllocRunner) (db' : StateDB)
         (evs' : list RunEvent),
    let r := NewAllocRunner exampleConfig "/var/nomad/alloc" exampleStopped in
    let desc := "canceled running tasks for allocation in terminal state" in
    Alloc r 100%Z = Some (found, r0) /\
    ClientTerminalStatus found = false /\
    runStart exampleTerminal ClientTerminalStatus exampleEnv (Some "n1") 100%Z r
    = Some (RunAwaitsDestroy, r1, evs) /\
    handleDestroySync (fun _ => true) noFaults None 200%Z r1 emptyDB
    = Some (reported, r2, db', evs') /\
    exampleTerminal found = true /\
    (allocClientStatus r1 = AllocClientStatusComplete /\
     allocClientDescription r1 = desc) /\
    (allocClientStatus r2 = AllocClientStatusComplete /\
     allocClientDescription r2 = desc) /\
    ClientStatus reported = AllocClientStatusComplete /\
    ClientDescription reported = desc /\
    handed (runEffects evs') = [reported] /\
    (1 <= length (broadcasts (runEffects evs')) <= 3 /\
     forall s, s ∈ broadcasts (runEffects evs') -> s = reported) /\
    (forall j tg task,
        AllocJob reported = Some j ->
        LookupTaskGroup j (AllocTaskGroup reported) = Some tg ->
        In task (Tasks tg) ->
        exists st,
          TaskStates reported !! TaskName task = Some st /\ FinishedAt st <> 0%Z) /\
    bucket db' !! "mutable"
    = Some (ObjMutable AllocClientStatusComplete desc
              (TaskStates reported) (DeploymentStatus reported)).
Proof.
  pose proof (fun r0 r1 r2 db' found reported evs evs' =>
                terminal_alloc_reported_complete exampleTerminal ClientTerminalStatus
                  exampleEnv (Some "n1") 100%Z 200%Z (fun _ => true) noFaults None
                  (NewAllocRunner exampleConfig "/var/nomad/alloc" exampleStopped)
                  r0 r1 r2 emptyDB db' found reported evs evs') as T.
  do 8 eexists. cbv zeta.
  split; [vm_compute; reflexivity|].
  split; [vm_compute; reflexivity|].
  split; [vm_compute; reflexivity|].
  split; [vm_compute; reflexivity|].
  edestruct T as (H1 & H2 & H3 & H4 & H5 & H6 & H7 & _ & H9).
  - vm_compute. reflexivity.
  - vm_compute. reflexivity.
  - vm_compute. reflexivity.
  - vm_compute. reflexivity.
  - assert (Hnow : (200 <> 0)%Z) by discriminate.
    destruct (H9 Hnow) as [Hfin Hput].
    split; [exact H1|]. split; [exact H2|]. split; [exact H3|].
    split; [exact H4|]. split; [exact H5|]. split; [exact H6|].
    split; [exact H7|]. split; [exact Hfin|].
    apply Hput; [reflexivity|].
    split; [reflexivity|]. split; [intros key; reflexivity|reflexivity].
Defined.
